(** * Handheld platform drivers: the Zotac fan-curve controller and the
      Legion Go S MCU configuration engine

    A shallow embedding of

      - drivers/platform/x86/zotac-zone-platform.c
      - drivers/hid/lenovo-legos-hid/lenovo-legos-hid-config.c

    C integers are carried in [Z] with the wrap-around of their type written
    out; driver-global structures are records threaded through every
    operation; the hardware (EC ports, the HID transport) is an explicit
    part of the state. *)

From Stdlib Require Import ZArith Lia Bool List.
From Stdlib Require Import Ascii String DecimalString.
From stdpp Require Import base option list gmap.

Local Open Scope Z_scope.

(** ** C integer types *)

Module CInt.

Definition u8 (z : Z) : Z := z mod 256.
Definition u32 (z : Z) : Z := z mod 2 ^ 32.
Definition u64 (z : Z) : Z := z mod 2 ^ 64.

(** Two's-complement reading of the low [w] bits. *)
Definition sext (w : Z) (z : Z) : Z :=
  let m := z mod 2 ^ w in
  if m <? 2 ^ (w - 1) then m else m - 2 ^ w.

Definition s32 : Z -> Z := sext 32.   (* int *)
Definition s64 : Z -> Z := sext 64.   (* ssize_t *)

(** [size_t] is the 64-bit unsigned type of the x86-64 targets these
    drivers are built for. *)
Definition size_t : Z -> Z := u64.
Definition ssize_t : Z -> Z := s64.

(** Array read; every index the drivers use is within bounds, the default
    only makes the function total. *)
Definition idx (l : list Z) (i : nat) : Z := default 0 (l !! i).

End CInt.


Import CInt.

(** ** errno values (include/uapi/asm-generic/errno-base.h) *)

Definition ENOMEM : Z := 12.
Definition EBUSY : Z := 16.
Definition ENODEV : Z := 19.
Definition EINVAL : Z := 22.
Definition ERESTARTSYS : Z := 512.

(** * Zotac fan-curve controller *)

Module Zotac.

Definition EC_COMMAND_PORT : Z := 0x4E.
Definition EC_DATA_PORT : Z := 0x4F.

Definition EC_FAN_CTRL_ADDR : Z := 0x44A.
Definition EC_FAN_DUTY_ADDR : Z := 0x44B.
Definition EC_FAN_SPEED_UPPER_ADDR : Z := 0x476.
Definition EC_FAN_SPEED_LOWER_ADDR : Z := 0x477.
Definition EC_CPU_TEMP_ADDR : Z := 0x462.

Definition EC_FAN_MODE_AUTO : Z := 0.
Definition EC_FAN_MODE_MANUAL : Z := 1.
Definition EC_FAN_MODE_CURVE : Z := 2.

Definition EC_FAN_VALUE_MIN : Z := 0.
Definition EC_FAN_VALUE_MAX : Z := 255.

Definition FAN_CURVE_POINTS : nat := 9.

(** *** The embedded controller behind the two I/O ports

    The driver talks to the EC through an index/data port pair: a byte
    written to the command port says whether the next data-port access
    names an index register (0x2E) or transfers its content (0x2F); index
    0x11 holds the upper address byte, 0x10 the lower one and 0x12 is the
    window onto the addressed EC register.  [ec_writes] is the history of
    register writes, most recent first. *)
Record ec_chip := mkEc {
  ec_cmd : Z;
  ec_index : Z;
  ec_addr_hi : Z;
  ec_addr_lo : Z;
  ec_mem : gmap Z Z;
  ec_writes : list (Z * Z)
}.

Definition ec_addr (c : ec_chip) : Z :=
  Z.lor (Z.shiftl (ec_addr_hi c) 8) (ec_addr_lo c).

Definition outb (value port : Z) (c : ec_chip) : ec_chip :=
  if port =? EC_COMMAND_PORT then
    mkEc value (ec_index c) (ec_addr_hi c) (ec_addr_lo c) (ec_mem c) (ec_writes c)
  else if port =? EC_DATA_PORT then
    if ec_cmd c =? 0x2E then
      mkEc (ec_cmd c) value (ec_addr_hi c) (ec_addr_lo c) (ec_mem c) (ec_writes c)
    else if ec_cmd c =? 0x2F then
      if ec_index c =? 0x11 then
        mkEc (ec_cmd c) (ec_index c) value (ec_addr_lo c) (ec_mem c) (ec_writes c)
      else if ec_index c =? 0x10 then
        mkEc (ec_cmd c) (ec_index c) (ec_addr_hi c) value (ec_mem c) (ec_writes c)
      else if ec_index c =? 0x12 then
        mkEc (ec_cmd c) (ec_index c) (ec_addr_hi c) (ec_addr_lo c)
             (<[ec_addr c := value]> (ec_mem c))
             ((ec_addr c, value) :: ec_writes c)
      else c
    else c
  else c.

Definition inb (port : Z) (c : ec_chip) : Z :=
  if (port =? EC_DATA_PORT) && (ec_cmd c =? 0x2F) && (ec_index c =? 0x12)
  then u8 (default 0 (ec_mem c !! ec_addr c))
  else 0xFF.

Definition ec_select (addr : Z) (c : ec_chip) : ec_chip :=
  let addr_upper := u8 (Z.land (Z.shiftr addr 8) 0xFF) in
  let addr_lower := u8 (Z.land addr 0xFF) in
  (* Select upper byte address *)
  let c := outb 0x2E EC_COMMAND_PORT c in
  let c := outb 0x11 EC_DATA_PORT c in
  let c := outb 0x2F EC_COMMAND_PORT c in
  let c := outb addr_upper EC_DATA_PORT c in
  (* Select lower byte address *)
  let c := outb 0x2E EC_COMMAND_PORT c in
  let c := outb 0x10 EC_DATA_PORT c in
  let c := outb 0x2F EC_COMMAND_PORT c in
  let c := outb addr_lower EC_DATA_PORT c in
  (* Data window *)
  let c := outb 0x2E EC_COMMAND_PORT c in
  let c := outb 0x12 EC_DATA_PORT c in
  outb 0x2F EC_COMMAND_PORT c.

Definition ec_read_byte (addr : Z) (c : ec_chip) : Z * ec_chip :=
  let c := ec_select addr c in
  (inb EC_DATA_PORT c, c).

(** Returns 0 on every path. *)
Definition ec_write_byte (addr value : Z) (c : ec_chip) : Z * ec_chip :=
  let c := ec_select addr c in
  (0, outb (u8 value) EC_DATA_PORT c).

(** *** Driver data *)

Record zotac_fan_data := mkFan {
  fan_rpm : Z;
  fan_duty : Z;
  fan_mode : Z;
  temp : Z;
  last_updated : Z;
  valid : bool;
  curve_enabled : bool;
  curve_temp : list Z;   (* unsigned int [FAN_CURVE_POINTS] *)
  curve_pwm : list Z     (* unsigned int [FAN_CURVE_POINTS] *)
}.

Definition with_curve_enabled (b : bool) (d : zotac_fan_data) :=
  mkFan (fan_rpm d) (fan_duty d) (fan_mode d) (temp d) (last_updated d)
        (valid d) b (curve_temp d) (curve_pwm d).

Definition with_fan_mode (m : Z) (d : zotac_fan_data) :=
  mkFan (fan_rpm d) (fan_duty d) m (temp d) (last_updated d)
        (valid d) (curve_enabled d) (curve_temp d) (curve_pwm d).

Definition with_temp (t : Z) (d : zotac_fan_data) :=
  mkFan (fan_rpm d) (fan_duty d) (fan_mode d) t (last_updated d)
        (valid d) (curve_enabled d) (curve_temp d) (curve_pwm d).

(** The machine as the driver sees it: its private data, the EC, the
    module-global [fan_curve_timer] ([Some e]: pending, expiring at jiffy
    [e]) and the jiffies counter. *)
Record machine := mkMachine {
  data : zotac_fan_data;
  ec : ec_chip;
  fan_curve_timer : option Z;
  jiffies : Z
}.

(** The table [zotac_fan_probe] installs: 10..90 degrees, 20..100 percent. *)
Definition probe_curve_temp : list Z :=
  map (fun i => u32 (10 + Z.of_nat i * 10)) (seq 0 FAN_CURVE_POINTS).

Definition probe_curve_pwm : list Z :=
  map (fun i => let p := u32 (20 + Z.of_nat i * 10) in
                if p >? 100 then 100 else p) (seq 0 FAN_CURVE_POINTS).

(** *** fan_curve_function: the interpolation *)

Section Curve.
Variable current_temp : Z.
Variable d : zotac_fan_data.

(** The condition of the [if] inside the loop. *)
Definition in_interval (i : nat) : bool :=
  (current_temp >=? idx (curve_temp d) i) &&
  (current_temp <? idx (curve_temp d) (i + 1)).

(** The body of that [if]: three [int] temporaries, then the assignment
    to the [unsigned int pwm]. *)
Definition interpolate (i : nat) : Z :=
  let temp_range :=
    s32 (u32 (idx (curve_temp d) (i + 1) - idx (curve_temp d) i)) in
  let pwm_range :=
    s32 (u32 (idx (curve_pwm d) (i + 1) - idx (curve_pwm d) i)) in
  let temp_offset := s32 (u32 (current_temp - idx (curve_temp d) i)) in
  if temp_range >? 0 then
    u32 (idx (curve_pwm d) i
         + Z.quot (s32 (pwm_range * temp_offset)) temp_range)
  else
    idx (curve_pwm d) i.

(** [for (i = ...; i < FAN_CURVE_POINTS - 1; i++)] with [n] iterations
    left; [pwm] is the value the variable holds on entry. *)
Fixpoint curve_loop (n : nat) (i : nat) (pwm : Z) : Z :=
  match n with
  | O => pwm
  | S n' =>
      if in_interval i then interpolate i
      else curve_loop n' (S i) pwm
  end.

Definition fan_curve_pwm : Z :=
  let pwm := idx (curve_pwm d) 0 in
  if current_temp >=? idx (curve_temp d) (FAN_CURVE_POINTS - 1) then
    (* Above highest temperature point - use maximum PWM *)
    idx (curve_pwm d) (FAN_CURVE_POINTS - 1)
  else
    curve_loop (FAN_CURVE_POINTS - 1) 0 pwm.
End Curve.

(** Internal version of set_fan_duty that doesn't acquire the lock. *)
Definition set_fan_duty_internal (duty_percent : Z) (c : ec_chip)
  : Z * ec_chip :=
  if duty_percent >? 100 then (- EINVAL, c)
  else
    let duty_val :=
      u8 (u32 (duty_percent * (EC_FAN_VALUE_MAX - EC_FAN_VALUE_MIN)) / 100
          + EC_FAN_VALUE_MIN) in
    ec_write_byte EC_FAN_DUTY_ADDR duty_val c.

Section Timer.
(** Timer ticks per second, a build-time constant of the kernel. *)
Variable HZ : Z.

Definition mod_timer (expires : Z) (m : machine) : machine :=
  mkMachine (data m) (ec m) (Some expires) (jiffies m).

Definition del_timer (m : machine) : machine :=
  mkMachine (data m) (ec m) None (jiffies m).

(** The timer callback.  [platform_get_drvdata] yields the structure
    installed by the probe; the callback does nothing when curve mode is
    off (the re-arm inside that branch can never run). *)
Definition fan_curve_function (m : machine) : machine :=
  let d := data m in
  if negb (curve_enabled d) then
    (if curve_enabled d
     then mod_timer (jiffies m + HZ) m
     else m)
  else
    let '(current_temp, c) := ec_read_byte EC_CPU_TEMP_ADDR (ec m) in
    let d := with_temp current_temp d in
    let pwm := fan_curve_pwm current_temp d in
    let '(_, c) := set_fan_duty_internal pwm c in
    mod_timer (jiffies m + HZ) (mkMachine d c (fan_curve_timer m) (jiffies m)).

Definition set_fan_mode (mode : Z) (m : machine) : Z * machine :=
  let mode := u8 mode in
  if mode =? EC_FAN_MODE_CURVE then
    let d := with_curve_enabled true (data m) in
    let '(err, c) := ec_write_byte EC_FAN_CTRL_ADDR EC_FAN_MODE_MANUAL (ec m) in
    if err =? 0 then
      (err, mod_timer (jiffies m + HZ)
              (mkMachine (with_fan_mode EC_FAN_MODE_MANUAL d) c
                         (fan_curve_timer m) (jiffies m)))
    else (err, mkMachine d c (fan_curve_timer m) (jiffies m))
  else
    let m1 :=
      if curve_enabled (data m) then
        del_timer (mkMachine (with_curve_enabled false (data m)) (ec m)
                             (fan_curve_timer m) (jiffies m))
      else m in
    (* Set normal auto/manual mode to EC *)
    let '(err, c) := ec_write_byte EC_FAN_CTRL_ADDR mode (ec m1) in
    if err =? 0 then
      (err, mkMachine (with_fan_mode mode (data m1)) c
                      (fan_curve_timer m1) (jiffies m1))
    else (err, mkMachine (data m1) c (fan_curve_timer m1) (jiffies m1)).

End Timer.

(** *** Curve table attributes

    [pwm1_auto_pointN_temp_store] and [pwm1_auto_pointN_pwm_store];
    [index] is the 1-based point number the macro was instantiated with. *)
Definition with_curve_temp (l : list Z) (d : zotac_fan_data) :=
  mkFan (fan_rpm d) (fan_duty d) (fan_mode d) (temp d) (last_updated d)
        (valid d) (curve_enabled d) l (curve_pwm d).

Definition with_curve_pwm (l : list Z) (d : zotac_fan_data) :=
  mkFan (fan_rpm d) (fan_duty d) (fan_mode d) (temp d) (last_updated d)
        (valid d) (curve_enabled d) (curve_temp d) l.

Section CurveAttr.
(** The parser of lib/kstrtox.c: its status and the [unsigned long] value
    it produced. *)
Variable kstrtoul : string -> Z * Z.

Definition pwm1_auto_point_temp_store (index : nat) (buf : string) (count : Z)
  (d : zotac_fan_data) : Z * zotac_fan_data :=
  let '(err, v) := kstrtoul buf in
  if negb (err =? 0) then (err, d)
  else
    let temp := u64 v in
    (ssize_t (size_t count),
     with_curve_temp (<[(index - 1)%nat := u32 temp]> (curve_temp d)) d).

Definition pwm1_auto_point_pwm_store (index : nat) (buf : string) (count : Z)
  (d : zotac_fan_data) : Z * zotac_fan_data :=
  let '(err, v) := kstrtoul buf in
  if negb (err =? 0) then (err, d)
  else
    let pwm := u64 v in
    if pwm >? 100 then (- EINVAL, d)
    else
      (ssize_t (size_t count),
       with_curve_pwm (<[(index - 1)%nat := u32 pwm]> (curve_pwm d)) d).

End CurveAttr.

(** The structure as [zotac_fan_probe] leaves it (zeroed allocation, the
    default table). *)
Definition probe_data : zotac_fan_data :=
  mkFan 0 0 0 0 0 false false probe_curve_temp probe_curve_pwm.

(** What the sysfs stores and the probe guarantee about a curve table:
    nine points each, temperatures any [unsigned int], duty points at
    most 100 percent. *)
Definition curve_wf (d : zotac_fan_data) : Prop :=
  length (curve_temp d) = FAN_CURVE_POINTS /\
  length (curve_pwm d) = FAN_CURVE_POINTS /\
  Forall (fun x => 0 <= x < 2 ^ 32) (curve_temp d) /\
  Forall (fun x => 0 <= x <= 100) (curve_pwm d).

(** Temperatures strictly increasing along the table. *)
Definition curve_increasing (d : zotac_fan_data) : Prop :=
  forall i : nat, (i < 8)%nat ->
    idx (curve_temp d) i < idx (curve_temp d) (i + 1).

End Zotac.

(** ** The curve evaluator as the specification words it *)

Module CurveSpec.

(** First index [i] of the eight intervals with [temp[i] <= t < temp[i+1]],
    in stored array order. *)
Definition first_interval (t : Z) (temps : list Z) : option nat :=
  List.find (fun i => (idx temps i <=? t) && (t <? idx temps (i + 1)))
            (seq 0 8).

(** Linear interpolation on interval [i], in unbounded integers with the
    quotient of C (truncated towards zero); a zero-width interval yields
    the left point. *)
Definition lerp (t : Z) (temps pwms : list Z) (i : nat) : Z :=
  let width := idx temps (i + 1) - idx temps i in
  if width =? 0 then idx pwms i
  else idx pwms i
       + Z.quot ((idx pwms (i + 1) - idx pwms i) * (t - idx temps i)) width.

Definition evaluate (t : Z) (temps pwms : list Z) : Z :=
  if idx temps 8 <=? t then idx pwms 8
  else match first_interval t temps with
       | Some i => lerp t temps pwms i
       | None => idx pwms 0
       end.

End CurveSpec.

(** * Legion Go S MCU configuration engine *)

Module Legos.

(** Modelled from the spec: [GO_S_PACKET_SIZE] is declared in
    lenovo-legos-hid-core.h, which is not part of the tree; the
    specification fixes the frame at 65 bytes (command, sub-index and 63
    payload bytes, the size of [struct command_report]). *)
Definition GO_S_PACKET_SIZE : Z := 65.

(** [enum MCU_COMMAND] *)
Definition SEND_HEARTBEAT : Z := 0.
Definition GET_VERSION : Z := 1.
Definition GET_MCU_ID : Z := 2.
Definition GET_GAMEPAD_CFG : Z := 3.
Definition SET_GAMEPAD_CFG : Z := 4.
Definition GET_TP_PARAM : Z := 5.
Definition SET_TP_PARAM : Z := 6.
Definition GET_MOTOR_CFG : Z := 7.
Definition SET_MOTOR_CFG : Z := 8.
Definition GET_TRIGGER_CFG : Z := 9.
Definition SET_TRIGGER_CFG : Z := 10.
Definition GET_STICK_CFG : Z := 11.
Definition SET_STICK_CFG : Z := 12.
Definition GET_GYRO_CFG : Z := 13.
Definition SET_GYRO_CFG : Z := 14.
Definition GET_LIGHT_CFG : Z := 15.
Definition SET_LIGHT_CFG : Z := 16.
Definition GET_KEY_MAP : Z := 17.
Definition SET_KEY_MAP : Z := 18.
Definition GET_PL_TEST : Z := 0xdf.

(** [enum GAMEPAD_CFG_INDEX] *)
Definition NONE : Z := 0x00.
Definition CFG_GAMEPAD_MODE : Z := 0x01.
Definition CFG_AUTO_SLP_TIME : Z := 0x04.
Definition CFG_PASS_ENABLE : Z := 0x05.
Definition CFG_LIGHT_ENABLE : Z := 0x06.
Definition CFG_IMU_ENABLE : Z := 0x07.
Definition CFG_TPAD_ENABLE : Z := 0x08.
Definition CFG_OS_TYPE : Z := 0x0A.
Definition CFG_POLL_RATE : Z := 0x10.
Definition CFG_DPAD_MODE : Z := 0x11.
Definition CFG_MS_WHEEL_STEP : Z := 0x12.

(** [enum TOUCHPAD_CFG_INDEX] *)
Definition CFG_WINDOWS_MODE : Z := 0x03.
Definition CFG_LINUX_MODE : Z := 0x04.

(** [enum LIGHT_CFG_INDEX] *)
Definition LIGHT_MODE_SEL : Z := 0x01.
Definition LIGHT_PROFILE_SEL : Z := 0x02.
Definition USR_LIGHT_PROFILE_1 : Z := 0x03.
Definition USR_LIGHT_PROFILE_2 : Z := 0x04.
Definition USR_LIGHT_PROFILE_3 : Z := 0x05.

(** [enum TEST_INDEX], the entries the driver reads *)
Definition TEST_TP_MFR : Z := 0x02.
Definition TEST_IMU_MFR : Z := 0x03.
Definition TEST_TP_VER : Z := 0x04.

(** Last enumerator of each value enumeration. *)
Definition DINPUT : Z := 1.
Definition FEATURE_ENABLED : Z := 1.
Definition IMU_OFF_2S : Z := 2.
Definition LINUX : Z := 1.
Definition HZ1000 : Z := 3.
Definition DIR4 : Z := 1.
Definition TP_ABS : Z := 1.
Definition RGB_MODE_CUSTOM : Z := 1.
Definition TP_SIPO : Z := 2.
Definition IMU_ST : Z := 2.

Local Open Scope string_scope.

Definition GAMEPAD_MODE_TEXT : list string := ["xinput"; "dinput"].
Definition FEATURE_ENABLE_STATUS_TEXT : list string := ["false"; "true"].
Definition IMU_ENABLED_TEXT : list string := ["off"; "on"; "off-2sec"].
Definition OS_TYPE_TEXT : list string := ["windows"; "linux"].
Definition POLL_RATE_TEXT : list string := ["125"; "250"; "500"; "1000"].
Definition DPAD_MODE_TEXT : list string := ["8-way"; "4-way"].
Definition TOUCHPAD_MODE_TEXT : list string := ["relative"; "absolute"].
Definition RGB_MODE_TEXT : list string := ["dynamic"; "custom"].
Definition RGB_EFFECT_TEXT : list string :=
  ["monocolor"; "breathe"; "chroma"; "rainbow"].
Definition TP_MANUFACTURER_TEXT : list string := ["none"; "BetterLife"; "SIPO"].
Definition IMU_MANUFACTURER_TEXT : list string := ["none"; "Bosch"; "ST"].

Local Close Scope string_scope.

(** [struct legos_cfg drvdata], with the fields of the LED class device the
    driver reads and writes.  [send_cmd_complete] is the [done] counter of
    the completion, an [unsigned int]. *)
Record legos_cfg := mkCfg {
  send_cmd_complete : N;
  last_cmd_ret : Z;
  last_cmd_val : Z;
  mcu_id : list Z;
  mcu_ver : list Z;
  rgb_profile : Z;
  rgb_effect : Z;
  rgb_speed : Z;
  rgb_mode : Z;
  subled_intensity : list Z;
  brightness : Z
}.

Definition set_send_cmd_complete (v : N) (c : legos_cfg) :=
  mkCfg v (last_cmd_ret c) (last_cmd_val c) (mcu_id c) (mcu_ver c)
        (rgb_profile c) (rgb_effect c) (rgb_speed c) (rgb_mode c)
        (subled_intensity c) (brightness c).
Definition set_last_cmd_ret (v : Z) (c : legos_cfg) :=
  mkCfg (send_cmd_complete c) v (last_cmd_val c) (mcu_id c) (mcu_ver c)
        (rgb_profile c) (rgb_effect c) (rgb_speed c) (rgb_mode c)
        (subled_intensity c) (brightness c).
Definition set_last_cmd_val (v : Z) (c : legos_cfg) :=
  mkCfg (send_cmd_complete c) (last_cmd_ret c) v (mcu_id c) (mcu_ver c)
        (rgb_profile c) (rgb_effect c) (rgb_speed c) (rgb_mode c)
        (subled_intensity c) (brightness c).
Definition set_mcu_id (v : list Z) (c : legos_cfg) :=
  mkCfg (send_cmd_complete c) (last_cmd_ret c) (last_cmd_val c) v (mcu_ver c)
        (rgb_profile c) (rgb_effect c) (rgb_speed c) (rgb_mode c)
        (subled_intensity c) (brightness c).
Definition set_mcu_ver (v : list Z) (c : legos_cfg) :=
  mkCfg (send_cmd_complete c) (last_cmd_ret c) (last_cmd_val c) (mcu_id c) v
        (rgb_profile c) (rgb_effect c) (rgb_speed c) (rgb_mode c)
        (subled_intensity c) (brightness c).
Definition set_rgb_profile (v : Z) (c : legos_cfg) :=
  mkCfg (send_cmd_complete c) (last_cmd_ret c) (last_cmd_val c) (mcu_id c)
        (mcu_ver c) v (rgb_effect c) (rgb_speed c) (rgb_mode c)
        (subled_intensity c) (brightness c).
Definition set_rgb_effect (v : Z) (c : legos_cfg) :=
  mkCfg (send_cmd_complete c) (last_cmd_ret c) (last_cmd_val c) (mcu_id c)
        (mcu_ver c) (rgb_profile c) v (rgb_speed c) (rgb_mode c)
        (subled_intensity c) (brightness c).
Definition set_rgb_speed (v : Z) (c : legos_cfg) :=
  mkCfg (send_cmd_complete c) (last_cmd_ret c) (last_cmd_val c) (mcu_id c)
        (mcu_ver c) (rgb_profile c) (rgb_effect c) v (rgb_mode c)
        (subled_intensity c) (brightness c).
Definition set_rgb_mode (v : Z) (c : legos_cfg) :=
  mkCfg (send_cmd_complete c) (last_cmd_ret c) (last_cmd_val c) (mcu_id c)
        (mcu_ver c) (rgb_profile c) (rgb_effect c) (rgb_speed c) v
        (subled_intensity c) (brightness c).
Definition set_subled_intensity (v : list Z) (c : legos_cfg) :=
  mkCfg (send_cmd_complete c) (last_cmd_ret c) (last_cmd_val c) (mcu_id c)
        (mcu_ver c) (rgb_profile c) (rgb_effect c) (rgb_speed c) (rgb_mode c)
        v (brightness c).
Definition set_brightness (v : Z) (c : legos_cfg) :=
  mkCfg (send_cmd_complete c) (last_cmd_ret c) (last_cmd_val c) (mcu_id c)
        (mcu_ver c) (rgb_profile c) (rgb_effect c) (rgb_speed c) (rgb_mode c)
        (subled_intensity c) v.

(** *** The completion *)

(** Modelled from the spec: the completion primitives live in
    kernel/sched/completion.c, outside the tree.  The specification
    describes a one-shot event that the response path fires; firing it is
    counted in [done]. *)
Definition complete (c : legos_cfg) : legos_cfg :=
  set_send_cmd_complete (N.succ (send_cmd_complete c)) c.

(** Modelled from the spec: resetting the completion signal for reuse. *)
Definition reinit_completion (c : legos_cfg) : legos_cfg :=
  set_send_cmd_complete 0 c.

(** Modelled from the spec: the bounded wait of the issuer.  The comments in
    [mcu_property_out] name its three outcomes: 0 after a timeout, a
    positive value when neither a timeout nor an interrupt occurred (the
    event had fired; it is consumed), a negative value when a signal
    interrupted the wait. *)
Definition wait_for_completion_interruptible_timeout
  (signal_pending : bool) (c : legos_cfg) : Z * legos_cfg :=
  if (0 <? send_cmd_complete c)%N then
    (1, set_send_cmd_complete (N.pred (send_cmd_complete c)) c)
  else if signal_pending then (- ERESTARTSYS, c)
  else (0, c).

(** *** Response path *)

(** Byte [i] of a received or transmitted buffer ([u8] elements). *)
Definition byte_at (data : list Z) (i : nat) : Z := u8 (idx data i).

(** [memcpy(dst + off, src, n)] on byte lists. *)
Definition memcpy_at (off : nat) (src : list Z) (n : nat) (dst : list Z) :=
  list_inserts off (take n src) dst.

Definition legos_cfg_raw_event (data : list Z) (size : Z) (c : legos_cfg)
  : Z * legos_cfg :=
  if negb (size =? GO_S_PACKET_SIZE) then (- EINVAL, c)
  else
    let cmd := byte_at data 0 in
    let sub_cmd := byte_at data 1 in
    let dat (k : nat) := byte_at data (k + 2) in
    let c :=
      if cmd =? GET_VERSION then
        set_last_cmd_ret 0
          (set_mcu_ver (<[3%nat := sub_cmd]>
                         (<[2%nat := dat 0%nat]>
                           (<[1%nat := dat 1%nat]>
                             (<[0%nat := dat 2%nat]> (mcu_ver c))))) c)
      else if cmd =? GET_MCU_ID then
        set_last_cmd_ret 0
          (set_mcu_id (memcpy_at 1 (u8 <$> drop 2 data) 11
                         (<[0%nat := sub_cmd]> (mcu_id c))) c)
      else if (cmd =? GET_GAMEPAD_CFG) || (cmd =? GET_TP_PARAM) then
        set_last_cmd_ret 0 (set_last_cmd_val (dat 0%nat) c)
      else if cmd =? GET_PL_TEST then
        if (sub_cmd =? TEST_TP_MFR) || (sub_cmd =? TEST_IMU_MFR)
           || (sub_cmd =? TEST_TP_VER)
        then set_last_cmd_ret 0 (set_last_cmd_val (dat 0%nat) c)
        else set_last_cmd_ret EINVAL c
      else if cmd =? GET_LIGHT_CFG then
        if sub_cmd =? LIGHT_MODE_SEL then
          set_last_cmd_ret 0 (set_rgb_mode (dat 0%nat) c)
        else if sub_cmd =? LIGHT_PROFILE_SEL then
          set_last_cmd_ret 0 (set_rgb_profile (dat 0%nat) c)
        else if (sub_cmd =? USR_LIGHT_PROFILE_1)
                || (sub_cmd =? USR_LIGHT_PROFILE_2)
                || (sub_cmd =? USR_LIGHT_PROFILE_3) then
          set_last_cmd_ret 0
            (set_rgb_speed (dat 5%nat)
              (set_brightness (dat 4%nat)
                (set_subled_intensity
                   (<[2%nat := dat 3%nat]>
                     (<[1%nat := dat 2%nat]>
                       (<[0%nat := dat 1%nat]> (subled_intensity c))))
                   (set_rgb_effect (dat 0%nat) c))))
        else set_last_cmd_ret EINVAL c
      else if (cmd =? GET_GYRO_CFG) || (cmd =? GET_KEY_MAP)
              || (cmd =? GET_MOTOR_CFG) || (cmd =? GET_STICK_CFG)
              || (cmd =? GET_TRIGGER_CFG) then
        set_last_cmd_ret EINVAL c
      else if (cmd =? SET_GAMEPAD_CFG) || (cmd =? SET_GYRO_CFG)
              || (cmd =? SET_KEY_MAP) || (cmd =? SET_LIGHT_CFG)
              || (cmd =? SET_MOTOR_CFG) || (cmd =? SET_STICK_CFG)
              || (cmd =? SET_TP_PARAM) || (cmd =? SET_TRIGGER_CFG) then
        set_last_cmd_ret (dat 0%nat) c
      else set_last_cmd_ret EINVAL c in
    let c := complete c in
    (- last_cmd_ret c, c).

(** *** The transport and the kernel services the driver calls *)

(** What comes back from handing one frame to the HID core: the return value
    of [hid_hw_output_report], the frames the inbound path delivers to
    [legos_cfg_raw_event] before the issuer's wait ends, and whether a signal
    is pending for the waiting task. *)
Record reply := mkReply {
  hw_ret : Z;
  inbound : list (list Z);
  signal_pending : bool
}.

(** Everything declared outside the file: the device behind the
    [hid_device], the endpoint constant and [get_endpoint_address] of
    lenovo-legos-hid-core.h, the allocator, and the integer parsers of
    lib/kstrtox.c (each returns its status and the parsed value). *)
Record hid_env := mkEnv {
  hid_device : Type;
  LEGION_GO_S_CFG_INTF_IN : Z;
  get_endpoint_address : hid_device -> Z;
  kmemdup_ok : hid_device -> bool;
  hid_hw_output_report : hid_device -> list Z -> hid_device * reply;
  kstrtou8 : string -> Z * Z;
  kstrtoint : string -> Z * Z
}.

(** One frame as handed to the transport, with the arguments it was built
    from: command, sub-index and the [size] payload bytes copied in. *)
Record sent := mkSent {
  sent_cmd : Z;
  sent_index : Z;
  sent_payload : list Z;
  sent_frame : list Z
}.

(** Driver state, the device and the history of transmitted frames (most
    recent first). *)
Record world (E : hid_env) := mkWorld {
  cfg : legos_cfg;
  hdev : hid_device E;
  wire : list sent
}.
Arguments mkWorld {E}.
Arguments cfg {E}.
Arguments hdev {E}.
Arguments wire {E}.

Section Driver.
Variable E : hid_env.

(** *** Issuing a command *)

(** The [for] loop that copies [size] bytes of [val] behind the two header
    bytes, with [n] iterations left. *)
Fixpoint copy_payload (n i : nat) (val outbuf : list Z) : list Z :=
  match n with
  | O => outbuf
  | S n' => copy_payload n' (S i) val (<[(i + 2)%nat := byte_at val i]> outbuf)
  end.

(** [u8 outbuf[GO_S_PACKET_SIZE] = { command, index }] followed by the loop. *)
Definition make_outbuf (command index : Z) (val : list Z) (size : Z) : list Z :=
  copy_payload (Z.to_nat size) 0 val
    (u8 command :: u8 index :: replicate 63 0).

(** Returns the status, the device afterwards and, when the frame reached
    [hid_hw_output_report], what came back. *)
Definition legos_cfg_send_cmd (h : hid_device E) (buf : list Z)
  : Z * hid_device E * option reply :=
  let size := GO_S_PACKET_SIZE in
  if negb (kmemdup_ok E h) then (- ENOMEM, h, None)
  else
    let '(h, r) := hid_hw_output_report E h buf in
    if negb (hw_ret r =? size) then (- EINVAL, h, Some r)
    else (0, h, Some r).

(** The inbound path runs [legos_cfg_raw_event] on each delivered frame with
    the length the transport reports for it. *)
Definition deliver (frames : list (list Z)) (c : legos_cfg) : legos_cfg :=
  fold_left (fun c f => snd (legos_cfg_raw_event f (Z.of_nat (length f)) c))
            frames c.

Definition mcu_property_out (command index : Z) (val : list Z) (size : Z)
  (w : world E) : Z * world E :=
  let outbuf := make_outbuf command index val size in
  let ep := get_endpoint_address E (hdev w) in
  if negb (ep =? LEGION_GO_S_CFG_INTF_IN E) then (- ENODEV, w)
  else
    let c := set_last_cmd_val 0 (set_last_cmd_ret 0 (cfg w)) in
    match legos_cfg_send_cmd (hdev w) outbuf with
    | (ret, h, None) => (ret, mkWorld c h (wire w))
    | (ret, h, Some r) =>
        let log :=
          mkSent (u8 command) (u8 index)
                 (take (Z.to_nat size) (u8 <$> val)) outbuf :: wire w in
        if negb (ret =? 0) then (ret, mkWorld c h log)
        else
          let c := deliver (inbound r) c in
          let '(ret, c) :=
            wait_for_completion_interruptible_timeout (signal_pending r) c in
          (* timeout occured *)
          let ret := if ret =? 0 then - EBUSY else ret in
          (* timeout/interrupt didn't occur *)
          let ret := if ret >? 0 then 0 else ret in
          let c := reinit_completion c in
          (ret, mkWorld c h log)
    end.

(** *** Names for the parts of one exchange *)

(** The frame [mcu_property_out] builds, what the transport returns for it
    and the driver data after the frames delivered meanwhile. *)
Definition answer (command index : Z) (val : list Z) (size : Z) (w : world E)
  : reply :=
  snd (hid_hw_output_report E (hdev w) (make_outbuf command index val size)).

Definition after_delivery (command index : Z) (val : list Z) (size : Z)
  (w : world E) : legos_cfg :=
  deliver (inbound (answer command index val size w))
          (set_last_cmd_val 0 (set_last_cmd_ret 0 (cfg w))).

Definition entry (command index : Z) (val : list Z) (size : Z) : sent :=
  mkSent (u8 command) (u8 index) (take (Z.to_nat size) (u8 <$> val))
         (make_outbuf command index val size).

(** *** sysfs helpers *)

(** Modelled from the spec: [sysfs_match_string] (lib/string.c) is outside
    the tree.  An enumeration is an ordered list of labels, a text is
    accepted when it is exactly one of them and its wire value is the
    label's ordinal position; any other text is an invalid argument. *)
Fixpoint match_string_from (i : Z) (tbl : list string) (buf : string) : Z :=
  match tbl with
  | [] => - EINVAL
  | l :: tbl' => if String.eqb l buf then i else match_string_from (i + 1) tbl' buf
  end.

(** Modelled from the spec: see [match_string_from]. *)
Definition sysfs_match_string (tbl : list string) (buf : string) : Z :=
  match_string_from 0 tbl buf.

Definition newline : string := String "010"%char EmptyString.

(** ["%u"] and ["%hhu"] of a byte. *)
Definition fmt_u (v : Z) : string := NilZero.string_of_uint (N.to_uint (Z.to_N v)).

(** Modelled from the spec: [sysfs_emit] (fs/sysfs/file.c) is outside the
    tree; a get renders the value as text, the call returns the number of
    characters written.  Every format the driver uses
    is one value followed by a line feed. *)
Definition sysfs_emit (text : string) : Z * string :=
  let out := (text ++ newline)%string in
  (Z.of_nat (String.length out), out).

(** The [if (i > LAST) count = -EINVAL; else count = sysfs_emit(...)] arm
    shared by the show functions; [count] is a [size_t]. *)
Definition show_enum (tbl : list string) (last i : Z) : Z * string :=
  if i >? last then (size_t (- EINVAL), EmptyString)
  else
    let '(n, out) := sysfs_emit (default EmptyString (tbl !! Z.to_nat i)) in
    (size_t n, out).

Definition show_uint (i : Z) : Z * string :=
  let '(n, out) := sysfs_emit (fmt_u i) in (size_t n, out).

(** The [ret = sysfs_match_string(...); if (ret < 0) return ret; val = ret;]
    arm of the store functions: the value to return at once, or [val]. *)
Definition store_enum (tbl : list string) (buf : string) : Z + Z :=
  let ret := sysfs_match_string tbl buf in
  if ret <? 0 then inl ret else inr (u8 ret).

(** *** Gamepad, touchpad and test attributes *)

(** The [switch] of [gamepad_property_store]: the value to return at once,
    or the wire value [val]. *)
Definition gamepad_property_parse (buf : string) (index : Z) : Z + Z :=
  if index =? CFG_GAMEPAD_MODE then store_enum GAMEPAD_MODE_TEXT buf
  else if index =? CFG_AUTO_SLP_TIME then
    let '(ret, v) := kstrtou8 E buf in
    if negb (ret =? 0) then inl ret
    else
      let val := u8 v in
      if (val <? 0) || (val >? 255) then inl (- EINVAL) else inr val
  else if index =? CFG_IMU_ENABLE then store_enum IMU_ENABLED_TEXT buf
  else if (index =? CFG_PASS_ENABLE) || (index =? CFG_LIGHT_ENABLE)
          || (index =? CFG_TPAD_ENABLE) then
    store_enum FEATURE_ENABLE_STATUS_TEXT buf
  else if index =? CFG_OS_TYPE then store_enum OS_TYPE_TEXT buf
  else if index =? CFG_POLL_RATE then store_enum POLL_RATE_TEXT buf
  else if index =? CFG_DPAD_MODE then store_enum DPAD_MODE_TEXT buf
  else if index =? CFG_MS_WHEEL_STEP then
    let '(ret, v) := kstrtou8 E buf in
    if negb (ret =? 0) then inl ret
    else
      let val := u8 v in
      if (val <? 1) || (val >? 127) then inl (- EINVAL) else inr val
  else inl (- EINVAL).

Definition gamepad_property_store (buf : string) (count : Z) (index : Z)
  (w : world E) : Z * world E :=
  match gamepad_property_parse buf index with
  | inl ret => (ret, w)
  | inr val =>
      let size := if val =? 0 then 0 else 1 in
      let '(ret, w) := mcu_property_out SET_GAMEPAD_CFG index [val] size w in
      if ret <? 0 then (ret, w)
      else if negb (last_cmd_ret (cfg w) =? 0) then (- last_cmd_ret (cfg w), w)
      else (ssize_t (size_t count), w)
  end.

(** [count] is declared [size_t]: the status of [mcu_property_out] is
    converted to that type before it is compared with 0. *)
Definition gamepad_property_show (index : Z) (w : world E)
  : Z * string * world E :=
  let '(ret, w) := mcu_property_out GET_GAMEPAD_CFG index [] 0 w in
  let count := size_t ret in
  if count <? 0 then (ssize_t count, EmptyString, w)
  else if negb (last_cmd_ret (cfg w) =? 0) then
    (- last_cmd_ret (cfg w), EmptyString, w)
  else
    let i := u8 (last_cmd_val (cfg w)) in
    let '(count, out) :=
      if index =? CFG_GAMEPAD_MODE then show_enum GAMEPAD_MODE_TEXT DINPUT i
      else if index =? CFG_AUTO_SLP_TIME then show_uint i
      else if index =? CFG_IMU_ENABLE then show_enum IMU_ENABLED_TEXT IMU_OFF_2S i
      else if (index =? CFG_PASS_ENABLE) || (index =? CFG_LIGHT_ENABLE)
              || (index =? CFG_TPAD_ENABLE) then
        show_enum FEATURE_ENABLE_STATUS_TEXT FEATURE_ENABLED i
      else if index =? CFG_OS_TYPE then show_enum OS_TYPE_TEXT LINUX i
      else if index =? CFG_POLL_RATE then show_enum POLL_RATE_TEXT HZ1000 i
      else if index =? CFG_DPAD_MODE then show_enum DPAD_MODE_TEXT DIR4 i
      else if index =? CFG_MS_WHEEL_STEP then
        if (i <? 1) || (i >? 127) then (size_t (- EINVAL), EmptyString)
        else show_uint i
      else (size_t (- EINVAL), EmptyString) in
    (ssize_t count, out, w).

(** The [switch] of [touchpad_property_store]. *)
Definition touchpad_property_parse (buf : string) (index : Z) : Z + Z :=
  if (index =? CFG_WINDOWS_MODE) || (index =? CFG_LINUX_MODE) then
    store_enum TOUCHPAD_MODE_TEXT buf
  else inl (- EINVAL).

Definition touchpad_property_store (buf : string) (count : Z) (index : Z)
  (w : world E) : Z * world E :=
  match touchpad_property_parse buf index with
  | inl ret => (ret, w)
  | inr val =>
      let size := if val =? 0 then 0 else 1 in
      let '(ret, w) := mcu_property_out SET_TP_PARAM index [val] size w in
      if ret <? 0 then (ret, w)
      else if negb (last_cmd_ret (cfg w) =? 0) then (- last_cmd_ret (cfg w), w)
      else (ssize_t (size_t count), w)
  end.

Definition touchpad_property_show (index : Z) (w : world E)
  : Z * string * world E :=
  let '(ret, w) := mcu_property_out GET_TP_PARAM index [] 0 w in
  let count := size_t ret in
  if count <? 0 then (ssize_t count, EmptyString, w)
  else if negb (last_cmd_ret (cfg w) =? 0) then
    (- last_cmd_ret (cfg w), EmptyString, w)
  else
    let i := u8 (last_cmd_val (cfg w)) in
    let '(count, out) :=
      if (index =? CFG_WINDOWS_MODE) || (index =? CFG_LINUX_MODE) then
        show_enum TOUCHPAD_MODE_TEXT TP_ABS i
      else (size_t (- EINVAL), EmptyString) in
    (ssize_t count, out, w).

Definition test_property_show (index : Z) (w : world E)
  : Z * string * world E :=
  let '(ret, w) := mcu_property_out GET_PL_TEST index [] 0 w in
  let count := size_t ret in
  if count <? 0 then (ssize_t count, EmptyString, w)
  else if negb (last_cmd_ret (cfg w) =? 0) then
    (- last_cmd_ret (cfg w), EmptyString, w)
  else
    let i := u8 (last_cmd_val (cfg w)) in
    let '(count, out) :=
      if index =? TEST_TP_MFR then show_enum TP_MANUFACTURER_TEXT TP_SIPO i
      else if index =? TEST_IMU_MFR then show_enum IMU_MANUFACTURER_TEXT IMU_ST i
      else if index =? TEST_TP_VER then show_uint i
      else (size_t (- EINVAL), EmptyString) in
    (ssize_t count, out, w).

(** *** MCU identity *)

(** [memcmp] against a zeroed array of the same size is non-zero exactly
    when some byte is. *)
Definition memcmp_zero (a : list Z) : bool := negb (forallb (Z.eqb 0) a).

Definition mcu_id_get (w : world E) : Z * world E :=
  if memcmp_zero (mcu_id (cfg w)) then (- ENOMEM, w)
  else
    let '(ret, w) := mcu_property_out GET_MCU_ID NONE [] 0 w in
    if ret <? 0 then (ret, w) else (- last_cmd_ret (cfg w), w).

Definition mcu_version_get (w : world E) : Z * world E :=
  if memcmp_zero (mcu_ver (cfg w)) then (- ENOMEM, w)
  else
    let '(ret, w) := mcu_property_out GET_VERSION NONE [] 0 w in
    if ret <? 0 then (ret, w) else (- last_cmd_ret (cfg w), w).

(** *** RGB LED *)

Definition rgb_cfg_call (cmd index : Z) (val : list Z) (size : Z)
  (w : world E) : Z * world E :=
  if negb (cmd =? GET_LIGHT_CFG) && negb (cmd =? SET_LIGHT_CFG) then
    (- EINVAL, w)
  else if (index <? LIGHT_MODE_SEL) || (index >? USR_LIGHT_PROFILE_3) then
    (- EINVAL, w)
  else
    let '(ret, w) := mcu_property_out cmd index val size w in
    if negb (ret =? 0) then (ret, w)
    else if negb (last_cmd_ret (cfg w) =? 0) then (- last_cmd_ret (cfg w), w)
    else (0, w).

Definition rgb_profile_call (cmd : Z) (rgb_profile_buf : list Z) (size : Z)
  (w : world E) : Z * world E :=
  if negb (cmd =? SET_LIGHT_CFG) && negb (cmd =? GET_LIGHT_CFG) then
    (- EINVAL, w)
  else
    let index := rgb_profile (cfg w) + 2 in
    rgb_cfg_call cmd index rgb_profile_buf size w.

Definition rgb_write_profile (w : world E) : Z * world E :=
  let c := cfg w in
  let rgb_profile_buf :=
    [ u8 (rgb_effect c);
      u8 (idx (subled_intensity c) 0);
      u8 (idx (subled_intensity c) 1);
      u8 (idx (subled_intensity c) 2);
      u8 (brightness c);
      u8 (rgb_speed c) ] in
  rgb_profile_call SET_LIGHT_CFG rgb_profile_buf 6 w.

Definition rgb_attr_show (w : world E) : Z * world E :=
  let '(ret, w) := rgb_profile_call GET_LIGHT_CFG [] 0 w in
  if ret <? 0 then (ret, w)
  else if negb (last_cmd_ret (cfg w) =? 0) then (- last_cmd_ret (cfg w), w)
  else (0, w).

Definition rgb_attr_store (w : world E) : Z * world E :=
  if negb (rgb_mode (cfg w) =? RGB_MODE_CUSTOM) then (- EINVAL, w)
  else
    let '(ret, w) := rgb_write_profile w in
    if ret <? 0 then (ret, w)
    else if negb (last_cmd_ret (cfg w) =? 0) then (- last_cmd_ret (cfg w), w)
    else (0, w).

Definition set_cfg (c : legos_cfg) (w : world E) : world E :=
  mkWorld c (hdev w) (wire w).

(** The label tables are indexed with the cached byte as it is; [None]
    stands for a read past the end of the table, which C leaves undefined. *)
Definition rgb_effect_show (w : world E) : option (Z * string) * world E :=
  let '(ret, w) := rgb_attr_show w in
  if negb (ret =? 0) then (Some (ret, EmptyString), w)
  else (sysfs_emit <$> (RGB_EFFECT_TEXT !! Z.to_nat (rgb_effect (cfg w))), w).

Definition rgb_effect_store (buf : string) (count : Z) (w : world E)
  : Z * world E :=
  let ret := sysfs_match_string RGB_EFFECT_TEXT buf in
  if ret <? 0 then (ret, w)
  else
    let w := set_cfg (set_rgb_effect (u8 ret) (cfg w)) w in
    let '(ret, w) := rgb_attr_store w in
    if negb (ret =? 0) then (ret, w) else (ssize_t (size_t count), w).

Definition rgb_speed_show (w : world E) : Z * string * world E :=
  let '(ret, w) := rgb_attr_show w in
  if negb (ret =? 0) then (ret, EmptyString, w)
  else (sysfs_emit (fmt_u (u8 (rgb_speed (cfg w)))), w).

Definition rgb_speed_store (buf : string) (count : Z) (w : world E)
  : Z * world E :=
  let '(ret, v) := kstrtoint E buf in
  if negb (ret =? 0) then (ret, w)
  else
    let val := s32 v in
    if (val >? 100) || (val <? 0) then (- EINVAL, w)
    else
      let w := set_cfg (set_rgb_speed (u8 val) (cfg w)) w in
      let '(ret, w) := rgb_attr_store w in
      if negb (ret =? 0) then (ret, w) else (ssize_t (size_t count), w).

Definition rgb_mode_show (w : world E) : option (Z * string) * world E :=
  let '(ret, w) := rgb_cfg_call GET_LIGHT_CFG LIGHT_MODE_SEL [] 0 w in
  if ret <? 0 then (Some (ret, EmptyString), w)
  else if negb (last_cmd_ret (cfg w) =? 0) then
    (Some (- last_cmd_ret (cfg w), EmptyString), w)
  else (sysfs_emit <$> (RGB_MODE_TEXT !! Z.to_nat (rgb_mode (cfg w))), w).

Definition rgb_mode_store (buf : string) (count : Z) (w : world E)
  : Z * world E :=
  let ret := sysfs_match_string RGB_MODE_TEXT buf in
  if ret <? 0 then (ret, w)
  else
    let w := set_cfg (set_rgb_mode (u8 ret) (cfg w)) w in
    let size := if rgb_mode (cfg w) =? 0 then 0 else 1 in
    let '(ret, w) :=
      rgb_cfg_call SET_LIGHT_CFG LIGHT_MODE_SEL [rgb_mode (cfg w)] size w in
    if ret <? 0 then (ret, w)
    else if negb (last_cmd_ret (cfg w) =? 0) then (- last_cmd_ret (cfg w), w)
    else (ssize_t (size_t count), w).

Definition rgb_profile_show (w : world E) : Z * string * world E :=
  let '(ret, w) := rgb_cfg_call GET_LIGHT_CFG LIGHT_PROFILE_SEL [] 0 w in
  if ret <? 0 then (ret, EmptyString, w)
  else if negb (last_cmd_ret (cfg w) =? 0) then
    (- last_cmd_ret (cfg w), EmptyString, w)
  else (sysfs_emit (fmt_u (u8 (rgb_profile (cfg w)))), w).

Definition rgb_profile_store (buf : string) (count : Z) (w : world E)
  : Z * world E :=
  let '(ret, v) := kstrtou8 E buf in
  if ret <? 0 then (ret, w)
  else
    let val := u8 v in
    if (val >? 3) || (val <? 1) then (- EINVAL, w)
    else
      let w := set_cfg (set_rgb_profile val (cfg w)) w in
      let size := if rgb_profile (cfg w) =? 0 then 0 else 1 in
      let '(ret, w) :=
        rgb_cfg_call SET_LIGHT_CFG LIGHT_PROFILE_SEL [rgb_profile (cfg w)] size w in
      if ret <? 0 then (ret, w)
      else if negb (last_cmd_ret (cfg w) =? 0) then (- last_cmd_ret (cfg w), w)
      else (ssize_t (size_t count), w).

(** *** Deferred bring-up *)

(** The five fetches in their fixed order; each failure ends the work. *)
Definition cfg_setup (w : world E) : world E :=
  let '(ret, w) := mcu_id_get w in
  if negb (ret =? 0) then w
  else
    let '(ret, w) := mcu_version_get w in
    if negb (ret =? 0) then w
    else
      let '(ret, w) := rgb_cfg_call GET_LIGHT_CFG LIGHT_MODE_SEL [] 0 w in
      if ret <? 0 then w
      else
        let '(ret, w) := rgb_cfg_call GET_LIGHT_CFG LIGHT_PROFILE_SEL [] 0 w in
        if ret <? 0 then w
        else snd (rgb_attr_show w).

End Driver.

End Legos.

(** ** The attribute files

    Each attribute binds one [struct legos_cfg_rw_attr] index to the store
    and show of its family, as [ATTR_LEGOS_GAMEPAD_RW] and
    [ATTR_LEGOS_TOUCHPAD_RW] expand; the RGB attributes have functions of
    their own. *)

Module Attr.
Import Legos.

(** The attributes whose values are enumeration labels. *)
Inductive enum_attr :=
| dpad_mode | gamepad_mode | gamepad_poll_rate
| imu_bypass_enabled | imu_sensor_enabled
| os_mode | rgb_enabled | touchpad_enabled
| touchpad_linux_mode | touchpad_windows_mode
| rgb_mode_attr | rgb_effect_attr.

(** The label table each attribute's [_index] file lists. *)
Definition labels (a : enum_attr) : list string :=
  match a with
  | dpad_mode => DPAD_MODE_TEXT
  | gamepad_mode => GAMEPAD_MODE_TEXT
  | gamepad_poll_rate => POLL_RATE_TEXT
  | imu_bypass_enabled => FEATURE_ENABLE_STATUS_TEXT
  | imu_sensor_enabled => IMU_ENABLED_TEXT
  | os_mode => OS_TYPE_TEXT
  | rgb_enabled => FEATURE_ENABLE_STATUS_TEXT
  | touchpad_enabled => FEATURE_ENABLE_STATUS_TEXT
  | touchpad_linux_mode => TOUCHPAD_MODE_TEXT
  | touchpad_windows_mode => TOUCHPAD_MODE_TEXT
  | rgb_mode_attr => RGB_MODE_TEXT
  | rgb_effect_attr => RGB_EFFECT_TEXT
  end.

(** The value domain of each property as its [_index]/[_range] file
    advertises it, as the inclusive range of wire values: labels count from
    0, the sleep time is 0-255, the wheel step 1-127. *)
Definition gamepad_domain (index : Z) : option (Z * Z) :=
  if index =? CFG_GAMEPAD_MODE then Some (0, 1)
  else if index =? CFG_AUTO_SLP_TIME then Some (0, 255)
  else if index =? CFG_PASS_ENABLE then Some (0, 1)
  else if index =? CFG_LIGHT_ENABLE then Some (0, 1)
  else if index =? CFG_IMU_ENABLE then Some (0, 2)
  else if index =? CFG_TPAD_ENABLE then Some (0, 1)
  else if index =? CFG_OS_TYPE then Some (0, 1)
  else if index =? CFG_POLL_RATE then Some (0, 3)
  else if index =? CFG_DPAD_MODE then Some (0, 1)
  else if index =? CFG_MS_WHEEL_STEP then Some (1, 127)
  else None.

Definition touchpad_domain (index : Z) : option (Z * Z) :=
  if (index =? CFG_WINDOWS_MODE) || (index =? CFG_LINUX_MODE) then Some (0, 1)
  else None.

(** Manufacturer labels and the version byte of the test registers. *)
Definition test_domain (index : Z) : option (Z * Z) :=
  if index =? TEST_TP_MFR then Some (0, 2)
  else if index =? TEST_IMU_MFR then Some (0, 2)
  else if index =? TEST_TP_VER then Some (0, 255)
  else None.

(** The label table of a gamepad or touchpad enumeration index. *)
Definition gamepad_labels (index : Z) : option (list string) :=
  if index =? CFG_GAMEPAD_MODE then Some GAMEPAD_MODE_TEXT
  else if index =? CFG_IMU_ENABLE then Some IMU_ENABLED_TEXT
  else if (index =? CFG_PASS_ENABLE) || (index =? CFG_LIGHT_ENABLE)
          || (index =? CFG_TPAD_ENABLE) then Some FEATURE_ENABLE_STATUS_TEXT
  else if index =? CFG_OS_TYPE then Some OS_TYPE_TEXT
  else if index =? CFG_POLL_RATE then Some POLL_RATE_TEXT
  else if index =? CFG_DPAD_MODE then Some DPAD_MODE_TEXT
  else None.

(** The device can be reached: the endpoint is the configuration interface
    and the DMA copy of the frame can be allocated. *)
Definition reachable {E : hid_env} (w : world E) : Prop :=
  get_endpoint_address E (hdev w) = LEGION_GO_S_CFG_INTF_IN E /\
  kmemdup_ok E (hdev w) = true.

Section Files.
Variable E : hid_env.

Definition store (a : enum_attr) (buf : string) (count : Z) (w : world E)
  : Z * world E :=
  match a with
  | dpad_mode => gamepad_property_store E buf count CFG_DPAD_MODE w
  | gamepad_mode => gamepad_property_store E buf count CFG_GAMEPAD_MODE w
  | gamepad_poll_rate => gamepad_property_store E buf count CFG_POLL_RATE w
  | imu_bypass_enabled => gamepad_property_store E buf count CFG_PASS_ENABLE w
  | imu_sensor_enabled => gamepad_property_store E buf count CFG_IMU_ENABLE w
  | os_mode => gamepad_property_store E buf count CFG_OS_TYPE w
  | rgb_enabled => gamepad_property_store E buf count CFG_LIGHT_ENABLE w
  | touchpad_enabled => gamepad_property_store E buf count CFG_TPAD_ENABLE w
  | touchpad_linux_mode => touchpad_property_store E buf count CFG_LINUX_MODE w
  | touchpad_windows_mode =>
      touchpad_property_store E buf count CFG_WINDOWS_MODE w
  | rgb_mode_attr => rgb_mode_store E buf count w
  | rgb_effect_attr => rgb_effect_store E buf count w
  end.

Definition lift (r : Z * string * world E) : option (Z * string) * world E :=
  (Some (fst r), snd r).

Definition show (a : enum_attr) (w : world E) : option (Z * string) * world E :=
  match a with
  | dpad_mode => lift (gamepad_property_show E CFG_DPAD_MODE w)
  | gamepad_mode => lift (gamepad_property_show E CFG_GAMEPAD_MODE w)
  | gamepad_poll_rate => lift (gamepad_property_show E CFG_POLL_RATE w)
  | imu_bypass_enabled => lift (gamepad_property_show E CFG_PASS_ENABLE w)
  | imu_sensor_enabled => lift (gamepad_property_show E CFG_IMU_ENABLE w)
  | os_mode => lift (gamepad_property_show E CFG_OS_TYPE w)
  | rgb_enabled => lift (gamepad_property_show E CFG_LIGHT_ENABLE w)
  | touchpad_enabled => lift (gamepad_property_show E CFG_TPAD_ENABLE w)
  | touchpad_linux_mode => lift (touchpad_property_show E CFG_LINUX_MODE w)
  | touchpad_windows_mode => lift (touchpad_property_show E CFG_WINDOWS_MODE w)
  | rgb_mode_attr => rgb_mode_show E w
  | rgb_effect_attr => rgb_effect_show E w
  end.

End Files.

End Attr.

(** ** Transport stubs

    Devices to run the driver against.  A stub keeps a byte list as its
    state and answers every transmitted frame at once; allocation succeeds,
    the whole frame is accepted and no signal is pending. *)

Module Stub.
Import Legos.

(** A decimal parser for the numeric attributes: digits only, [-EINVAL]
    for anything else and [-ERANGE] (34) beyond [limit]. *)
Fixpoint digits (s : string) (acc : Z) : option Z :=
  match s with
  | EmptyString => Some acc
  | String ch s' =>
      let d := Z.of_nat (nat_of_ascii ch) - 48 in
      if (0 <=? d) && (d <=? 9) then digits s' (10 * acc + d) else None
  end.

Definition parse_decimal (limit : Z) (s : string) : Z * Z :=
  match s with
  | EmptyString => (- EINVAL, 0)
  | _ => match digits s 0 with
         | None => (- EINVAL, 0)
         | Some v => if v >? limit then (- 34, 0) else (0, v)
         end
  end.

Definition CFG_ENDPOINT : Z := 0x83.

Definition stub (respond : list Z -> list Z -> list Z * list (list Z))
  : hid_env :=
  mkEnv (list Z) CFG_ENDPOINT (fun _ => CFG_ENDPOINT) (fun _ => true)
        (fun h frame =>
           let '(h, frames) := respond h frame in
           (h, mkReply GO_S_PACKET_SIZE frames false))
        (parse_decimal 255) (parse_decimal (2 ^ 31 - 1)).

Definition is_set (cmd : Z) : bool :=
  (cmd =? SET_GAMEPAD_CFG) || (cmd =? SET_TP_PARAM) || (cmd =? SET_LIGHT_CFG).

(** The echoing device: a SET stores the 63 payload bytes and is confirmed
    with status 0; a GET is answered with the payload most recently
    stored. *)
Definition echo_respond (h frame : list Z) : list Z * list (list Z) :=
  let cmd := byte_at frame 0 in
  let index := byte_at frame 1 in
  if is_set cmd then
    (drop 2 frame, [cmd :: index :: replicate 63 0])
  else
    (h, [cmd :: index :: take 63 (h ++ replicate 63 0)]).

Definition echo : hid_env := stub echo_respond.

(** A device that accepts every frame and never answers. *)
Definition silent : hid_env := stub (fun h _ => (h, [])).

(** A device that answers every frame with a report one byte short. *)
Definition runt : hid_env :=
  stub (fun h frame => (h, [take 64 frame])).

(** A device that refuses every SET with status [nak]. *)
Definition refusing (nak : Z) : hid_env :=
  stub (fun h frame =>
          (h, [byte_at frame 0 :: byte_at frame 1 :: nak :: replicate 62 0])).

(** Driver data as the module starts with it: [drvdata] zeroed, the LED
    class device with the initial values of [legos_cdev_rgb]. *)
Definition cfg0 : legos_cfg :=
  mkCfg 0%N 0 0 (replicate 12 0) (replicate 4 0) 0 0 0 0 [0x24; 0x22; 0x99] 0x50.

Definition boot (E : hid_env) (h : hid_device E) : world E :=
  mkWorld cfg0 h [].

End Stub.

(** * Zotac: the sample cache and the hwmon attributes *)

Module ZotacAttr.
Import Zotac.

(** Modelled from the spec: [time_after] (include/linux/jiffies.h) is
    outside the tree.  The cache is stale when more than one second has
    elapsed since the last sample; the comparison is made on the signed
    difference of the two [unsigned long] tick counts, so it survives the
    counter wrapping around. *)
Definition time_after (a b : Z) : bool := s64 (u64 (b - a)) <? 0.

(** Modelled from the spec: [sprintf] (lib/vsprintf.c) is outside the tree;
    an attribute read renders its value as decimal text followed by a line
    feed and returns the number of characters written (format ["%u\n"]). *)
Definition sprintf_u (v : Z) : Z * string :=
  let out := (Legos.fmt_u v ++ Legos.newline)%string in
  (Z.of_nat (String.length out), out).

(** The byte register [addr] of the EC holds. *)
Definition reg (c : ec_chip) (addr : Z) : Z := u8 (default 0 (ec_mem c !! addr)).

(** Time passing: the tick counter moves, nothing else does. *)
Definition with_jiffies (j : Z) (m : machine) : machine :=
  mkMachine (data m) (ec m) (fan_curve_timer m) j.

Section Attributes.
(** Timer ticks per second, and the parser of lib/kstrtox.c (status and
    [unsigned long] value). *)
Variable HZ : Z.
Variable kstrtoul : string -> Z * Z.

Definition zotac_fan_update_device (m : machine) : machine :=
  let d := data m in
  let current_time := u64 (jiffies m) in
  if time_after current_time (u64 (last_updated d + HZ)) || negb (valid d) then
    let '(mode, c) := ec_read_byte EC_FAN_CTRL_ADDR (ec m) in
    let '(duty, c) := ec_read_byte EC_FAN_DUTY_ADDR c in
    let '(upper, c) := ec_read_byte EC_FAN_SPEED_UPPER_ADDR c in
    let '(lower, c) := ec_read_byte EC_FAN_SPEED_LOWER_ADDR c in
    let rpm := u32 (Z.lor (Z.shiftl upper 8) lower) in
    let '(t, c) := ec_read_byte EC_CPU_TEMP_ADDR c in
    mkMachine
      (mkFan rpm duty mode t current_time true (curve_enabled d)
             (curve_temp d) (curve_pwm d))
      c (fan_curve_timer m) (jiffies m)
  else m.

Definition set_fan_duty (duty_percent : Z) (m : machine) : Z * machine :=
  let duty_percent := u8 duty_percent in
  if duty_percent >? 100 then (- EINVAL, m)
  else
    let '(err, c) := set_fan_duty_internal duty_percent (ec m) in
    if err =? 0 then
      let duty_val :=
        u8 (s32 (duty_percent * (EC_FAN_VALUE_MAX - EC_FAN_VALUE_MIN)) / 100
            + EC_FAN_VALUE_MIN) in
      let d := data m in
      (err,
       mkMachine
         (mkFan (fan_rpm d) duty_val (fan_mode d) (temp d) (last_updated d)
                (valid d) (curve_enabled d) (curve_temp d) (curve_pwm d))
         c (fan_curve_timer m) (jiffies m))
    else (err, mkMachine (data m) c (fan_curve_timer m) (jiffies m)).

(** The shows return the character count, the text and the machine, whose
    cache the read may have refreshed. *)
Definition fan1_input_show (m : machine) : Z * string * machine :=
  let m := zotac_fan_update_device m in
  (sprintf_u (fan_rpm (data m)), m).

Definition fan1_mode_show (m : machine) : Z * string * machine :=
  let m := zotac_fan_update_device m in
  if curve_enabled (data m) then (sprintf_u EC_FAN_MODE_CURVE, m)
  else (sprintf_u (fan_mode (data m)), m).

Definition fan1_mode_store (buf : string) (count : Z) (m : machine)
  : Z * machine :=
  let '(err, v) := kstrtoul buf in
  if negb (err =? 0) then (err, m)
  else
    let mode := u64 v in
    if negb (mode =? EC_FAN_MODE_AUTO) && negb (mode =? EC_FAN_MODE_MANUAL)
       && negb (mode =? EC_FAN_MODE_CURVE)
    then (- EINVAL, m)
    else
      let '(err, m) := set_fan_mode HZ mode m in
      if negb (err =? 0) then (err, m) else (ssize_t (size_t count), m).

Definition fan1_duty_show (m : machine) : Z * string * machine :=
  let m := zotac_fan_update_device m in
  let duty_percent :=
    u32 ((fan_duty (data m) - EC_FAN_VALUE_MIN) * 100)
    / (EC_FAN_VALUE_MAX - EC_FAN_VALUE_MIN) in
  (sprintf_u duty_percent, m).

Definition fan1_duty_store (buf : string) (count : Z) (m : machine)
  : Z * machine :=
  let '(err, v) := kstrtoul buf in
  if negb (err =? 0) then (err, m)
  else
    let duty_percent := u64 v in
    if duty_percent >? 100 then (- EINVAL, m)
    else
      let '(err, m) := set_fan_duty duty_percent m in
      if negb (err =? 0) then (err, m) else (ssize_t (size_t count), m).

Definition temp1_input_show (m : machine) : Z * string * machine :=
  let m := zotac_fan_update_device m in
  (sprintf_u (u32 (temp (data m) * 1000)), m).

End Attributes.

(** [pwm1_auto_pointN_temp_show] and [pwm1_auto_pointN_pwm_show]. *)
Definition pwm1_auto_point_temp_show (index : nat) (d : zotac_fan_data)
  : Z * string :=
  sprintf_u (idx (curve_temp d) (index - 1)).

Definition pwm1_auto_point_pwm_show (index : nat) (d : zotac_fan_data)
  : Z * string :=
  sprintf_u (idx (curve_pwm d) (index - 1)).

(** The curve tables the driver can come to hold: the one the probe
    installs, changed by any number of point stores (points 1 to 9) of any
    text, whatever the parser makes of it. *)
Inductive table_reachable : zotac_fan_data -> Prop :=
| reach_probe : table_reachable probe_data
| reach_temp kstrtoul index buf count d :
    table_reachable d -> (1 <= index <= 9)%nat ->
    table_reachable (snd (pwm1_auto_point_temp_store kstrtoul index buf count d))
| reach_pwm kstrtoul index buf count d :
    table_reachable d -> (1 <= index <= 9)%nat ->
    table_reachable (snd (pwm1_auto_point_pwm_store kstrtoul index buf count d)).

(** What happens to the machine between two accesses of its attributes
    while nobody writes one: the tick counter moves, the fan timer's
    callback runs, and the EC changes the registers it reports through
    (fan speed and temperature). *)
Definition ec_reports (addr v : Z) (c : ec_chip) : ec_chip :=
  mkEc (ec_cmd c) (ec_index c) (ec_addr_hi c) (ec_addr_lo c)
       (<[addr := u8 v]> (ec_mem c)) (ec_writes c).

Inductive idles (HZ : Z) (m : machine) : machine -> Prop :=
| idle_start : idles HZ m m
| idle_time j m' : idles HZ m m' -> idles HZ m (with_jiffies j m')
| idle_tick m' : idles HZ m m' -> idles HZ m (fan_curve_function HZ m')
| idle_report addr v m' :
    idles HZ m m' ->
    addr = EC_FAN_SPEED_UPPER_ADDR \/ addr = EC_FAN_SPEED_LOWER_ADDR
    \/ addr = EC_CPU_TEMP_ADDR ->
    idles HZ m
      (mkMachine (data m') (ec_reports addr v (ec m')) (fan_curve_timer m')
                 (jiffies m')).

End ZotacAttr.
(** * Legion Go S: the discovery files and the LED brightness hooks *)

Module LegosAttr.
Import Legos.

(** Modelled from the spec: [sysfs_emit_at] (fs/sysfs/file.c) is outside
    the tree; it renders text into the page buffer starting at offset [at],
    where the text written so far ends, and returns the number of
    characters written. *)
Definition sysfs_emit_at (buf : string) (at_ : Z) (text : string) : Z * string :=
  (Z.of_nat (String.length text),
   (String.substring 0 (Z.to_nat at_) buf ++ text)%string).

(** [buf[pos] = ch] *)
Definition set_char (buf : string) (pos : Z) (ch : ascii) : string :=
  (String.substring 0 (Z.to_nat pos) buf
   ++ String ch (String.substring (S (Z.to_nat pos))
                   (String.length buf - S (Z.to_nat pos)) buf))%string.

(** The loop [for (i = 0; i < ARRAY_SIZE(TEXT); i++) count +=
    sysfs_emit_at(buf, count, "%s ", TEXT[i]);] from an empty buffer. *)
Definition emit_labels (tbl : list string) : Z * string :=
  fold_left
    (fun (st : Z * string) (label : string) =>
       let '(n, buf) := sysfs_emit_at (snd st) (fst st) (label ++ " ") in
       (size_t (fst st + n), buf))
    tbl (0, EmptyString).

(** The tail shared by the listing functions: the last blank becomes a line
    feed. *)
Definition finish_listing (st : Z * string) : Z * string :=
  let '(count, buf) := st in
  let buf := if negb (count =? 0) then set_char buf (count - 1) "010"%char
             else buf in
  (ssize_t count, buf).

Definition gamepad_property_options (index : Z) : Z * string :=
  if index =? CFG_GAMEPAD_MODE then finish_listing (emit_labels GAMEPAD_MODE_TEXT)
  else if index =? CFG_AUTO_SLP_TIME then sysfs_emit "0-255"
  else if index =? CFG_IMU_ENABLE then finish_listing (emit_labels IMU_ENABLED_TEXT)
  else if (index =? CFG_PASS_ENABLE) || (index =? CFG_LIGHT_ENABLE)
          || (index =? CFG_TPAD_ENABLE) then
    finish_listing (emit_labels FEATURE_ENABLE_STATUS_TEXT)
  else if index =? CFG_OS_TYPE then finish_listing (emit_labels OS_TYPE_TEXT)
  else if index =? CFG_POLL_RATE then finish_listing (emit_labels POLL_RATE_TEXT)
  else if index =? CFG_DPAD_MODE then finish_listing (emit_labels DPAD_MODE_TEXT)
  else if index =? CFG_MS_WHEEL_STEP then sysfs_emit "1-127"
  else (0, EmptyString).

Definition touchpad_property_options (index : Z) : Z * string :=
  if (index =? CFG_WINDOWS_MODE) || (index =? CFG_LINUX_MODE) then
    finish_listing (emit_labels TOUCHPAD_MODE_TEXT)
  else (0, EmptyString).

Definition rgb_effect_index_show : Z * string :=
  finish_listing (emit_labels RGB_EFFECT_TEXT).

Section Led.
Variable E : hid_env.

Definition legos_rgb_color_get (w : world E) : Z := brightness (cfg w).

(** The write can fail; the hook only logs that. *)
Definition legos_rgb_color_set (value : Z) (w : world E) : world E :=
  let w := set_cfg E (set_brightness value (cfg w)) w in
  snd (rgb_attr_store E w).

End Led.

(** A text made of labels separated by single blanks and closed by a line
    feed, as the listing files render a table. *)
Definition listing (tbl : list string) : string :=
  (String.concat " " tbl ++ newline)%string.

(** A device that answers every frame with the command byte it received
    followed by the bytes it holds (an id, a version). *)
Definition reporting : hid_env :=
  Stub.stub (fun h frame => (h, [byte_at frame 0 :: take 64 (h ++ replicate 64 0)])).

(** A device bound through another interface than the configuration one. *)
Definition elsewhere : hid_env :=
  mkEnv (list Z) Stub.CFG_ENDPOINT (fun _ => 0x81) (fun _ => true)
        (fun h _ => (h, mkReply GO_S_PACKET_SIZE [] false))
        (Stub.parse_decimal 255) (Stub.parse_decimal (2 ^ 31 - 1)).

End LegosAttr.

(** * Properties *)

Module CIntFacts.
Import CInt.

Lemma u32_id z : 0 <= z < 2 ^ 32 -> u32 z = z.
Proof. intros; unfold u32; apply Z.mod_small; lia. Qed.

Lemma u8_range z : 0 <= u8 z < 256.
Proof. unfold u8; apply Z.mod_pos_bound; lia. Qed.

Lemma s32_id z : - 2 ^ 31 <= z < 2 ^ 31 -> s32 z = z.
Proof.
  intros Hz; unfold s32, sext.
  destruct (Z_lt_le_dec z 0) as [Hn | Hp].
  - replace (z mod 2 ^ 32) with (z + 2 ^ 32).
    + destruct (Z.ltb_spec (z + 2 ^ 32) (2 ^ (32 - 1))); lia.
    + apply Z.mod_unique with (q := -1); lia.
  - rewrite Z.mod_small by lia.
    destruct (Z.ltb_spec z (2 ^ (32 - 1))); lia.
Qed.

Lemma s32_high z : 2 ^ 31 <= z < 2 ^ 32 -> s32 z = z - 2 ^ 32.
Proof.
  intros Hz; unfold s32, sext.
  rewrite Z.mod_small by lia.
  destruct (Z.ltb_spec z (2 ^ (32 - 1))); lia.
Qed.

Lemma s64_id z : - 2 ^ 63 <= z < 2 ^ 63 -> s64 z = z.
Proof.
  intros Hz; unfold s64, sext.
  destruct (Z_lt_le_dec z 0) as [Hn | Hp].
  - replace (z mod 2 ^ 64) with (z + 2 ^ 64).
    + destruct (Z.ltb_spec (z + 2 ^ 64) (2 ^ (64 - 1))); lia.
    + apply Z.mod_unique with (q := -1); lia.
  - rewrite Z.mod_small by lia.
    destruct (Z.ltb_spec z (2 ^ (64 - 1))); lia.
Qed.

(** An [int] error code stored in a [size_t] and handed back as [ssize_t]
    comes out unchanged. *)
Lemma ssize_t_size_t z : - 2 ^ 63 <= z < 2 ^ 63 -> ssize_t (size_t z) = z.
Proof.
  intros Hz; unfold ssize_t, size_t, s64, sext, u64.
  rewrite Z.mod_mod by lia.
  fold (sext 64 z); fold (s64 z); now apply s64_id.
Qed.

End CIntFacts.

Import CIntFacts.

Module ZotacFacts.
Import Zotac.

Lemma idx_Forall (P : Z -> Prop) (l : list Z) (i : nat) :
  Forall P l -> (i < length l)%nat -> P (idx l i).
Proof.
  intros HF Hi; unfold idx.
  destruct (lookup_lt_is_Some_2 l i Hi) as [x Hx].
  rewrite Hx; simpl.
  rewrite Forall_forall in HF. apply HF.
  eapply list_elem_of_lookup_2; eauto.
Qed.

Lemma curve_loop_find t d n i pwm :
  curve_loop t d n i pwm =
  match List.find (in_interval t d) (seq i n) with
  | Some j => interpolate t d j
  | None => pwm
  end.
Proof.
  revert i; induction n as [| n IH]; intros i; simpl; [reflexivity |].
  destruct (in_interval t d i); [reflexivity | apply IH].
Qed.

Lemma find_in_interval t d l :
  List.find (in_interval t d) l =
  List.find (fun i => (idx (curve_temp d) i <=? t)
                      && (t <? idx (curve_temp d) (i + 1))) l.
Proof.
  induction l as [| a l IH]; simpl; [reflexivity |].
  unfold in_interval at 1. rewrite Z.geb_leb.
  destruct ((idx (curve_temp d) a <=? t) && (t <? idx (curve_temp d) (a + 1)));
    [reflexivity | exact IH].
Qed.

Lemma find_seq_bound (f : nat -> bool) (a n j : nat) :
  List.find f (seq a n) = Some j -> (a <= j < a + n)%nat /\ f j = true.
Proof.
  intros H. apply find_some in H as [Hin Hf].
  apply in_seq in Hin. split; [lia | exact Hf].
Qed.

Lemma quot_small_abs a b : Z.abs a < b -> Z.quot a b = 0.
Proof.
  intros H. destruct (Z_lt_le_dec a 0) as [Hn | Hp].
  - assert (E : Z.quot (- a) b = 0) by (apply Z.quot_small; lia).
    rewrite Z.quot_opp_l in E by lia. lia.
  - apply Z.quot_small; lia.
Qed.

(** |a| <= P * off with off < b bounds the quotient by P. *)
Lemma quot_range p off b :
  0 <= off < b ->
  Z.abs (Z.quot (p * off) b) <= Z.abs p /\
  (0 <= p -> 0 <= Z.quot (p * off) b) /\
  (p <= 0 -> Z.quot (p * off) b <= 0).
Proof.
  intros Hoff.
  assert (Hb : 0 < b) by lia.
  destruct (Z_lt_le_dec p 0) as [Hn | Hp].
  - assert (E : Z.quot (p * off) b = - Z.quot ((- p) * off) b).
    { replace (- p * off) with (- (p * off)) by lia.
      rewrite Z.quot_opp_l by lia. lia. }
    assert (H0 : 0 <= Z.quot ((- p) * off) b)
      by (apply Z.quot_pos; nia).
    assert (H1 : Z.quot ((- p) * off) b <= - p).
    { apply Z.quot_le_upper_bound; nia. }
    rewrite E. repeat split; lia.
  - assert (H0 : 0 <= Z.quot (p * off) b) by (apply Z.quot_pos; nia).
    assert (H1 : Z.quot (p * off) b <= p).
    { apply Z.quot_le_upper_bound; nia. }
    repeat split; lia.
Qed.

(** On a matching interval the [int]/[unsigned] arithmetic of the loop
    body computes the exact interpolation. *)
Lemma interpolate_exact t d i :
  curve_wf d -> 0 <= t < 256 -> (i < 8)%nat ->
  in_interval t d i = true ->
  interpolate t d i = CurveSpec.lerp t (curve_temp d) (curve_pwm d) i.
Proof.
  intros (HlT & HlP & HT & HP) Ht Hi Hin.
  unfold FAN_CURVE_POINTS in *.
  pose proof (idx_Forall _ _ i HT ltac:(lia)) as Ta.
  pose proof (idx_Forall _ _ (i + 1) HT ltac:(lia)) as Tb.
  pose proof (idx_Forall _ _ i HP ltac:(lia)) as Pa.
  pose proof (idx_Forall _ _ (i + 1) HP ltac:(lia)) as Pb.
  simpl in Ta, Tb, Pa, Pb.
  unfold in_interval in Hin. apply andb_prop in Hin as [H1 H2].
  apply Z.geb_le in H1. apply Z.ltb_lt in H2.
  unfold interpolate, CurveSpec.lerp.
  set (ta := idx (curve_temp d) i) in *.
  set (tb := idx (curve_temp d) (i + 1)) in *.
  set (pa := idx (curve_pwm d) i) in *.
  set (pb := idx (curve_pwm d) (i + 1)) in *.
  destruct (Z.eqb_spec (tb - ta) 0) as [E | NE]; [lia |].
  rewrite (u32_id (tb - ta)) by lia.
  assert (Epr : s32 (u32 (pb - pa)) = pb - pa).
  { unfold s32, sext, u32. rewrite Z.mod_mod by lia.
    fold (sext 32 (pb - pa)). fold (s32 (pb - pa)). apply s32_id. lia. }
  rewrite Epr.
  rewrite (u32_id (t - ta)) by lia.
  rewrite (s32_id (t - ta)) by lia.
  rewrite (s32_id ((pb - pa) * (t - ta))) by nia.
  destruct (Z_lt_le_dec (tb - ta) (2 ^ 31)) as [Hs | Hl].
  - rewrite (s32_id (tb - ta)) by lia.
    destruct (Z.gtb_spec (tb - ta) 0) as [_ | Hc]; [| lia].
    pose proof (quot_range (pb - pa) (t - ta) (tb - ta) ltac:(lia))
      as (Q1 & Q2 & Q3).
    apply u32_id. lia.
  - rewrite (s32_high (tb - ta)) by lia.
    destruct (Z.gtb_spec (tb - ta - 2 ^ 32) 0) as [Hc | _]; [lia |].
    rewrite quot_small_abs by nia. lia.
Qed.

(** The code and the specification's evaluator agree on every table the
    driver can hold and every temperature byte the EC can return. *)
Lemma fan_curve_pwm_evaluate t d :
  curve_wf d -> 0 <= t < 256 ->
  fan_curve_pwm t d = CurveSpec.evaluate t (curve_temp d) (curve_pwm d).
Proof.
  intros Hwf Ht. unfold fan_curve_pwm, CurveSpec.evaluate.
  change (FAN_CURVE_POINTS - 1)%nat with 8%nat.
  rewrite Z.geb_leb.
  destruct (idx (curve_temp d) 8 <=? t); [reflexivity |].
  rewrite curve_loop_find. unfold CurveSpec.first_interval.
  rewrite <- find_in_interval.
  destruct (List.find (in_interval t d) (seq 0 8)) as [j |] eqn:F;
    [| reflexivity].
  apply find_seq_bound in F as [Hj Hf].
  apply interpolate_exact; auto; lia.
Qed.

(** With increasing temperatures the first matching interval is the only
    one. *)
Lemma first_interval_increasing t d i :
  curve_increasing d -> (i < 8)%nat ->
  in_interval t d i = true ->
  List.find (in_interval t d) (seq 0 8) = Some i.
Proof.
  intros Hinc Hi Hin.
  assert (Hmono : forall a b : nat, (a <= b)%nat -> (b <= 8)%nat ->
            idx (curve_temp d) a <= idx (curve_temp d) b).
  { intros a b Hab; induction Hab as [| b Hab IH]; intros Hb; [lia |].
    specialize (Hinc b ltac:(lia)).
    replace (b + 1)%nat with (S b) in Hinc by lia. lia. }
  destruct (List.find (in_interval t d) (seq 0 8)) as [j |] eqn:F.
  - apply find_seq_bound in F as F'. destruct F' as [Hj Hfj].
    f_equal.
    unfold in_interval in Hin, Hfj.
    apply andb_prop in Hin as [A1 A2]. apply andb_prop in Hfj as [B1 B2].
    apply Z.geb_le in A1, B1. apply Z.ltb_lt in A2, B2.
    destruct (lt_eq_lt_dec i j) as [[L | E] | G]; [| congruence |].
    + pose proof (Hmono (i + 1)%nat j ltac:(lia) ltac:(lia)). lia.
    + pose proof (Hmono (j + 1)%nat i ltac:(lia) ltac:(lia)). lia.
  - exfalso.
    assert (Hno : in_interval t d i = false).
    { apply (find_none _ _ F i). apply in_seq. lia. }
    congruence.
Qed.

End ZotacFacts.

Module ZotacCurve.
Import Zotac ZotacFacts.

Lemma probe_data_wf : curve_wf probe_data.
Proof.
  repeat split; try reflexivity.
  - repeat constructor; vm_compute; congruence.
  - repeat constructor; vm_compute; congruence.
Qed.

Lemma Forall_insert_Z (P : Z -> Prop) (l : list Z) (i : nat) (x : Z) :
  Forall P l -> P x -> Forall P (<[i := x]> l).
Proof. intros; now apply Forall_insert. Qed.

(** The stores keep a table within what the evaluator relies on. *)
Lemma temp_store_wf kstrtoul index buf count d :
  curve_wf d ->
  curve_wf (snd (pwm1_auto_point_temp_store kstrtoul index buf count d)).
Proof.
  intros (A & B & C & D); unfold pwm1_auto_point_temp_store.
  destruct (kstrtoul buf) as [err v].
  destruct (negb (err =? 0)); simpl; [repeat split; auto |].
  repeat split; simpl; auto.
  - now rewrite length_insert.
  - apply Forall_insert_Z; auto. unfold u32. apply Z.mod_pos_bound. lia.
Qed.

Lemma pwm_store_wf kstrtoul index buf count d :
  curve_wf d ->
  curve_wf (snd (pwm1_auto_point_pwm_store kstrtoul index buf count d)).
Proof.
  intros (A & B & C & D); unfold pwm1_auto_point_pwm_store.
  destruct (kstrtoul buf) as [err v].
  destruct (negb (err =? 0)); simpl; [repeat split; auto |].
  destruct (Z.gtb_spec (u64 v) 100) as [H | H]; simpl; [repeat split; auto |].
  repeat split; simpl; auto.
  - now rewrite length_insert.
  - apply Forall_insert_Z; auto.
    assert (0 <= u64 v) by (unfold u64; apply Z.mod_pos_bound; lia).
    rewrite u32_id by lia. lia.
Qed.

(** C3 (as amended).  On every table the driver can hold (nine points, duty
    points at most 100) and every temperature byte [t] read from the EC, the
    duty computed by [fan_curve_function] is: [pwm[8]] when [t >= temp[8]];
    otherwise, on the first interval [i] in array order with
    [temp[i] <= t < temp[i+1]], the value
    [pwm[i] + (pwm[i+1]-pwm[i])*(t-temp[i])/(temp[i+1]-temp[i])] with the
    truncating integer quotient ([pwm[i]] for a zero-width interval); and
    [pwm[0]] when no interval matches.  On a table whose temperatures are
    strictly increasing, and only there in general, [t] below [temp[0]]
    yields [pwm[0]], [t] exactly at breakpoint [i] yields [pwm[i]], and
    neighbouring points (10,20), (20,30) give 25 at [t = 15]. *)
Theorem fan_curve_function_interpolates (d : zotac_fan_data) :
  curve_wf d ->
  (forall t, 0 <= t < 256 ->
     fan_curve_pwm t d = CurveSpec.evaluate t (curve_temp d) (curve_pwm d)) /\
  (forall t, 0 <= t < 256 -> curve_increasing d ->
     t < idx (curve_temp d) 0 -> fan_curve_pwm t d = idx (curve_pwm d) 0) /\
  (forall i : nat, (i < 9)%nat -> curve_increasing d ->
     idx (curve_temp d) i < 256 ->
     fan_curve_pwm (idx (curve_temp d) i) d = idx (curve_pwm d) i) /\
  (forall k : nat, (k < 8)%nat -> curve_increasing d ->
     idx (curve_temp d) k = 10 -> idx (curve_pwm d) k = 20 ->
     idx (curve_temp d) (k + 1) = 20 -> idx (curve_pwm d) (k + 1) = 30 ->
     fan_curve_pwm 15 d = 25).
Proof.
  intros Hwf.
  assert (Hmono : curve_increasing d -> forall a b : nat,
            (a <= b)%nat -> (b <= 8)%nat ->
            idx (curve_temp d) a <= idx (curve_temp d) b).
  { intros Hinc a b Hab; induction Hab as [| b Hab IH]; intros Hb; [lia |].
    specialize (Hinc b ltac:(lia)).
    replace (b + 1)%nat with (S b) in Hinc by lia. lia. }
  assert (Hat : forall t i, 0 <= t < 256 -> (i < 8)%nat -> curve_increasing d ->
            in_interval t d i = true ->
            fan_curve_pwm t d = CurveSpec.lerp t (curve_temp d) (curve_pwm d) i).
  { intros t i Ht Hi Hinc Hin.
    unfold fan_curve_pwm. change (FAN_CURVE_POINTS - 1)%nat with 8%nat.
    pose proof Hin as Hin'. unfold in_interval in Hin'.
    apply andb_prop in Hin' as [_ A2]. apply Z.ltb_lt in A2.
    pose proof (Hmono Hinc (i + 1)%nat 8%nat ltac:(lia) ltac:(lia)).
    destruct (Z.geb_spec t (idx (curve_temp d) 8)) as [G | G]; [lia |].
    rewrite curve_loop_find, (first_interval_increasing t d i) by auto.
    apply interpolate_exact; auto. }
  split; [| split; [| split]].
  - intros t Ht. now apply fan_curve_pwm_evaluate.
  - intros t Ht Hinc Hlow.
    rewrite fan_curve_pwm_evaluate by auto. unfold CurveSpec.evaluate.
    pose proof (Hmono Hinc 0%nat 8%nat ltac:(lia) ltac:(lia)).
    destruct (Z.leb_spec (idx (curve_temp d) 8) t) as [G | G]; [lia |].
    unfold CurveSpec.first_interval.
    destruct (List.find _ (seq 0 8)) as [j |] eqn:F; [| reflexivity].
    apply find_seq_bound in F as [Hj Hf].
    apply andb_prop in Hf as [B1 _]. apply Z.leb_le in B1.
    pose proof (Hmono Hinc 0%nat j ltac:(lia) ltac:(lia)). lia.
  - intros i Hi Hinc Hbyte.
    destruct Hwf as (HlT & HlP & HT & HP).
    pose proof (idx_Forall _ _ i HT ltac:(unfold FAN_CURVE_POINTS in *; lia))
      as Ti. simpl in Ti.
    destruct (Nat.eq_dec i 8%nat) as [-> | Hne].
    + unfold fan_curve_pwm. change (FAN_CURVE_POINTS - 1)%nat with 8%nat.
      destruct (Z.geb_spec (idx (curve_temp d) 8) (idx (curve_temp d) 8));
        [reflexivity | lia].
    + assert (Hin : in_interval (idx (curve_temp d) i) d i = true).
      { unfold in_interval. pose proof (Hinc i ltac:(lia)).
        apply andb_true_intro; split; [apply Z.geb_le | apply Z.ltb_lt]; lia. }
      rewrite (Hat (idx (curve_temp d) i) i ltac:(lia) ltac:(lia) Hinc Hin).
      unfold CurveSpec.lerp.
      destruct (Z.eqb_spec (idx (curve_temp d) (i + 1) - idx (curve_temp d) i) 0);
        [reflexivity |].
      rewrite Z.sub_diag, Z.mul_0_r, Z.quot_0_l by lia. lia.
  - intros k Hk Hinc T0 P0 T1 P1.
    assert (Hin : in_interval 15 d k = true)
      by (unfold in_interval; rewrite T0, T1; reflexivity).
    rewrite (Hat 15 k ltac:(lia) Hk Hinc Hin).
    unfold CurveSpec.lerp. rewrite T0, T1, P0, P1. reflexivity.
Qed.

(** The stores accept temperatures in any order.  With point 2 set to 30
    and point 3 to 20 the table reads 10, 30, 20, 40, ... against duties 20,
    30, 40, ...: at [t = 20], the temperature of point 3, the first interval
    that matches is the one from point 1 to point 2 and the duty is 25, not
    the 40 of point 3.  With point 1 set to 50 a temperature of 25 is below
    the first point and yet inside the interval from 20 to 30: the duty is
    35, not the 20 of point 1. *)
Lemma breakpoint_missed_on_unordered_table :
  let kstrtoul := Stub.parse_decimal (2 ^ 64 - 1) in
  let d := snd (pwm1_auto_point_temp_store kstrtoul 3 "20"%string 2
             (snd (pwm1_auto_point_temp_store kstrtoul 2 "30"%string 2
                     probe_data))) in
  let d' := snd (pwm1_auto_point_temp_store kstrtoul 1 "50"%string 2
                   probe_data) in
  (curve_wf d /\
   idx (curve_temp d) 2 = 20 /\ idx (curve_pwm d) 2 = 40 /\
   fan_curve_pwm 20 d = 25) /\
  (curve_wf d' /\
   25 < idx (curve_temp d') 0 /\ idx (curve_pwm d') 0 = 20 /\
   fan_curve_pwm 25 d' = 35).
Proof.
  intros kstrtoul d d'.
  split; (split; [repeat apply temp_store_wf; exact probe_data_wf |]);
    repeat split; reflexivity.
Qed.

Lemma fan_curve_function_interpolates_witness :
  curve_wf probe_data /\ fan_curve_pwm 15 probe_data = 25.
Proof.
  split; [exact probe_data_wf |].
  destruct (fan_curve_function_interpolates probe_data probe_data_wf)
    as (H & _).
  rewrite H by lia. reflexivity.
Defined.

End ZotacCurve.

Module ZotacMode.
Import Zotac.

(** One logical EC write: twelve port accesses that leave the byte in the
    addressed register. *)
Lemma ec_write_byte_ctrl v c :
  ec_write_byte EC_FAN_CTRL_ADDR v c =
  (0, mkEc 0x2F 0x12 0x04 0x4A
           (<[EC_FAN_CTRL_ADDR := u8 v]> (ec_mem c))
           ((EC_FAN_CTRL_ADDR, u8 v) :: ec_writes c)).
Proof. reflexivity. Qed.

Lemma u8_u8 z : u8 (u8 z) = u8 z.
Proof. unfold u8. apply Z.mod_mod. lia. Qed.

(** C4.  Whatever mode byte [set_fan_mode] is called with, it performs exactly
    one EC register write, to the fan-control register, and the value written
    is never the Curve value 2: a request for Curve writes Manual (1), sets
    the curve flag and arms the periodic timer one second ahead; any other
    request writes the byte itself.  After Curve followed by Auto the control
    register holds Auto (0), the curve flag is clear and the timer is
    stopped, and a timer callback that still runs finds nothing to do. *)
Theorem set_fan_mode_never_writes_curve (HZ mode : Z) (m : machine) :
  (exists v,
      ec_writes (ec (snd (set_fan_mode HZ mode m)))
        = (EC_FAN_CTRL_ADDR, v) :: ec_writes (ec m) /\
      ec_mem (ec (snd (set_fan_mode HZ mode m))) !! EC_FAN_CTRL_ADDR = Some v /\
      v <> EC_FAN_MODE_CURVE /\
      (u8 mode = EC_FAN_MODE_CURVE ->
         v = EC_FAN_MODE_MANUAL /\
         curve_enabled (data (snd (set_fan_mode HZ mode m))) = true /\
         fan_curve_timer (snd (set_fan_mode HZ mode m)) = Some (jiffies m + HZ)) /\
      (u8 mode <> EC_FAN_MODE_CURVE -> v = u8 mode)) /\
  (let m1 := snd (set_fan_mode HZ EC_FAN_MODE_CURVE m) in
   let m2 := snd (set_fan_mode HZ EC_FAN_MODE_AUTO m1) in
   fst (set_fan_mode HZ EC_FAN_MODE_AUTO m1) = 0 /\
   ec_mem (ec m2) !! EC_FAN_CTRL_ADDR = Some EC_FAN_MODE_AUTO /\
   fan_mode (data m2) = EC_FAN_MODE_AUTO /\
   curve_enabled (data m2) = false /\
   fan_curve_timer m2 = None /\
   fan_curve_function HZ m2 = m2).
Proof.
  split.
  - unfold set_fan_mode.
    destruct (Z.eqb_spec (u8 mode) EC_FAN_MODE_CURVE) as [E | NE].
    + rewrite ec_write_byte_ctrl. simpl.
      exists EC_FAN_MODE_MANUAL.
      split; [reflexivity |].
      split; [apply lookup_insert_eq |].
      split; [discriminate |].
      split; [intros _; repeat split | intros C; contradiction].
    + assert (Hw : forall m0 : machine,
          exists v,
            ec_writes (ec (snd
              (let '(err, c) := ec_write_byte EC_FAN_CTRL_ADDR (u8 mode) (ec m0) in
               if err =? 0
               then (err, mkMachine (with_fan_mode (u8 mode) (data m0)) c
                                    (fan_curve_timer m0) (jiffies m0))
               else (err, mkMachine (data m0) c (fan_curve_timer m0) (jiffies m0)))))
              = (EC_FAN_CTRL_ADDR, v) :: ec_writes (ec m0) /\
            ec_mem (ec (snd
              (let '(err, c) := ec_write_byte EC_FAN_CTRL_ADDR (u8 mode) (ec m0) in
               if err =? 0
               then (err, mkMachine (with_fan_mode (u8 mode) (data m0)) c
                                    (fan_curve_timer m0) (jiffies m0))
               else (err, mkMachine (data m0) c (fan_curve_timer m0) (jiffies m0)))))
              !! EC_FAN_CTRL_ADDR = Some v /\
            v = u8 mode).
      { intros m0. rewrite ec_write_byte_ctrl. simpl.
        exists (u8 mode). rewrite u8_u8.
        split; [reflexivity |]. split; [apply lookup_insert_eq | reflexivity]. }
      destruct (curve_enabled (data m)).
      * destruct (Hw (del_timer (mkMachine (with_curve_enabled false (data m))
                                           (ec m) (fan_curve_timer m) (jiffies m))))
          as (v & W1 & W2 & W3).
        exists v. split; [exact W1 |]. split; [exact W2 |].
        split; [congruence |]. split; [intros C; contradiction | auto].
      * destruct (Hw m) as (v & W1 & W2 & W3).
        exists v. split; [exact W1 |]. split; [exact W2 |].
        split; [congruence |]. split; [intros C; contradiction | auto].
  - cbv zeta. unfold set_fan_mode.
    change (u8 EC_FAN_MODE_CURVE =? EC_FAN_MODE_CURVE) with true.
    change (u8 EC_FAN_MODE_AUTO =? EC_FAN_MODE_CURVE) with false.
    cbv iota. rewrite ec_write_byte_ctrl. simpl.
    repeat split; apply lookup_insert_eq.
Qed.

Lemma ec_read_byte_temp c :
  fst (ec_read_byte EC_CPU_TEMP_ADDR c)
  = u8 (default 0 (ec_mem c !! EC_CPU_TEMP_ADDR)).
Proof. reflexivity. Qed.

Lemma fan_curve_pwm_with_temp t t' d :
  fan_curve_pwm t (with_temp t' d) = fan_curve_pwm t d.
Proof. reflexivity. Qed.

(** One tick in curve mode: the temperature byte is read from the EC, the
    duty the evaluator yields for it is scaled to 0..255 and written to the
    duty register, and the timer is armed for the next second. *)
Lemma fan_curve_function_tick (HZ : Z) (m : machine) :
  curve_enabled (data m) = true ->
  let t := u8 (default 0 (ec_mem (ec m) !! EC_CPU_TEMP_ADDR)) in
  let pwm := fan_curve_pwm t (data m) in
  pwm <= 100 ->
  ec_mem (ec (fan_curve_function HZ m)) !! EC_FAN_DUTY_ADDR
    = Some (u8 (u32 (pwm * 255) / 100)) /\
  temp (data (fan_curve_function HZ m)) = t /\
  fan_curve_timer (fan_curve_function HZ m) = Some (jiffies m + HZ).
Proof.
  intros Hen t pwm Hpwm. unfold fan_curve_function. rewrite Hen. simpl negb.
  cbv iota.
  destruct (ec_read_byte EC_CPU_TEMP_ADDR (ec m)) as [t0 c] eqn:Hrd.
  assert (Ht0 : t0 = t)
    by (pose proof (ec_read_byte_temp (ec m)) as H; rewrite Hrd in H; exact H).
  assert (Hc : ec_mem c = ec_mem (ec m))
    by (apply (f_equal snd) in Hrd; simpl in Hrd; subst c; reflexivity).
  subst t0. rewrite fan_curve_pwm_with_temp. fold pwm.
  unfold set_fan_duty_internal.
  destruct (Z.gtb_spec pwm 100) as [Hgt | _]; [lia |].
  change (ec_write_byte EC_FAN_DUTY_ADDR ?v c) with
    (0, mkEc 0x2F 0x12 0x04 0x4B (<[EC_FAN_DUTY_ADDR := u8 v]> (ec_mem c))
             ((EC_FAN_DUTY_ADDR, u8 v) :: ec_writes c)).
  simpl. rewrite lookup_insert_eq, u8_u8.
  unfold EC_FAN_VALUE_MAX, EC_FAN_VALUE_MIN.
  rewrite Z.sub_0_r, Z.add_0_r. repeat split; reflexivity.
Qed.

End ZotacMode.

(** * The MCU command engine *)

Module LegosFacts.
Import Legos Attr.

Section Engine.
Variable E : hid_env.

(** [mcu_property_out] once the frame has been accepted whole. *)
Lemma mcu_property_out_sent command index val size (w : world E) :
  reachable w ->
  hw_ret (answer E command index val size w) = GO_S_PACKET_SIZE ->
  mcu_property_out E command index val size w =
  (let c1 := after_delivery E command index val size w in
   let r := wait_for_completion_interruptible_timeout
              (signal_pending (answer E command index val size w)) c1 in
   let ret := if fst r =? 0 then - EBUSY else fst r in
   let ret := if ret >? 0 then 0 else ret in
   (ret,
    mkWorld (reinit_completion (snd r))
            (fst (hid_hw_output_report E (hdev w)
                    (make_outbuf command index val size)))
            (entry command index val size :: wire w))).
Proof.
  intros [Hep Hmem] Hret.
  unfold mcu_property_out, legos_cfg_send_cmd, after_delivery, answer, entry in *.
  rewrite Hep, Z.eqb_refl, Hmem. simpl negb. cbv iota.
  destruct (hid_hw_output_report E (hdev w) (make_outbuf command index val size))
    as [h r] eqn:Hr.
  simpl in Hret. rewrite Hret. simpl.
  destruct (wait_for_completion_interruptible_timeout (signal_pending r)
              (deliver (inbound r)
                 (set_last_cmd_val 0 (set_last_cmd_ret 0 (cfg w)))))
    as [ret c2]. reflexivity.
Qed.

(** Whatever happens, at most one frame is put on the wire, and none when
    the device cannot be reached. *)
Lemma mcu_property_out_wire command index val size (w : world E) :
  wire (snd (mcu_property_out E command index val size w)) = wire w \/
  wire (snd (mcu_property_out E command index val size w))
    = entry command index val size :: wire w.
Proof.
  unfold mcu_property_out, legos_cfg_send_cmd, entry.
  destruct (get_endpoint_address E (hdev w) =? LEGION_GO_S_CFG_INTF_IN E);
    simpl; [| now left].
  destruct (kmemdup_ok E (hdev w)); simpl; [| now left].
  destruct (hid_hw_output_report E (hdev w) (make_outbuf command index val size))
    as [h r].
  destruct (hw_ret r =? GO_S_PACKET_SIZE); simpl; [| now right].
  destruct (wait_for_completion_interruptible_timeout _ _) as [ret c2].
  now right.
Qed.

(** A frame of the wrong length leaves the driver data alone. *)
Lemma raw_event_bad_size data size c :
  size <> GO_S_PACKET_SIZE -> legos_cfg_raw_event data size c = (- EINVAL, c).
Proof.
  intros H. unfold legos_cfg_raw_event.
  destruct (Z.eqb_spec size GO_S_PACKET_SIZE); [contradiction | reflexivity].
Qed.

(** A frame of the right length fires the completion exactly once. *)
Lemma raw_event_completes data c :
  send_cmd_complete (snd (legos_cfg_raw_event data GO_S_PACKET_SIZE c))
    = N.succ (send_cmd_complete c) /\
  fst (legos_cfg_raw_event data GO_S_PACKET_SIZE c)
    = - last_cmd_ret (snd (legos_cfg_raw_event data GO_S_PACKET_SIZE c)).
Proof.
  unfold legos_cfg_raw_event. rewrite Z.eqb_refl. simpl negb. cbv iota zeta.
  split; [| reflexivity].
  unfold complete. simpl.
  repeat match goal with
         | |- context [if ?b then _ else _] => destruct b
         end; reflexivity.
Qed.

Lemma deliver_bad_sizes frames c :
  Forall (fun f => Z.of_nat (length f) <> GO_S_PACKET_SIZE) frames ->
  deliver frames c = c.
Proof.
  unfold deliver. induction 1 as [| f fs Hf _ IH]; simpl; [reflexivity |].
  rewrite raw_event_bad_size by exact Hf. exact IH.
Qed.

(** The two ways the wait can end once the frame is out. *)
Lemma mcu_property_out_timeout command index val size (w : world E) :
  reachable w ->
  hw_ret (answer E command index val size w) = GO_S_PACKET_SIZE ->
  send_cmd_complete (after_delivery E command index val size w) = 0%N ->
  signal_pending (answer E command index val size w) = false ->
  fst (mcu_property_out E command index val size w) = - EBUSY.
Proof.
  intros Hreach Hret Hzero Hsig.
  rewrite (mcu_property_out_sent command index val size w Hreach Hret).
  cbv zeta. unfold wait_for_completion_interruptible_timeout.
  rewrite Hzero, Hsig. reflexivity.
Qed.

Lemma mcu_property_out_fired command index val size (w : world E) :
  reachable w ->
  hw_ret (answer E command index val size w) = GO_S_PACKET_SIZE ->
  (0 < send_cmd_complete (after_delivery E command index val size w))%N ->
  fst (mcu_property_out E command index val size w) = 0 /\
  last_cmd_ret (cfg (snd (mcu_property_out E command index val size w)))
    = last_cmd_ret (after_delivery E command index val size w).
Proof.
  intros Hreach Hret Hpos.
  rewrite (mcu_property_out_sent command index val size w Hreach Hret).
  cbv zeta. unfold wait_for_completion_interruptible_timeout.
  apply N.ltb_lt in Hpos. rewrite Hpos. split; reflexivity.
Qed.

(** When the device can be reached, exactly one frame goes out. *)
Lemma mcu_property_out_wire_reachable command index val size (w : world E) :
  reachable w ->
  wire (snd (mcu_property_out E command index val size w))
    = entry command index val size :: wire w.
Proof.
  intros [Hep Hmem].
  unfold mcu_property_out, legos_cfg_send_cmd, entry.
  rewrite Hep, Z.eqb_refl, Hmem. simpl negb. cbv iota.
  destruct (hid_hw_output_report E (hdev w) (make_outbuf command index val size))
    as [h r].
  destruct (hw_ret r =? GO_S_PACKET_SIZE); simpl; [| reflexivity].
  destruct (wait_for_completion_interruptible_timeout _ _) as [ret c2].
  reflexivity.
Qed.

Lemma memcmp_zero_false a :
  memcmp_zero a = false <-> Forall (fun b => b = 0) a.
Proof.
  unfold memcmp_zero. rewrite negb_false_iff.
  induction a as [| x a IH]; cbn [forallb].
  - split; [constructor | reflexivity].
  - rewrite andb_true_iff, IH, Forall_cons, Z.eqb_eq.
    split; intros [H1 H2]; split; auto.
Qed.

Lemma memcmp_zero_true a :
  memcmp_zero a = true <-> Exists (fun b => b <> 0) a.
Proof.
  unfold memcmp_zero. rewrite negb_true_iff.
  induction a as [| x a IH]; cbn [forallb].
  - split; [discriminate | intros H; inversion H].
  - rewrite andb_false_iff, IH, Exists_cons, Z.eqb_neq.
    split; (intros [H | H]; [left | right]); auto.
Qed.

Lemma store_enum_byte tbl buf val :
  store_enum tbl buf = inr val -> 0 <= val < 256.
Proof.
  unfold store_enum. destruct (sysfs_match_string tbl buf <? 0); [discriminate |].
  intros [= <-]. apply u8_range.
Qed.

(** The wire value a store arrives at is a byte. *)
Lemma gamepad_property_parse_byte buf index val :
  gamepad_property_parse E buf index = inr val -> 0 <= val < 256.
Proof.
  unfold gamepad_property_parse.
  destruct (kstrtou8 E buf) as [ret v].
  repeat match goal with
         | |- context [if ?b then _ else _] => destruct b
         end;
    try discriminate; try (apply store_enum_byte);
    intros [= <-]; apply u8_range.
Qed.

Lemma touchpad_property_parse_byte buf index val :
  touchpad_property_parse buf index = inr val -> 0 <= val < 256.
Proof.
  unfold touchpad_property_parse.
  destruct ((index =? CFG_WINDOWS_MODE) || (index =? CFG_LINUX_MODE));
    [apply store_enum_byte | discriminate].
Qed.

(** The [size] bytes logged for a one-byte value: none for 0, the byte
    itself otherwise. *)
Lemma payload_of_val val :
  0 <= val < 256 ->
  take (Z.to_nat (if val =? 0 then 0 else 1)) (u8 <$> [val])
  = if val =? 0 then [] else [val].
Proof.
  intros Hb. destruct (val =? 0); [reflexivity |].
  simpl. unfold u8. now rewrite Z.mod_small by lia.
Qed.

(** A text that is none of the labels is an invalid argument. *)
Lemma match_string_from_miss i tbl buf :
  ~ In buf tbl -> match_string_from i tbl buf = - EINVAL.
Proof.
  revert i; induction tbl as [| l tbl IH]; intros i Hn; simpl; [reflexivity |].
  destruct (String.eqb_spec l buf) as [-> | _].
  - exfalso. apply Hn. now left.
  - apply IH. intros Hin. apply Hn. now right.
Qed.

Lemma store_enum_miss tbl buf :
  ~ In buf tbl -> store_enum tbl buf = inl (- EINVAL).
Proof.
  intros Hn. unfold store_enum, sysfs_match_string.
  now rewrite match_string_from_miss.
Qed.

Lemma size_t_not_negative ret : (size_t ret <? 0) = false.
Proof.
  unfold size_t, u64. apply Z.ltb_ge. apply Z.mod_pos_bound. lia.
Qed.

(** The enumeration arm of a show on a byte past the last label. *)
Lemma show_enum_out tbl last i :
  last < i -> show_enum tbl last i = (size_t (- EINVAL), EmptyString).
Proof.
  intros H. unfold show_enum.
  destruct (Z.gtb_spec i last); [reflexivity | lia].
Qed.

(** A store never hands back 0 from its parsing step. *)
Lemma store_enum_inl tbl buf r : store_enum tbl buf = inl r -> r < 0.
Proof.
  unfold store_enum.
  destruct (Z.ltb_spec (sysfs_match_string tbl buf) 0); [| discriminate].
  now intros [= <-].
Qed.

Lemma gamepad_property_parse_inl buf index r :
  gamepad_property_parse E buf index = inl r -> r <> 0.
Proof.
  unfold gamepad_property_parse.
  destruct (kstrtou8 E buf) as [ret v].
  destruct (Z.eqb_spec ret 0) as [-> | Hret]; simpl negb; cbv iota;
    repeat match goal with
           | |- context [if ?b then _ else _] => destruct b
           end;
    try discriminate;
    try (intros H; apply store_enum_inl in H; lia);
    try (intros [= <-]; first [exact Hret | discriminate]).
Qed.

Lemma touchpad_property_parse_inl buf index r :
  touchpad_property_parse buf index = inl r -> r <> 0.
Proof.
  unfold touchpad_property_parse.
  destruct ((index =? CFG_WINDOWS_MODE) || (index =? CFG_LINUX_MODE)).
  - intros H; apply store_enum_inl in H; lia.
  - intros [= <-]; discriminate.
Qed.

End Engine.

End LegosFacts.

Module LegosProps.
Import Legos Attr LegosFacts.

Lemma last_cmd_ret_reinit c :
  last_cmd_ret (reinit_completion c) = last_cmd_ret c.
Proof. reflexivity. Qed.

(** C1.  Once [mcu_property_out] has handed its frame to the transport
    (endpoint right, frame accepted whole): when the completion has not been
    fired by the end of the wait and no signal interrupted it, the call
    returns [-EBUSY]; when it has been fired the call returns 0 whatever
    result code the response path stored, and that code is left in
    [last_cmd_ret].  In particular a SET confirmation carrying status byte
    [s] makes the call return 0 with [last_cmd_ret = s]. *)
Theorem mcu_property_out_busy_or_success
  (E : hid_env) (command index : Z) (val : list Z) (size : Z) (w : world E) :
  reachable w ->
  hw_ret (answer E command index val size w) = GO_S_PACKET_SIZE ->
  (send_cmd_complete (after_delivery E command index val size w) = 0%N ->
   signal_pending (answer E command index val size w) = false ->
   fst (mcu_property_out E command index val size w) = - EBUSY) /\
  ((0 < send_cmd_complete (after_delivery E command index val size w))%N ->
   fst (mcu_property_out E command index val size w) = 0 /\
   last_cmd_ret (cfg (snd (mcu_property_out E command index val size w)))
     = last_cmd_ret (after_delivery E command index val size w)) /\
  (forall f : list Z,
     inbound (answer E command index val size w) = [f] ->
     Z.of_nat (length f) = GO_S_PACKET_SIZE ->
     byte_at f 0 = SET_GAMEPAD_CFG \/ byte_at f 0 = SET_TP_PARAM
       \/ byte_at f 0 = SET_LIGHT_CFG ->
     fst (mcu_property_out E command index val size w) = 0 /\
     last_cmd_ret (cfg (snd (mcu_property_out E command index val size w)))
       = byte_at f 2).
Proof.
  intros Hreach Hret.
  split; [| split].
  - intros Hzero Hsig. now apply mcu_property_out_timeout.
  - intros Hpos. now apply mcu_property_out_fired.
  - intros f Hin Hlen Hcmd.
    assert (Hc : after_delivery E command index val size w
                 = snd (legos_cfg_raw_event f GO_S_PACKET_SIZE
                          (set_last_cmd_val 0 (set_last_cmd_ret 0 (cfg w))))).
    { unfold after_delivery, deliver. rewrite Hin. simpl. now rewrite Hlen. }
    destruct (raw_event_completes f
                (set_last_cmd_val 0 (set_last_cmd_ret 0 (cfg w)))) as [Hdone _].
    assert (Hpos :
      (0 < send_cmd_complete (after_delivery E command index val size w))%N)
      by (rewrite Hc, Hdone; lia).
    destruct (mcu_property_out_fired E command index val size w Hreach Hret Hpos)
      as [H1 H2].
    split; [exact H1 |].
    rewrite H2, Hc.
    unfold legos_cfg_raw_event. rewrite Z.eqb_refl. simpl negb. cbv iota zeta.
    destruct Hcmd as [-> | [-> | ->]]; reflexivity.
Qed.

Lemma mcu_property_out_busy_or_success_witness :
  fst (mcu_property_out Stub.silent GET_GAMEPAD_CFG CFG_GAMEPAD_MODE [] 0
         (Stub.boot Stub.silent [])) = - EBUSY /\
  fst (mcu_property_out (Stub.refusing 5) SET_GAMEPAD_CFG CFG_GAMEPAD_MODE [1] 1
         (Stub.boot (Stub.refusing 5) [])) = 0 /\
  last_cmd_ret (cfg (snd (mcu_property_out (Stub.refusing 5) SET_GAMEPAD_CFG
         CFG_GAMEPAD_MODE [1] 1 (Stub.boot (Stub.refusing 5) [])))) = 5.
Proof.
  assert (R1 : reachable (Stub.boot Stub.silent [])) by (split; reflexivity).
  assert (R2 : reachable (Stub.boot (Stub.refusing 5) []))
    by (split; reflexivity).
  destruct (mcu_property_out_busy_or_success Stub.silent GET_GAMEPAD_CFG
              CFG_GAMEPAD_MODE [] 0 (Stub.boot Stub.silent []) R1 eq_refl)
    as (Hbusy & _ & _).
  destruct (mcu_property_out_busy_or_success (Stub.refusing 5) SET_GAMEPAD_CFG
              CFG_GAMEPAD_MODE [1] 1 (Stub.boot (Stub.refusing 5) []) R2 eq_refl)
    as (_ & _ & Hnak).
  split.
  - apply Hbusy; reflexivity.
  - apply (Hnak (SET_GAMEPAD_CFG :: CFG_GAMEPAD_MODE :: 5 :: replicate 62 0));
      [reflexivity | reflexivity | left; reflexivity].
Defined.

(** C2 (as amended).  A frame whose length is not 65 makes
    [legos_cfg_raw_event] return [-EINVAL] without firing the completion and
    without touching the driver data.  A command whose only answers have a
    wrong length therefore ends exactly as if the device had not answered:
    with [-EBUSY] at the timeout when no completion is left over from an
    earlier response and no signal interrupts the wait, with 0 when a
    left-over completion is pending, with the interrupt code when a signal
    arrives; in each case the driver data holds nothing of those frames.  A
    frame of exactly 65 bytes fires the completion exactly once, whatever
    its command, and hands the stored status back negated. *)
Theorem raw_event_wrong_length_not_signalled
  (E : hid_env) (data : list Z) (size : Z) (c : legos_cfg)
  (command index : Z) (val : list Z) (n : Z) (w : world E) :
  (size <> GO_S_PACKET_SIZE ->
   legos_cfg_raw_event data size c = (- EINVAL, c)) /\
  (send_cmd_complete (snd (legos_cfg_raw_event data GO_S_PACKET_SIZE c))
     = N.succ (send_cmd_complete c) /\
   fst (legos_cfg_raw_event data GO_S_PACKET_SIZE c)
     = - last_cmd_ret (snd (legos_cfg_raw_event data GO_S_PACKET_SIZE c))) /\
  (reachable w ->
   hw_ret (answer E command index val n w) = GO_S_PACKET_SIZE ->
   Forall (fun f => Z.of_nat (length f) <> GO_S_PACKET_SIZE)
          (inbound (answer E command index val n w)) ->
   fst (mcu_property_out E command index val n w)
   = (if (0 <? send_cmd_complete (cfg w))%N then 0
      else if signal_pending (answer E command index val n w)
           then - ERESTARTSYS
           else - EBUSY) /\
   cfg (snd (mcu_property_out E command index val n w))
   = set_send_cmd_complete 0
       (set_last_cmd_val 0 (set_last_cmd_ret 0 (cfg w)))).
Proof.
  split; [apply raw_event_bad_size |].
  split; [apply raw_event_completes |].
  intros Hreach Hret Hbad.
  rewrite (mcu_property_out_sent E command index val n w Hreach Hret).
  cbv zeta. unfold after_delivery. rewrite deliver_bad_sizes by exact Hbad.
  unfold wait_for_completion_interruptible_timeout.
  cbn [send_cmd_complete set_last_cmd_val set_last_cmd_ret].
  destruct (0 <? send_cmd_complete (cfg w))%N;
    [split; reflexivity |].
  destruct (signal_pending (answer E command index val n w));
    split; reflexivity.
Qed.

(** A 64-byte report in answer to a GET: the handler does not fire the
    completion and the issuer is left waiting until its timeout. *)
Lemma runt_frame_leaves_issuer_waiting :
  legos_cfg_raw_event (replicate 64 0) 64 Stub.cfg0 = (- EINVAL, Stub.cfg0) /\
  send_cmd_complete (snd (legos_cfg_raw_event (replicate 64 0) 64 Stub.cfg0))
    = 0%N /\
  fst (mcu_property_out Stub.runt GET_GAMEPAD_CFG CFG_GAMEPAD_MODE [] 0
         (Stub.boot Stub.runt [])) = - EBUSY.
Proof. repeat split; reflexivity. Qed.

Lemma raw_event_wrong_length_not_signalled_witness :
  legos_cfg_raw_event (replicate 64 0) 64 Stub.cfg0 = (- EINVAL, Stub.cfg0) /\
  fst (mcu_property_out Stub.runt GET_GAMEPAD_CFG CFG_GAMEPAD_MODE [] 0
         (Stub.boot Stub.runt [])) = - EBUSY.
Proof.
  destruct (raw_event_wrong_length_not_signalled Stub.runt (replicate 64 0) 64
              Stub.cfg0 GET_GAMEPAD_CFG CFG_GAMEPAD_MODE [] 0
              (Stub.boot Stub.runt [])) as (H1 & _ & H3).
  split.
  - apply H1. discriminate.
  - destruct H3 as [H3 _];
      [split; reflexivity | reflexivity | repeat constructor; discriminate |].
    exact H3.
Defined.

(** C5 (the code at the failing input).  The show functions keep the status
    of [mcu_property_out] in a [size_t], so their [count < 0] test can never
    hold.  Against a device that never answers, the GET times out with
    [-EBUSY], and the reads go on to render the zeroed result byte: ["xinput"]
    for the gamepad mode, ["relative"] for the touchpad mode, ["0"] for the
    touchpad version. *)
Theorem show_renders_after_failed_get :
  (forall ret : Z, (size_t ret <? 0) = false) /\
  fst (mcu_property_out Stub.silent GET_GAMEPAD_CFG CFG_GAMEPAD_MODE [] 0
         (Stub.boot Stub.silent [])) = - EBUSY /\
  fst (gamepad_property_show Stub.silent CFG_GAMEPAD_MODE
         (Stub.boot Stub.silent []))
    = (7, ("xinput" ++ newline)%string) /\
  fst (touchpad_property_show Stub.silent CFG_LINUX_MODE
         (Stub.boot Stub.silent []))
    = (9, ("relative" ++ newline)%string) /\
  fst (test_property_show Stub.silent TEST_TP_VER (Stub.boot Stub.silent []))
    = (2, ("0" ++ newline)%string).
Proof.
  split; [| repeat split; reflexivity].
  intros ret. unfold size_t, u64. apply Z.ltb_ge.
  apply Z.mod_pos_bound. lia.
Qed.

(** C9 (as amended).  [mcu_id_get] and [mcu_version_get] look at the cached
    bytes first.  All zero: the GET command (GET_MCU_ID, GET_VERSION, index
    0, no payload) is put on the wire.  Some byte non-zero: nothing is
    transmitted, the driver data is untouched and the getter returns
    [-ENOMEM]. *)
Theorem mcu_identity_get_lazy (E : hid_env) (w : world E) :
  (Forall (fun b => b = 0) (mcu_id (cfg w)) -> reachable w ->
   wire (snd (mcu_id_get E w)) = entry GET_MCU_ID NONE [] 0 :: wire w) /\
  (Exists (fun b => b <> 0) (mcu_id (cfg w)) ->
   mcu_id_get E w = (- ENOMEM, w)) /\
  (Forall (fun b => b = 0) (mcu_ver (cfg w)) -> reachable w ->
   wire (snd (mcu_version_get E w)) = entry GET_VERSION NONE [] 0 :: wire w) /\
  (Exists (fun b => b <> 0) (mcu_ver (cfg w)) ->
   mcu_version_get E w = (- ENOMEM, w)).
Proof.
  unfold mcu_id_get, mcu_version_get.
  split; [| split; [| split]].
  - intros Hz Hr. apply memcmp_zero_false in Hz. rewrite Hz.
    pose proof (mcu_property_out_wire_reachable E GET_MCU_ID NONE [] 0 w Hr) as Hw.
    destruct (mcu_property_out E GET_MCU_ID NONE [] 0 w) as [ret w1].
    simpl in Hw. destruct (ret <? 0); exact Hw.
  - intros Hnz. apply memcmp_zero_true in Hnz. now rewrite Hnz.
  - intros Hz Hr. apply memcmp_zero_false in Hz. rewrite Hz.
    pose proof (mcu_property_out_wire_reachable E GET_VERSION NONE [] 0 w Hr) as Hw.
    destruct (mcu_property_out E GET_VERSION NONE [] 0 w) as [ret w1].
    simpl in Hw. destruct (ret <? 0); exact Hw.
  - intros Hnz. apply memcmp_zero_true in Hnz. now rewrite Hnz.
Qed.

(** With an MCU id already cached the getter reports [-ENOMEM], not
    success, and [cfg_setup] stops at that first step. *)
Lemma cached_mcu_id_is_an_error :
  let w := mkWorld (set_mcu_id (1 :: replicate 11 0) Stub.cfg0)
                   ([] : hid_device Stub.echo) [] in
  fst (mcu_id_get Stub.echo w) = - ENOMEM /\
  fst (mcu_id_get Stub.echo w) <> 0 /\
  cfg_setup Stub.echo w = w.
Proof. repeat split; try reflexivity. discriminate. Qed.

Lemma mcu_identity_get_lazy_witness :
  wire (snd (mcu_id_get Stub.echo (Stub.boot Stub.echo [])))
    = [mkSent GET_MCU_ID 0 [] (GET_MCU_ID :: 0 :: replicate 63 0)] /\
  mcu_version_get Stub.echo
    (mkWorld (set_mcu_ver [1; 2; 3; 4] Stub.cfg0) ([] : hid_device Stub.echo) [])
  = (- ENOMEM,
     mkWorld (set_mcu_ver [1; 2; 3; 4] Stub.cfg0) ([] : hid_device Stub.echo) []).
Proof.
  split.
  - destruct (mcu_identity_get_lazy Stub.echo (Stub.boot Stub.echo []))
      as (H & _).
    apply H; [repeat constructor | split; reflexivity].
  - destruct (mcu_identity_get_lazy Stub.echo
                (mkWorld (set_mcu_ver [1; 2; 3; 4] Stub.cfg0)
                         ([] : hid_device Stub.echo) []))
      as (_ & _ & _ & H).
    apply H. left. discriminate.
Defined.

(** C10.  With the cached profile selector at 0, [rgb_profile_call] derives
    index 2, the LIGHT_PROFILE_SEL register; [rgb_cfg_call] rejects only
    indexes below 1 or above 5, so the call is not refused: it is the same
    as addressing LIGHT_PROFILE_SEL directly and, when the device can be
    reached, the frame that goes out carries sub-index 2. *)
Theorem rgb_profile_call_selector_zero
  (E : hid_env) (cmd : Z) (val : list Z) (size : Z) (w : world E) :
  rgb_profile (cfg w) = 0 ->
  cmd = GET_LIGHT_CFG \/ cmd = SET_LIGHT_CFG ->
  rgb_profile (cfg w) + 2 = LIGHT_PROFILE_SEL /\
  rgb_profile_call E cmd val size w
    = rgb_cfg_call E cmd LIGHT_PROFILE_SEL val size w /\
  (reachable w ->
   wire (snd (rgb_profile_call E cmd val size w))
     = entry cmd LIGHT_PROFILE_SEL val size :: wire w) /\
  (forall index : Z,
     (index < LIGHT_MODE_SEL \/ USR_LIGHT_PROFILE_3 < index ->
      rgb_cfg_call E cmd index val size w = (- EINVAL, w)) /\
     (LIGHT_MODE_SEL <= index <= USR_LIGHT_PROFILE_3 -> reachable w ->
      wire (snd (rgb_cfg_call E cmd index val size w))
        = entry cmd index val size :: wire w)).
Proof.
  intros Hsel Hcmd.
  assert (Hgate : negb (cmd =? GET_LIGHT_CFG) && negb (cmd =? SET_LIGHT_CFG)
                  = false)
    by (destruct Hcmd as [-> | ->]; reflexivity).
  assert (Hgate' : negb (cmd =? SET_LIGHT_CFG) && negb (cmd =? GET_LIGHT_CFG)
                   = false)
    by (destruct Hcmd as [-> | ->]; reflexivity).
  assert (Hcall : forall index : Z,
            LIGHT_MODE_SEL <= index <= USR_LIGHT_PROFILE_3 -> reachable w ->
            wire (snd (rgb_cfg_call E cmd index val size w))
              = entry cmd index val size :: wire w).
  { intros index Hrange Hr. unfold rgb_cfg_call. rewrite Hgate.
    destruct (Z.ltb_spec index LIGHT_MODE_SEL) as [H1 | _]; [lia |].
    destruct (Z.gtb_spec index USR_LIGHT_PROFILE_3) as [H2 | _]; [lia |].
    simpl orb. cbv iota.
    pose proof (mcu_property_out_wire_reachable E cmd index val size w Hr) as Hw.
    destruct (mcu_property_out E cmd index val size w) as [ret w1].
    simpl in Hw.
    destruct (negb (ret =? 0)); [exact Hw |].
    destruct (negb (last_cmd_ret (cfg w1) =? 0)); exact Hw. }
  assert (Hidx : rgb_profile (cfg w) + 2 = LIGHT_PROFILE_SEL)
    by (rewrite Hsel; reflexivity).
  assert (Heq : rgb_profile_call E cmd val size w
                = rgb_cfg_call E cmd LIGHT_PROFILE_SEL val size w)
    by (unfold rgb_profile_call; rewrite Hgate', Hidx; reflexivity).
  split; [exact Hidx |]. split; [exact Heq |]. split.
  - intros Hr. rewrite Heq. apply Hcall; [| exact Hr].
    unfold LIGHT_MODE_SEL, LIGHT_PROFILE_SEL, USR_LIGHT_PROFILE_3. lia.
  - intros index. split; [| apply Hcall].
    intros Hout. unfold rgb_cfg_call. rewrite Hgate.
    destruct (Z.ltb_spec index LIGHT_MODE_SEL) as [H1 | H1];
      [reflexivity |].
    destruct (Z.gtb_spec index USR_LIGHT_PROFILE_3) as [H2 | H2];
      [reflexivity | lia].
Qed.

Lemma rgb_profile_call_selector_zero_witness :
  wire (snd (rgb_profile_call Stub.echo GET_LIGHT_CFG [] 0
               (Stub.boot Stub.echo [])))
    = [mkSent GET_LIGHT_CFG LIGHT_PROFILE_SEL []
              (GET_LIGHT_CFG :: LIGHT_PROFILE_SEL :: replicate 63 0)].
Proof.
  destruct (rgb_profile_call_selector_zero Stub.echo GET_LIGHT_CFG [] 0
              (Stub.boot Stub.echo []) eq_refl (or_introl eq_refl))
    as (_ & _ & H & _).
  apply H. split; reflexivity.
Defined.

(** The frame built for a one-byte value: command, index, the value and
    62 zeros, whether the byte was copied (value not 0) or left as the
    initialiser had it (value 0). *)
Lemma make_outbuf_of_val command index val :
  0 <= val < 256 ->
  make_outbuf command index [val] (if val =? 0 then 0 else 1)
  = u8 command :: u8 index :: val :: replicate 62 0.
Proof.
  intros Hb. destruct (Z.eqb_spec val 0) as [-> | Hne]; [reflexivity |].
  change (make_outbuf command index [val] 1)
    with (u8 command :: u8 index :: u8 val :: replicate 62 0).
  do 3 f_equal. apply Z.mod_small. lia.
Qed.

(** C7.  For the gamepad and the touchpad store alike, once the text has
    been parsed to the wire value [val]: the command is issued with a
    payload of no byte when [val] is 0 and of the single byte [val]
    otherwise, and the 65 bytes handed to the transport are the SET command,
    the property's index, [val] and 62 zeros; and when the command was
    issued and the device confirmed it with status 0, the store returns
    [count], the number of bytes the caller wrote. *)
Theorem store_payload_length_and_return
  (E : hid_env) (buf : string) (count index val : Z) (w : world E) :
  0 <= count < 2 ^ 63 ->
  (gamepad_property_parse E buf index = inr val ->
   let size := if val =? 0 then 0 else 1 in
   let issued := mcu_property_out E SET_GAMEPAD_CFG index [val] size w in
   (reachable w ->
    wire (snd (gamepad_property_store E buf count index w))
      = mkSent SET_GAMEPAD_CFG (u8 index) (if val =? 0 then [] else [val])
               (SET_GAMEPAD_CFG :: u8 index :: val :: replicate 62 0)
        :: wire w) /\
   (0 <= fst issued -> last_cmd_ret (cfg (snd issued)) = 0 ->
    fst (gamepad_property_store E buf count index w) = count)) /\
  (touchpad_property_parse buf index = inr val ->
   let size := if val =? 0 then 0 else 1 in
   let issued := mcu_property_out E SET_TP_PARAM index [val] size w in
   (reachable w ->
    wire (snd (touchpad_property_store E buf count index w))
      = mkSent SET_TP_PARAM (u8 index) (if val =? 0 then [] else [val])
               (SET_TP_PARAM :: u8 index :: val :: replicate 62 0)
        :: wire w) /\
   (0 <= fst issued -> last_cmd_ret (cfg (snd issued)) = 0 ->
    fst (touchpad_property_store E buf count index w) = count)).
Proof.
  intros Hcount.
  assert (Hback : ssize_t (size_t count) = count)
    by (apply ssize_t_size_t; lia).
  split.
  - intros Hparse. pose proof (gamepad_property_parse_byte E _ _ _ Hparse) as Hb.
    cbv zeta. unfold gamepad_property_store. rewrite Hparse.
    split.
    + intros Hr.
      pose proof (mcu_property_out_wire_reachable E SET_GAMEPAD_CFG index [val]
                    (if val =? 0 then 0 else 1) w Hr) as Hw.
      unfold entry in Hw.
      rewrite payload_of_val, make_outbuf_of_val in Hw by exact Hb.
      destruct (mcu_property_out E SET_GAMEPAD_CFG index [val]
                  (if val =? 0 then 0 else 1) w) as [ret w1].
      simpl in Hw.
      destruct (ret <? 0); [exact Hw |].
      destruct (negb (last_cmd_ret (cfg w1) =? 0)); exact Hw.
    + destruct (mcu_property_out E SET_GAMEPAD_CFG index [val]
                  (if val =? 0 then 0 else 1) w) as [ret w1].
      simpl. intros Hret Hst.
      destruct (Z.ltb_spec ret 0) as [Hneg | _]; [lia |].
      rewrite Hst. simpl. exact Hback.
  - intros Hparse. pose proof (touchpad_property_parse_byte _ _ _ Hparse) as Hb.
    cbv zeta. unfold touchpad_property_store. rewrite Hparse.
    split.
    + intros Hr.
      pose proof (mcu_property_out_wire_reachable E SET_TP_PARAM index [val]
                    (if val =? 0 then 0 else 1) w Hr) as Hw.
      unfold entry in Hw.
      rewrite payload_of_val, make_outbuf_of_val in Hw by exact Hb.
      destruct (mcu_property_out E SET_TP_PARAM index [val]
                  (if val =? 0 then 0 else 1) w) as [ret w1].
      simpl in Hw.
      destruct (ret <? 0); [exact Hw |].
      destruct (negb (last_cmd_ret (cfg w1) =? 0)); exact Hw.
    + destruct (mcu_property_out E SET_TP_PARAM index [val]
                  (if val =? 0 then 0 else 1) w) as [ret w1].
      simpl. intros Hret Hst.
      destruct (Z.ltb_spec ret 0) as [Hneg | _]; [lia |].
      rewrite Hst. simpl. exact Hback.
Qed.

Lemma store_payload_length_and_return_witness :
  wire (snd (gamepad_property_store Stub.echo "dinput" 6
               CFG_GAMEPAD_MODE (Stub.boot Stub.echo [])))
    = [mkSent 4 1 [1] (4 :: 1 :: 1 :: replicate 62 0)] /\
  fst (gamepad_property_store Stub.echo "dinput" 6 CFG_GAMEPAD_MODE
         (Stub.boot Stub.echo [])) = 6 /\
  wire (snd (touchpad_property_store Stub.echo "relative" 8
               CFG_LINUX_MODE (Stub.boot Stub.echo [])))
    = [mkSent 6 4 [] (6 :: 4 :: replicate 63 0)] /\
  fst (touchpad_property_store Stub.echo "relative" 8 CFG_LINUX_MODE
         (Stub.boot Stub.echo [])) = 8.
Proof.
  destruct (store_payload_length_and_return Stub.echo "dinput" 6
              CFG_GAMEPAD_MODE 1 (Stub.boot Stub.echo []) ltac:(lia))
    as (G & _).
  destruct (G eq_refl) as (G1 & G2).
  destruct (store_payload_length_and_return Stub.echo "relative" 8
              CFG_LINUX_MODE 0 (Stub.boot Stub.echo []) ltac:(lia))
    as (_ & T).
  destruct (T eq_refl) as (T1 & T2).
  split; [| split; [| split]].
  - rewrite G1 by (split; reflexivity). reflexivity.
  - apply G2; [vm_compute; discriminate | reflexivity].
  - rewrite T1 by (split; reflexivity). reflexivity.
  - apply T2; [vm_compute; discriminate | reflexivity].
Defined.

Ltac index_cases index :=
  repeat match goal with
         | |- context [index =? ?k] =>
             destruct (Z.eqb_spec index k); [subst index |]
         | H : context [index =? ?k] |- _ =>
             destruct (Z.eqb_spec index k); [subst index |]
         end.

(** C6 (as amended).  Sets: a text that is none of a property's labels, or
    a parsed number outside its range (wheel step 1-127, RGB speed 0-100,
    RGB profile 1-3), makes the store return [-EINVAL] with the world as it
    was, so nothing has been transmitted; a text the integer parser itself
    refuses makes the store return the parser's code, also with the world as
    it was; an index that names no property is refused the same way.  Gets
    of the gamepad, touchpad and test families: a result byte outside the
    property's domain yields [-EINVAL] and no text. *)
Theorem out_of_domain_rejected
  (E : hid_env) (buf : string) (count index : Z) (w : world E) :
  (* enumeration sets *)
  (forall tbl, gamepad_labels index = Some tbl -> ~ In buf tbl ->
     gamepad_property_store E buf count index w = (- EINVAL, w)) /\
  (~ In buf TOUCHPAD_MODE_TEXT ->
     touchpad_property_store E buf count index w = (- EINVAL, w)) /\
  (~ In buf RGB_MODE_TEXT -> rgb_mode_store E buf count w = (- EINVAL, w)) /\
  (~ In buf RGB_EFFECT_TEXT -> rgb_effect_store E buf count w = (- EINVAL, w)) /\
  (* numeric sets, the text parsed to [v] *)
  (forall v lo hi,
     index = CFG_AUTO_SLP_TIME \/ index = CFG_MS_WHEEL_STEP ->
     kstrtou8 E buf = (0, v) -> gamepad_domain index = Some (lo, hi) ->
     u8 v < lo \/ hi < u8 v ->
     gamepad_property_store E buf count index w = (- EINVAL, w)) /\
  (forall v, kstrtoint E buf = (0, v) -> s32 v < 0 \/ 100 < s32 v ->
     rgb_speed_store E buf count w = (- EINVAL, w)) /\
  (forall v, kstrtou8 E buf = (0, v) -> u8 v < 1 \/ 3 < u8 v ->
     rgb_profile_store E buf count w = (- EINVAL, w)) /\
  (* texts the parser refuses with code [e] *)
  (forall e v,
     index = CFG_AUTO_SLP_TIME \/ index = CFG_MS_WHEEL_STEP ->
     kstrtou8 E buf = (e, v) -> e <> 0 ->
     gamepad_property_store E buf count index w = (e, w)) /\
  (forall e v, kstrtoint E buf = (e, v) -> e <> 0 ->
     rgb_speed_store E buf count w = (e, w)) /\
  (forall e v, kstrtou8 E buf = (e, v) -> e < 0 ->
     rgb_profile_store E buf count w = (e, w)) /\
  (* indexes without a property *)
  (gamepad_domain index = None ->
     gamepad_property_store E buf count index w = (- EINVAL, w)) /\
  (touchpad_domain index = None ->
     touchpad_property_store E buf count index w = (- EINVAL, w)) /\
  (* gets *)
  (forall lo hi,
     let got := snd (mcu_property_out E GET_GAMEPAD_CFG index [] 0 w) in
     gamepad_domain index = Some (lo, hi) ->
     last_cmd_ret (cfg got) = 0 ->
     u8 (last_cmd_val (cfg got)) < lo \/ hi < u8 (last_cmd_val (cfg got)) ->
     fst (gamepad_property_show E index w) = (- EINVAL, EmptyString)) /\
  (forall lo hi,
     let got := snd (mcu_property_out E GET_TP_PARAM index [] 0 w) in
     touchpad_domain index = Some (lo, hi) ->
     last_cmd_ret (cfg got) = 0 ->
     u8 (last_cmd_val (cfg got)) < lo \/ hi < u8 (last_cmd_val (cfg got)) ->
     fst (touchpad_property_show E index w) = (- EINVAL, EmptyString)) /\
  (forall lo hi,
     let got := snd (mcu_property_out E GET_PL_TEST index [] 0 w) in
     test_domain index = Some (lo, hi) ->
     last_cmd_ret (cfg got) = 0 ->
     u8 (last_cmd_val (cfg got)) < lo \/ hi < u8 (last_cmd_val (cfg got)) ->
     fst (test_property_show E index w) = (- EINVAL, EmptyString)).
Proof.
  repeat apply conj.
  - intros tbl Htbl Hmiss.
    unfold gamepad_property_store, gamepad_property_parse.
    unfold gamepad_labels in Htbl.
    index_cases index; simpl in Htbl; try discriminate;
      injection Htbl as <-; cbn [Z.eqb orb Pos.eqb];
      now rewrite store_enum_miss.
  - intros Hmiss. unfold touchpad_property_store, touchpad_property_parse.
    destruct ((index =? CFG_WINDOWS_MODE) || (index =? CFG_LINUX_MODE));
      [now rewrite store_enum_miss | reflexivity].
  - intros Hmiss. unfold rgb_mode_store, sysfs_match_string.
    now rewrite match_string_from_miss.
  - intros Hmiss. unfold rgb_effect_store, sysfs_match_string.
    now rewrite match_string_from_miss.
  - intros v lo hi Hidx Hparse Hdom Hout.
    unfold gamepad_property_store, gamepad_property_parse.
    destruct Hidx as [-> | ->]; injection Hdom as <- <-;
      cbn [Z.eqb orb Pos.eqb]; rewrite Hparse; cbn [Z.eqb negb].
    + pose proof (u8_range v). lia.
    + destruct (Z.ltb_spec (u8 v) 1); [reflexivity |].
      destruct (Z.gtb_spec (u8 v) 127); [reflexivity | lia].
  - intros v Hparse Hout. unfold rgb_speed_store. rewrite Hparse.
    cbn [Z.eqb negb].
    destruct (Z.gtb_spec (s32 v) 100); [reflexivity |].
    destruct (Z.ltb_spec (s32 v) 0); [reflexivity | lia].
  - intros v Hparse Hout. unfold rgb_profile_store. rewrite Hparse.
    cbn [Z.ltb Z.compare].
    destruct (Z.gtb_spec (u8 v) 3); [reflexivity |].
    destruct (Z.ltb_spec (u8 v) 1); [reflexivity | lia].
  - intros e v Hidx Hparse He.
    unfold gamepad_property_store, gamepad_property_parse.
    destruct Hidx as [-> | ->]; cbn [Z.eqb orb Pos.eqb]; rewrite Hparse;
      destruct (Z.eqb_spec e 0); try contradiction; reflexivity.
  - intros e v Hparse He. unfold rgb_speed_store. rewrite Hparse.
    destruct (Z.eqb_spec e 0); [contradiction | reflexivity].
  - intros e v Hparse He. unfold rgb_profile_store. rewrite Hparse.
    destruct (Z.ltb_spec e 0); [reflexivity | lia].
  - intros Hdom. unfold gamepad_property_store, gamepad_property_parse.
    unfold gamepad_domain in Hdom.
    index_cases index; try discriminate.
    repeat match goal with
           | |- context [?a =? ?b] =>
               destruct (Z.eqb_spec a b); [contradiction |]
           end.
    reflexivity.
  - intros Hdom. unfold touchpad_property_store, touchpad_property_parse.
    unfold touchpad_domain in Hdom.
    destruct ((index =? CFG_WINDOWS_MODE) || (index =? CFG_LINUX_MODE));
      [discriminate | reflexivity].
  - intros lo hi got Hdom Hst Hout. subst got.
    unfold gamepad_property_show.
    destruct (mcu_property_out E GET_GAMEPAD_CFG index [] 0 w) as [ret w1].
    simpl in Hst, Hout. rewrite size_t_not_negative, Hst. cbn [Z.eqb negb].
    pose proof (u8_range (last_cmd_val (cfg w1))) as Hb.
    unfold gamepad_domain in Hdom.
    index_cases index; try discriminate; injection Hdom as <- <-;
      cbn [Z.eqb orb Pos.eqb];
      try (rewrite show_enum_out
             by (unfold DINPUT, FEATURE_ENABLED, IMU_OFF_2S, LINUX, HZ1000, DIR4;
                 lia);
           reflexivity);
      try lia.
    destruct (Z.ltb_spec (u8 (last_cmd_val (cfg w1))) 1); [reflexivity |].
    destruct (Z.gtb_spec (u8 (last_cmd_val (cfg w1))) 127); [reflexivity | lia].
  - intros lo hi got Hdom Hst Hout. subst got.
    unfold touchpad_property_show.
    destruct (mcu_property_out E GET_TP_PARAM index [] 0 w) as [ret w1].
    simpl in Hst, Hout. rewrite size_t_not_negative, Hst. cbn [Z.eqb negb].
    pose proof (u8_range (last_cmd_val (cfg w1))) as Hb.
    unfold touchpad_domain in Hdom.
    destruct ((index =? CFG_WINDOWS_MODE) || (index =? CFG_LINUX_MODE));
      [| discriminate].
    injection Hdom as <- <-.
    rewrite show_enum_out by (unfold TP_ABS; lia). reflexivity.
  - intros lo hi got Hdom Hst Hout. subst got.
    unfold test_property_show.
    destruct (mcu_property_out E GET_PL_TEST index [] 0 w) as [ret w1].
    simpl in Hst, Hout. rewrite size_t_not_negative, Hst. cbn [Z.eqb negb].
    pose proof (u8_range (last_cmd_val (cfg w1))) as Hb.
    unfold test_domain in Hdom.
    index_cases index; try discriminate; injection Hdom as <- <-;
      cbn [Z.eqb orb Pos.eqb];
      try (rewrite show_enum_out by (unfold TP_SIPO, IMU_ST; lia);
           reflexivity);
      lia.
Qed.

(** The RGB speed read renders whatever byte the profile record carries:
    200 comes out as text, not as [-EINVAL]. *)
Lemma rgb_speed_show_renders_out_of_range :
  let w := mkWorld (set_rgb_profile 1 Stub.cfg0)
                   ([0; 0; 0; 0; 0; 200] : hid_device Stub.echo) [] in
  fst (rgb_speed_show Stub.echo w) = (4, ("200" ++ newline)%string) /\
  fst (fst (rgb_speed_show Stub.echo w)) <> - EINVAL.
Proof. split; [reflexivity | discriminate]. Qed.

Lemma out_of_domain_rejected_witness :
  gamepad_property_store Stub.echo "200" 3 CFG_MS_WHEEL_STEP
    (Stub.boot Stub.echo []) = (- EINVAL, Stub.boot Stub.echo []) /\
  fst (gamepad_property_show Stub.echo CFG_GAMEPAD_MODE
         (Stub.boot Stub.echo [5])) = (- EINVAL, EmptyString).
Proof.
  split.
  - destruct (out_of_domain_rejected Stub.echo "200" 3 CFG_MS_WHEEL_STEP
                (Stub.boot Stub.echo []))
      as (_ & _ & _ & _ & H & _).
    apply (H 200 1 127); [right; reflexivity | reflexivity | reflexivity |].
    right. vm_compute. reflexivity.
  - destruct (out_of_domain_rejected Stub.echo EmptyString 0 CFG_GAMEPAD_MODE
                (Stub.boot Stub.echo [5]))
      as (_ & _ & _ & _ & _ & _ & _ & _ & _ & _ & _ & _ & H & _).
    apply (H 0 1); [reflexivity | reflexivity |].
    right. vm_compute. reflexivity.
Defined.

(** The byte count only shows in the value a successful store returns. *)
Lemma store_count (E : hid_env) (a : enum_attr) (l : string) (count : Z)
  (w : world E) :
  0 <= count < 2 ^ 63 ->
  fst (store E a l 0 w) = 0 ->
  fst (store E a l count w) = count /\
  snd (store E a l count w) = snd (store E a l 0 w).
Proof.
  intros Hcount.
  assert (Hback : ssize_t (size_t count) = count)
    by (apply ssize_t_size_t; lia).
  assert (Hg : forall index,
            fst (gamepad_property_store E l 0 index w) = 0 ->
            fst (gamepad_property_store E l count index w) = count /\
            snd (gamepad_property_store E l count index w)
              = snd (gamepad_property_store E l 0 index w)).
  { intros index. unfold gamepad_property_store.
    destruct (gamepad_property_parse E l index) as [r | val] eqn:Hp.
    - apply gamepad_property_parse_inl in Hp. simpl. intros; contradiction.
    - destruct (mcu_property_out E SET_GAMEPAD_CFG index [val]
                  (if val =? 0 then 0 else 1) w) as [ret w1].
      destruct (Z.ltb_spec ret 0); simpl; [intros; lia |].
      destruct (Z.eqb_spec (last_cmd_ret (cfg w1)) 0); simpl;
        [intros _; split; [exact Hback | reflexivity] | intros; lia]. }
  assert (Ht : forall index,
            fst (touchpad_property_store E l 0 index w) = 0 ->
            fst (touchpad_property_store E l count index w) = count /\
            snd (touchpad_property_store E l count index w)
              = snd (touchpad_property_store E l 0 index w)).
  { intros index. unfold touchpad_property_store.
    destruct (touchpad_property_parse l index) as [r | val] eqn:Hp.
    - apply touchpad_property_parse_inl in Hp. simpl. intros; contradiction.
    - destruct (mcu_property_out E SET_TP_PARAM index [val]
                  (if val =? 0 then 0 else 1) w) as [ret w1].
      destruct (Z.ltb_spec ret 0); simpl; [intros; lia |].
      destruct (Z.eqb_spec (last_cmd_ret (cfg w1)) 0); simpl;
        [intros _; split; [exact Hback | reflexivity] | intros; lia]. }
  destruct a; simpl store; try apply Hg; try apply Ht.
  - unfold rgb_mode_store.
    destruct (Z.ltb_spec (sysfs_match_string RGB_MODE_TEXT l) 0);
      simpl; [intros; lia |].
    destruct (rgb_cfg_call E SET_LIGHT_CFG LIGHT_MODE_SEL _ _ _) as [ret w1].
    destruct (Z.ltb_spec ret 0); simpl; [intros; lia |].
    destruct (Z.eqb_spec (last_cmd_ret (cfg w1)) 0); simpl;
      [intros _; split; [exact Hback | reflexivity] | intros; lia].
  - unfold rgb_effect_store.
    destruct (Z.ltb_spec (sysfs_match_string RGB_EFFECT_TEXT l) 0);
      simpl; [intros; lia |].
    destruct (rgb_attr_store E _) as [ret w1].
    destruct (Z.eqb_spec ret 0); simpl;
      [intros _; split; [exact Hback | reflexivity] | intros; lia].
Qed.

(** C8.  Against the echoing device, from any driver and device state, for
    every enumeration attribute and every label of its table: the store of
    the label succeeds, returning the caller's byte count, and the show that
    follows renders that same label (followed by the line feed every sysfs
    value ends with).  The RGB effect belongs to a profile record, which is
    only written in custom mode and addressed through the profile
    selector. *)
Theorem enum_store_show_round_trip
  (a : enum_attr) (l : string) (count : Z) (w : world Stub.echo) :
  In l (labels a) ->
  0 <= count < 2 ^ 63 ->
  (a = rgb_effect_attr ->
   rgb_mode (cfg w) = RGB_MODE_CUSTOM /\ 1 <= rgb_profile (cfg w) <= 3) ->
  fst (store Stub.echo a l count w) = count /\
  fst (show Stub.echo a (snd (store Stub.echo a l count w)))
    = Some (sysfs_emit l).
Proof.
  intros Hl Hcount Hgate.
  cut (fst (store Stub.echo a l 0 w) = 0 /\
       fst (show Stub.echo a (snd (store Stub.echo a l 0 w)))
         = Some (sysfs_emit l)).
  { intros [H0 Hshow].
    destruct (store_count Stub.echo a l count w Hcount H0) as [Hc Hw].
    split; [exact Hc | now rewrite Hw]. }
  destruct w as [[done ret val id ver prof eff spd mode inten bri] h wr].
  destruct a; simpl in Hl;
    [ repeat (destruct Hl as [<- | Hl]); try contradiction;
      destruct done; vm_compute; split; reflexivity .. | ].
  destruct (Hgate eq_refl) as [Hm Hp]. simpl in Hm, Hp. subst mode.
  assert (Hprof : prof = 1 \/ prof = 2 \/ prof = 3) by lia.
  repeat (destruct Hl as [<- | Hl]); try contradiction;
    destruct Hprof as [-> | [-> | ->]];
    destruct done; vm_compute; split; reflexivity.
Qed.

Lemma enum_store_show_round_trip_witness :
  fst (store Stub.echo gamepad_poll_rate "500" 4 (Stub.boot Stub.echo [])) = 4 /\
  fst (show Stub.echo gamepad_poll_rate
         (snd (store Stub.echo gamepad_poll_rate "500" 4
                 (Stub.boot Stub.echo []))))
    = Some (4, ("500" ++ newline)%string).
Proof.
  apply (enum_store_show_round_trip gamepad_poll_rate "500" 4
           (Stub.boot Stub.echo [])).
  - simpl. right; right; left; reflexivity.
  - lia.
  - discriminate.
Defined.

End LegosProps.

(** * Zotac: EC access, sample cache and attributes *)

Module ZotacExtra.
Import Zotac ZotacAttr ZotacFacts.

Lemma split_address addr :
  0 <= addr < 2 ^ 16 ->
  u8 (Z.land (Z.shiftr addr 8) 0xFF) = addr / 256 /\
  u8 (Z.land addr 0xFF) = addr mod 256 /\
  Z.lor (Z.shiftl (addr / 256) 8) (addr mod 256) = addr.
Proof.
  intros Ha.
  assert (Hhi : 0 <= addr / 256 < 256).
  { split; [apply Z.div_pos; lia | apply Z.div_lt_upper_bound; lia]. }
  assert (Hlo : 0 <= addr mod 256 < 256) by (apply Z.mod_pos_bound; lia).
  assert (Hu : u8 (Z.land (Z.shiftr addr 8) 0xFF) = addr / 256).
  { change 0xFF with (Z.ones 8).
    rewrite Z.land_ones, Z.shiftr_div_pow2 by lia.
    change (2 ^ 8) with 256. unfold u8.
    rewrite Z.mod_mod by lia. apply Z.mod_small. lia. }
  assert (Hl : u8 (Z.land addr 0xFF) = addr mod 256).
  { change 0xFF with (Z.ones 8). rewrite Z.land_ones by lia.
    change (2 ^ 8) with 256. unfold u8. apply Z.mod_mod. lia. }
  split; [exact Hu |]. split; [exact Hl |].
  rewrite Z.shiftl_mul_pow2 by lia. change (2 ^ 8) with 256.
  assert (Hand : Z.land (addr / 256 * 256) (addr mod 256) = 0).
  { apply Z.bits_inj'. intros n Hn. rewrite Z.land_spec, Z.bits_0.
    destruct (Z_lt_le_dec n 8) as [Hlt | Hge].
    - change 256 with (2 ^ 8). rewrite Z.mul_pow2_bits_low by lia. reflexivity.
    - rewrite (Z.bits_above_log2 (addr mod 256)), andb_false_r; [reflexivity | lia |].
      destruct (Z.eq_dec (addr mod 256) 0) as [-> | Hnz]; [simpl; lia |].
      apply Z.log2_lt_pow2; [lia |].
      apply Z.lt_le_trans with (2 ^ 8); [exact (proj2 Hlo) |].
      apply Z.pow_le_mono_r; lia. }
  pose proof (Z.add_lor_land (addr / 256 * 256) (addr mod 256)) as Hsum.
  rewrite Hand in Hsum.
  pose proof (Z.div_mod addr 256 ltac:(lia)). lia.
Qed.

(** Selecting a register leaves the chip's data window on that register and
    its content alone. *)
Lemma ec_select_window addr c :
  0 <= addr < 2 ^ 16 ->
  ec_select addr c
  = mkEc 0x2F 0x12 (addr / 256) (addr mod 256) (ec_mem c) (ec_writes c).
Proof.
  intros Ha. destruct (split_address addr Ha) as (Hu & Hl & _).
  unfold ec_select. rewrite Hu, Hl. reflexivity.
Qed.

Lemma ec_read_byte_value addr c :
  0 <= addr < 2 ^ 16 ->
  ec_read_byte addr c
  = (u8 (default 0 (ec_mem c !! addr)),
     mkEc 0x2F 0x12 (addr / 256) (addr mod 256) (ec_mem c) (ec_writes c)).
Proof.
  intros Ha. unfold ec_read_byte. rewrite ec_select_window by exact Ha.
  unfold inb, ec_addr. simpl.
  destruct (split_address addr Ha) as (_ & _ & Hjoin). now rewrite Hjoin.
Qed.

Lemma ec_write_byte_value addr v c :
  0 <= addr < 2 ^ 16 ->
  ec_write_byte addr v c
  = (0, mkEc 0x2F 0x12 (addr / 256) (addr mod 256)
             (<[addr := u8 v]> (ec_mem c)) ((addr, u8 v) :: ec_writes c)).
Proof.
  intros Ha. unfold ec_write_byte. rewrite ec_select_window by exact Ha.
  unfold outb, ec_addr. simpl.
  destruct (split_address addr Ha) as (_ & _ & Hjoin). now rewrite Hjoin.
Qed.

(** X1.  For every 16-bit register address the twelve port accesses of
    [ec_write_byte] put the byte into exactly that register: reading it back
    gives the byte, every other register reads as before, and a read never
    changes a register. *)
Theorem ec_write_then_read (addr v : Z) (c : ec_chip) :
  0 <= addr < 2 ^ 16 ->
  fst (ec_write_byte addr v c) = 0 /\
  fst (ec_read_byte addr (snd (ec_write_byte addr v c))) = u8 v /\
  (forall other, 0 <= other < 2 ^ 16 -> other <> addr ->
     fst (ec_read_byte other (snd (ec_write_byte addr v c)))
       = fst (ec_read_byte other c)) /\
  ec_writes (snd (ec_write_byte addr v c)) = (addr, u8 v) :: ec_writes c /\
  ec_mem (snd (ec_read_byte addr c)) = ec_mem c /\
  ec_writes (snd (ec_read_byte addr c)) = ec_writes c.
Proof.
  intros Ha. rewrite ec_write_byte_value by exact Ha. cbn [fst snd].
  split; [reflexivity |]. split.
  - rewrite ec_read_byte_value by exact Ha. cbn [fst snd ec_mem].
    rewrite lookup_insert_eq. cbn [default]. unfold u8. apply Z.mod_mod. lia.
  - split; [| rewrite ec_read_byte_value by exact Ha; repeat split; reflexivity].
    intros other Ho Hne. rewrite !ec_read_byte_value by exact Ho.
    cbn [fst snd ec_mem].
    now rewrite lookup_insert_ne by congruence.
Qed.

Lemma ec_write_then_read_witness :
  fst (ec_read_byte EC_FAN_DUTY_ADDR
         (snd (ec_write_byte EC_FAN_DUTY_ADDR 300
                 (mkEc 0 0 0 0 ∅ [])))) = 44.
Proof.
  destruct (ec_write_then_read EC_FAN_DUTY_ADDR 300 (mkEc 0 0 0 0 ∅ []))
    as (_ & H & _); [vm_compute; split; [discriminate | reflexivity] |].
  exact H.
Defined.


Lemma ec_read_byte_reg addr c :
  0 <= addr < 2 ^ 16 -> fst (ec_read_byte addr c) = reg c addr.
Proof. intros Ha. now rewrite ec_read_byte_value. Qed.

Lemma join_bytes h l :
  0 <= h -> 0 <= l < 256 -> Z.lor (Z.shiftl h 8) l = h * 256 + l.
Proof.
  intros Hh Hl. rewrite Z.shiftl_mul_pow2 by lia. change (2 ^ 8) with 256.
  assert (Hand : Z.land (h * 256) l = 0).
  { apply Z.bits_inj'. intros n Hn. rewrite Z.land_spec, Z.bits_0.
    destruct (Z_lt_le_dec n 8) as [Hlt | Hge].
    - change 256 with (2 ^ 8). rewrite Z.mul_pow2_bits_low by lia. reflexivity.
    - rewrite (Z.bits_above_log2 l), andb_false_r; [reflexivity | lia |].
      destruct (Z.eq_dec l 0) as [-> | Hnz]; [simpl; lia |].
      apply Z.log2_lt_pow2; [lia |].
      apply Z.lt_le_trans with (2 ^ 8); [exact (proj2 Hl) |].
      apply Z.pow_le_mono_r; lia. }
  pose proof (Z.add_lor_land (h * 256) l) as Hsum. rewrite Hand in Hsum. lia.
Qed.

Lemma reg_byte c addr : 0 <= reg c addr < 256.
Proof. apply u8_range. Qed.

(** On tick counts that do not wrap, [time_after a b] is [b < a]. *)
Lemma time_after_lt a b :
  0 <= a < 2 ^ 62 -> 0 <= b < 2 ^ 62 -> time_after a b = (b <? a).
Proof.
  intros Ha Hb. unfold time_after.
  change (s64 (u64 (b - a))) with (ssize_t (size_t (b - a))).
  rewrite ssize_t_size_t by lia.
  destruct (Z.ltb_spec (b - a) 0), (Z.ltb_spec b a); try reflexivity; lia.
Qed.

(** The interpolated duty lies between the two points of its interval. *)
Lemma lerp_between t d i :
  curve_wf d -> 0 <= t < 256 -> (i < 8)%nat -> in_interval t d i = true ->
  0 <= CurveSpec.lerp t (curve_temp d) (curve_pwm d) i <= 100.
Proof.
  intros (HlT & HlP & HT & HP) Ht Hi Hin.
  unfold FAN_CURVE_POINTS in *.
  pose proof (idx_Forall _ _ i HT ltac:(lia)) as Ta.
  pose proof (idx_Forall _ _ (i + 1) HT ltac:(lia)) as Tb.
  pose proof (idx_Forall _ _ i HP ltac:(lia)) as Pa.
  pose proof (idx_Forall _ _ (i + 1) HP ltac:(lia)) as Pb.
  simpl in Ta, Tb, Pa, Pb.
  unfold in_interval in Hin. apply andb_prop in Hin as [H1 H2].
  apply Z.geb_le in H1. apply Z.ltb_lt in H2.
  unfold CurveSpec.lerp.
  destruct (Z.eqb_spec (idx (curve_temp d) (i + 1) - idx (curve_temp d) i) 0);
    [lia |].
  pose proof (quot_range (idx (curve_pwm d) (i + 1) - idx (curve_pwm d) i)
                (t - idx (curve_temp d) i)
                (idx (curve_temp d) (i + 1) - idx (curve_temp d) i) ltac:(lia))
    as (Q1 & Q2 & Q3).
  lia.
Qed.

Lemma fan_curve_pwm_percent t d :
  curve_wf d -> 0 <= t < 256 -> 0 <= fan_curve_pwm t d <= 100.
Proof.
  intros Hwf Ht. rewrite fan_curve_pwm_evaluate by auto.
  pose proof Hwf as (HlT & HlP & HT & HP). unfold FAN_CURVE_POINTS in *.
  unfold CurveSpec.evaluate.
  destruct (idx (curve_temp d) 8 <=? t).
  - exact (idx_Forall _ _ 8%nat HP ltac:(lia)).
  - unfold CurveSpec.first_interval. rewrite <- find_in_interval.
    destruct (List.find (in_interval t d) (seq 0 8)) as [j |] eqn:F.
    + apply find_seq_bound in F as [Hj Hf]. apply lerp_between; auto; lia.
    + exact (idx_Forall _ _ 0%nat HP ltac:(lia)).
Qed.

(** X2.  Every curve table the driver can come to hold (the probe's table
    changed by any sequence of point stores) has nine points with duty
    points of at most 100, and on such a table the evaluator never yields
    more than 100 percent, whatever temperature byte the EC reports. *)
Theorem reachable_table_percent (d : zotac_fan_data) :
  table_reachable d ->
  curve_wf d /\ forall t, 0 <= t < 256 -> 0 <= fan_curve_pwm t d <= 100.
Proof.
  intros Hr.
  assert (Hwf : curve_wf d).
  { induction Hr as [| kstrtoul index buf count d Hr IH Hi
                      | kstrtoul index buf count d Hr IH Hi].
    - exact ZotacCurve.probe_data_wf.
    - now apply ZotacCurve.temp_store_wf.
    - now apply ZotacCurve.pwm_store_wf. }
  split; [exact Hwf |]. intros t Ht. now apply fan_curve_pwm_percent.
Qed.

Lemma reachable_table_percent_witness :
  let kstrtoul := Stub.parse_decimal (2 ^ 64 - 1) in
  0 <= fan_curve_pwm 200
         (snd (pwm1_auto_point_pwm_store kstrtoul 9 "37" 2
                 (snd (pwm1_auto_point_temp_store kstrtoul 9 "4294967546" 10
                         probe_data))))
    <= 100.
Proof.
  intros kstrtoul.
  destruct (reachable_table_percent
              (snd (pwm1_auto_point_pwm_store kstrtoul 9 "37" 2
                      (snd (pwm1_auto_point_temp_store kstrtoul 9 "4294967546" 10
                              probe_data))))) as [_ H].
  - apply reach_pwm; [apply reach_temp; [apply reach_probe | lia] | lia].
  - apply H. lia.
Defined.

(** X3.  One timer tick.  With curve mode off the callback changes nothing:
    no EC access, no re-arm.  With curve mode on and a well-formed table it
    reads the temperature register, writes exactly one byte to the duty
    register, namely the evaluator's percentage scaled to 0..255 (which
    always fits), leaves table, mode flag and control register alone and
    arms the timer one second ahead. *)
Theorem fan_curve_function_one_tick (HZ : Z) (m : machine) :
  curve_wf (data m) ->
  (curve_enabled (data m) = false -> fan_curve_function HZ m = m) /\
  (curve_enabled (data m) = true ->
   let t := reg (ec m) EC_CPU_TEMP_ADDR in
   let pwm := fan_curve_pwm t (data m) in
   let m' := fan_curve_function HZ m in
   0 <= pwm * 255 / 100 <= 255 /\
   ec_writes (ec m') = (EC_FAN_DUTY_ADDR, pwm * 255 / 100) :: ec_writes (ec m) /\
   reg (ec m') EC_FAN_DUTY_ADDR = pwm * 255 / 100 /\
   reg (ec m') EC_FAN_CTRL_ADDR = reg (ec m) EC_FAN_CTRL_ADDR /\
   temp (data m') = t /\
   curve_enabled (data m') = true /\
   curve_temp (data m') = curve_temp (data m) /\
   curve_pwm (data m') = curve_pwm (data m) /\
   fan_curve_timer m' = Some (jiffies m + HZ)).
Proof.
  intros Hwf. split.
  - intros Hoff. unfold fan_curve_function. now rewrite Hoff.
  - intros Hon t pwm m'.
    assert (Hp : 0 <= pwm <= 100)
      by (apply fan_curve_pwm_percent; [exact Hwf | apply reg_byte]).
    assert (Hd : 0 <= pwm * 255 / 100 <= 255).
    { split; [apply Z.div_pos; lia | apply Z.div_le_upper_bound; lia]. }
    assert (Hm' : m' = mkMachine (with_temp t (data m))
                    (mkEc 0x2F 0x12 (EC_FAN_DUTY_ADDR / 256)
                          (EC_FAN_DUTY_ADDR mod 256)
                          (<[EC_FAN_DUTY_ADDR := pwm * 255 / 100]> (ec_mem (ec m)))
                          ((EC_FAN_DUTY_ADDR, pwm * 255 / 100) :: ec_writes (ec m)))
                    (Some (jiffies m + HZ)) (jiffies m)).
    { subst m'. unfold fan_curve_function. rewrite Hon. simpl negb. cbv iota.
      rewrite ec_read_byte_value by (vm_compute; split; [discriminate | reflexivity]).
      fold (reg (ec m) EC_CPU_TEMP_ADDR). fold t.
      rewrite ZotacMode.fan_curve_pwm_with_temp. fold pwm.
      unfold set_fan_duty_internal.
      destruct (Z.gtb_spec pwm 100) as [Hgt | _]; [lia |].
      rewrite ec_write_byte_value
        by (vm_compute; split; [discriminate | reflexivity]).
      unfold EC_FAN_VALUE_MAX, EC_FAN_VALUE_MIN.
      rewrite Z.sub_0_r, Z.add_0_r, (u32_id (pwm * 255)) by lia.
      unfold mod_timer. cbn [data ec fan_curve_timer jiffies ec_mem ec_writes].
      unfold u8. rewrite Z.mod_mod, (Z.mod_small (pwm * 255 / 100)) by lia.
      reflexivity. }
    rewrite Hm'. cbn [data ec fan_curve_timer ec_writes].
    split; [exact Hd |]. split; [reflexivity |]. split.
    { unfold reg. cbn [ec_mem]. rewrite lookup_insert_eq. cbn [default].
      unfold u8. apply Z.mod_small. lia. }
    split.
    { unfold reg. cbn [ec_mem]. rewrite lookup_insert_ne by discriminate.
      reflexivity. }
    repeat split; try reflexivity. simpl. exact Hon.
Qed.

Lemma fan_curve_function_one_tick_witness :
  let m := mkMachine (with_curve_enabled true probe_data)
                     (mkEc 0 0 0 0 {[EC_CPU_TEMP_ADDR := 15]} []) None 1000 in
  ec_writes (ec (fan_curve_function 250 m)) = [(EC_FAN_DUTY_ADDR, 63)].
Proof.
  intros m.
  destruct (fan_curve_function_one_tick 250 m ZotacCurve.probe_data_wf)
    as [_ H].
  destruct (H eq_refl) as (_ & Hw & _). exact Hw.
Defined.


Ltac ec_addr_ok := vm_compute; split; [discriminate | reflexivity].

(** The machine one tick leaves in curve mode. *)
Lemma curve_tick_machine HZ m :
  curve_wf (data m) -> curve_enabled (data m) = true ->
  let t := reg (ec m) EC_CPU_TEMP_ADDR in
  let pwm := fan_curve_pwm t (data m) in
  fan_curve_function HZ m
  = mkMachine (with_temp t (data m))
      (mkEc 0x2F 0x12 (EC_FAN_DUTY_ADDR / 256) (EC_FAN_DUTY_ADDR mod 256)
            (<[EC_FAN_DUTY_ADDR := pwm * 255 / 100]> (ec_mem (ec m)))
            ((EC_FAN_DUTY_ADDR, pwm * 255 / 100) :: ec_writes (ec m)))
      (Some (jiffies m + HZ)) (jiffies m).
Proof.
  intros Hwf Hon t pwm.
  assert (Hp : 0 <= pwm <= 100)
    by (apply fan_curve_pwm_percent; [exact Hwf | apply reg_byte]).
  assert (Hd : 0 <= pwm * 255 / 100 <= 255).
  { split; [apply Z.div_pos; lia | apply Z.div_le_upper_bound; lia]. }
  unfold fan_curve_function. rewrite Hon. simpl negb. cbv iota.
  rewrite ec_read_byte_value by ec_addr_ok.
  fold (reg (ec m) EC_CPU_TEMP_ADDR). fold t.
  rewrite ZotacMode.fan_curve_pwm_with_temp. fold pwm.
  unfold set_fan_duty_internal.
  destruct (Z.gtb_spec pwm 100) as [Hgt | _]; [lia |].
  rewrite ec_write_byte_value by ec_addr_ok.
  unfold EC_FAN_VALUE_MAX, EC_FAN_VALUE_MIN.
  rewrite Z.sub_0_r, Z.add_0_r, (u32_id (pwm * 255)) by lia.
  unfold mod_timer. cbn [data ec fan_curve_timer jiffies ec_mem ec_writes].
  unfold u8. rewrite Z.mod_mod, (Z.mod_small (pwm * 255 / 100)) by lia.
  reflexivity.
Qed.

(** With curve mode off an idle machine keeps its driver data, its duty and
    control registers and its timer: the callback does nothing and the EC
    reports through other registers. *)
Lemma idles_curve_off HZ m m2 :
  curve_enabled (data m) = false -> idles HZ m m2 ->
  data m2 = data m /\
  reg (ec m2) EC_FAN_DUTY_ADDR = reg (ec m) EC_FAN_DUTY_ADDR /\
  reg (ec m2) EC_FAN_CTRL_ADDR = reg (ec m) EC_FAN_CTRL_ADDR /\
  ec_writes (ec m2) = ec_writes (ec m) /\
  fan_curve_timer m2 = fan_curve_timer m.
Proof.
  intros Hoff Hidle.
  induction Hidle as [| j m' _ IH | m' _ IH | addr v m' _ IH Haddr].
  - repeat split; reflexivity.
  - exact IH.
  - destruct IH as (Hd & IH).
    assert (Hsame : fan_curve_function HZ m' = m')
      by (unfold fan_curve_function; rewrite Hd, Hoff; reflexivity).
    rewrite Hsame. split; [exact Hd | exact IH].
  - destruct IH as (Hd & Hduty & Hctrl & Hw & Ht).
    cbn [data ec fan_curve_timer]. unfold reg, ec_reports in *. cbn [ec_mem ec_writes].
    rewrite !lookup_insert_ne
      by (destruct Haddr as [-> | [-> | ->]]; vm_compute; discriminate).
    repeat split; assumption.
Qed.

(** What a refresh of the sample cache leaves behind. *)
Lemma update_device_refresh HZ m :
  time_after (u64 (jiffies m)) (u64 (last_updated (data m) + HZ))
    || negb (valid (data m)) = true ->
  zotac_fan_update_device HZ m
  = mkMachine
      (mkFan (reg (ec m) EC_FAN_SPEED_UPPER_ADDR * 256
              + reg (ec m) EC_FAN_SPEED_LOWER_ADDR)
             (reg (ec m) EC_FAN_DUTY_ADDR) (reg (ec m) EC_FAN_CTRL_ADDR)
             (reg (ec m) EC_CPU_TEMP_ADDR) (u64 (jiffies m)) true
             (curve_enabled (data m)) (curve_temp (data m)) (curve_pwm (data m)))
      (mkEc 0x2F 0x12 (EC_CPU_TEMP_ADDR / 256) (EC_CPU_TEMP_ADDR mod 256)
            (ec_mem (ec m)) (ec_writes (ec m)))
      (fan_curve_timer m) (jiffies m).
Proof.
  intros Hstale. unfold zotac_fan_update_device. rewrite Hstale.
  rewrite !ec_read_byte_value by ec_addr_ok. cbn [ec_mem ec_writes].
  fold (reg (ec m) EC_FAN_CTRL_ADDR). fold (reg (ec m) EC_FAN_DUTY_ADDR).
  fold (reg (ec m) EC_FAN_SPEED_UPPER_ADDR).
  fold (reg (ec m) EC_FAN_SPEED_LOWER_ADDR).
  fold (reg (ec m) EC_CPU_TEMP_ADDR).
  pose proof (reg_byte (ec m) EC_FAN_SPEED_UPPER_ADDR) as Hu.
  pose proof (reg_byte (ec m) EC_FAN_SPEED_LOWER_ADDR) as Hl.
  rewrite join_bytes by lia. rewrite u32_id by lia. reflexivity.
Qed.

(** X4.  The sample cache.  While the cache is valid and at most one second
    old a read changes nothing and touches no port.  Otherwise the read
    fetches mode, duty, the two speed bytes (upper byte first, so the speed
    is at most 65535) and the temperature, stamps the sample and marks it
    valid, without writing to the EC or changing a register; and a further
    read within the next second is served from that sample. *)
Theorem zotac_fan_update_device_cache (HZ : Z) (m : machine) :
  0 < HZ < 2 ^ 61 ->
  0 <= jiffies m < 2 ^ 61 ->
  0 <= last_updated (data m) < 2 ^ 61 ->
  (valid (data m) = true -> jiffies m <= last_updated (data m) + HZ ->
   zotac_fan_update_device HZ m = m) /\
  (valid (data m) = false \/ last_updated (data m) + HZ < jiffies m ->
   let m' := zotac_fan_update_device HZ m in
   fan_mode (data m') = reg (ec m) EC_FAN_CTRL_ADDR /\
   fan_duty (data m') = reg (ec m) EC_FAN_DUTY_ADDR /\
   fan_rpm (data m') = reg (ec m) EC_FAN_SPEED_UPPER_ADDR * 256
                       + reg (ec m) EC_FAN_SPEED_LOWER_ADDR /\
   0 <= fan_rpm (data m') <= 65535 /\
   temp (data m') = reg (ec m) EC_CPU_TEMP_ADDR /\
   last_updated (data m') = jiffies m /\
   valid (data m') = true /\
   ec_mem (ec m') = ec_mem (ec m) /\
   ec_writes (ec m') = ec_writes (ec m) /\
   forall later, jiffies m <= later <= jiffies m + HZ ->
     zotac_fan_update_device HZ (with_jiffies later m') = with_jiffies later m').
Proof.
  intros HHZ Hj Hl.
  assert (Hfresh : forall x : machine,
            0 <= jiffies x < 2 ^ 62 -> 0 <= last_updated (data x) < 2 ^ 61 ->
            valid (data x) = true -> jiffies x <= last_updated (data x) + HZ ->
            zotac_fan_update_device HZ x = x).
  { intros x Hjx Hlx Hv Hle. unfold zotac_fan_update_device.
    rewrite Hv. simpl negb. rewrite orb_false_r.
    unfold u64 at 1 2. rewrite !Z.mod_small by lia.
    rewrite time_after_lt by lia.
    destruct (Z.ltb_spec (last_updated (data x) + HZ) (jiffies x));
      [lia | reflexivity]. }
  split; [intros Hv Hle; apply Hfresh; auto; lia |].
  intros Hstale m'.
  assert (Hcond : time_after (u64 (jiffies m)) (u64 (last_updated (data m) + HZ))
                    || negb (valid (data m)) = true).
  { destruct Hstale as [Hinv | Hold].
    - rewrite Hinv. apply orb_true_r.
    - unfold u64. rewrite !Z.mod_small by lia.
      rewrite time_after_lt by lia.
      destruct (Z.ltb_spec (last_updated (data m) + HZ) (jiffies m));
        [reflexivity | lia]. }
  subst m'. rewrite (update_device_refresh HZ m Hcond).
  cbn [data ec fan_mode fan_duty fan_rpm temp last_updated valid ec_mem ec_writes].
  pose proof (reg_byte (ec m) EC_FAN_SPEED_UPPER_ADDR) as Hu.
  pose proof (reg_byte (ec m) EC_FAN_SPEED_LOWER_ADDR) as Hlo.
  assert (Hju : u64 (jiffies m) = jiffies m)
    by (unfold u64; apply Z.mod_small; lia).
  rewrite Hju.
  repeat split; try reflexivity; try lia.
  intros later Hlater. apply Hfresh; cbn; try reflexivity; lia.
Qed.

Lemma zotac_fan_update_device_cache_witness :
  let m := mkMachine probe_data
             (mkEc 0 0 0 0 {[EC_FAN_SPEED_UPPER_ADDR := 0x12;
                             EC_FAN_SPEED_LOWER_ADDR := 0x34]} []) None 5000 in
  fan_rpm (data (zotac_fan_update_device 250 m)) = 0x1234.
Proof.
  intros m.
  destruct (zotac_fan_update_device_cache 250 m) as [_ H]; [lia | simpl; lia |
    simpl; lia |].
  destruct (H (or_introl eq_refl)) as (_ & _ & Hrpm & _). exact Hrpm.
Defined.


(** Whatever the age of the cache, a read reports the duty (the mode) the
    register holds when the cached byte agrees with it, and never changes
    the curve flag. *)
Lemma update_device_duty HZ m :
  fan_duty (data m) = reg (ec m) EC_FAN_DUTY_ADDR ->
  fan_duty (data (zotac_fan_update_device HZ m)) = fan_duty (data m).
Proof.
  intros Hd.
  destruct (time_after (u64 (jiffies m)) (u64 (last_updated (data m) + HZ))
              || negb (valid (data m))) eqn:Hc.
  - rewrite (update_device_refresh HZ m Hc). cbn. auto.
  - unfold zotac_fan_update_device. rewrite Hc. auto.
Qed.

Lemma update_device_mode HZ m :
  fan_mode (data m) = reg (ec m) EC_FAN_CTRL_ADDR ->
  fan_mode (data (zotac_fan_update_device HZ m)) = fan_mode (data m).
Proof.
  intros Hd.
  destruct (time_after (u64 (jiffies m)) (u64 (last_updated (data m) + HZ))
              || negb (valid (data m))) eqn:Hc.
  - rewrite (update_device_refresh HZ m Hc). cbn. auto.
  - unfold zotac_fan_update_device. rewrite Hc. auto.
Qed.

Lemma update_device_curve_enabled HZ m :
  curve_enabled (data (zotac_fan_update_device HZ m)) = curve_enabled (data m).
Proof.
  destruct (time_after (u64 (jiffies m)) (u64 (last_updated (data m) + HZ))
              || negb (valid (data m))) eqn:Hc.
  - rewrite (update_device_refresh HZ m Hc). reflexivity.
  - unfold zotac_fan_update_device. rewrite Hc. reflexivity.
Qed.

Lemma percent_back p :
  0 <= p <= 100 -> p - 1 <= p * 255 / 100 * 100 / 255 <= p.
Proof.
  intros Hp.
  pose proof (Z.div_mod (p * 255) 100 ltac:(lia)) as H1.
  pose proof (Z.mod_pos_bound (p * 255) 100 ltac:(lia)) as H2.
  pose proof (Z.div_mod (p * 255 / 100 * 100) 255 ltac:(lia)) as H3.
  pose proof (Z.mod_pos_bound (p * 255 / 100 * 100) 255 ltac:(lia)) as H4.
  lia.
Qed.

(** X5.  Setting the fan duty.  A parsed percentage above 100 is refused
    with [-EINVAL] and a text the parser refuses with the parser's code,
    both without touching the EC.  A percentage [p] of 0..100 writes
    [p*255/100] to the duty register and returns the byte count.  With curve
    mode off the duty then reads back as [p*255/100*100/255], which is [p]
    or [p - 1], never more, however long the machine idles in between (time
    passing, timer callbacks, the EC reporting speed and temperature).  With
    curve mode on the stored duty does not last: the next timer callback
    replaces it by the duty of the curve. *)
Theorem fan1_duty_store_show
  (HZ : Z) (kstrtoul : string -> Z * Z) (buf : string) (count : Z) (m : machine) :
  0 <= count < 2 ^ 63 ->
  (forall e v, kstrtoul buf = (e, v) -> e <> 0 ->
     fan1_duty_store kstrtoul buf count m = (e, m)) /\
  (forall v, kstrtoul buf = (0, v) -> 100 < u64 v ->
     fan1_duty_store kstrtoul buf count m = (- EINVAL, m)) /\
  (forall p, kstrtoul buf = (0, p) -> 0 <= p <= 100 ->
     let m1 := snd (fan1_duty_store kstrtoul buf count m) in
     fst (fan1_duty_store kstrtoul buf count m) = count /\
     ec_writes (ec m1) = (EC_FAN_DUTY_ADDR, p * 255 / 100) :: ec_writes (ec m) /\
     reg (ec m1) EC_FAN_DUTY_ADDR = p * 255 / 100 /\
     p - 1 <= p * 255 / 100 * 100 / 255 <= p /\
     (curve_enabled (data m) = false ->
      forall m2, idles HZ m1 m2 ->
        fst (fan1_duty_show HZ m2) = sprintf_u (p * 255 / 100 * 100 / 255)) /\
     (curve_enabled (data m) = true -> curve_wf (data m) ->
      reg (ec (fan_curve_function HZ m1)) EC_FAN_DUTY_ADDR
      = fan_curve_pwm (reg (ec m) EC_CPU_TEMP_ADDR) (data m) * 255 / 100)).
Proof.
  intros Hcount.
  assert (Hback : ssize_t (size_t count) = count)
    by (apply ssize_t_size_t; lia).
  split; [| split].
  - intros e v Hparse He. unfold fan1_duty_store. rewrite Hparse.
    destruct (Z.eqb_spec e 0); [contradiction | reflexivity].
  - intros v Hparse Hbig. unfold fan1_duty_store. rewrite Hparse. simpl negb.
    cbv iota. destruct (Z.gtb_spec (u64 v) 100); [reflexivity | lia].
  - intros p Hparse Hp m1.
    assert (Hd : 0 <= p * 255 / 100 <= 255).
    { split; [apply Z.div_pos; lia | apply Z.div_le_upper_bound; lia]. }
    assert (Hstore : fan1_duty_store kstrtoul buf count m
              = (count,
                 mkMachine
                   (mkFan (fan_rpm (data m)) (p * 255 / 100) (fan_mode (data m))
                          (temp (data m)) (last_updated (data m)) (valid (data m))
                          (curve_enabled (data m)) (curve_temp (data m))
                          (curve_pwm (data m)))
                   (mkEc 0x2F 0x12 (EC_FAN_DUTY_ADDR / 256)
                         (EC_FAN_DUTY_ADDR mod 256)
                         (<[EC_FAN_DUTY_ADDR := p * 255 / 100]> (ec_mem (ec m)))
                         ((EC_FAN_DUTY_ADDR, p * 255 / 100) :: ec_writes (ec m)))
                   (fan_curve_timer m) (jiffies m))).
    { unfold fan1_duty_store. rewrite Hparse. simpl negb. cbv iota.
      assert (Hu64 : u64 p = p) by (unfold u64; apply Z.mod_small; lia).
      rewrite Hu64.
      destruct (Z.gtb_spec p 100) as [Hgt | _]; [lia |].
      unfold set_fan_duty.
      assert (Hu8 : u8 p = p) by (unfold u8; apply Z.mod_small; lia).
      rewrite Hu8.
      destruct (Z.gtb_spec p 100) as [Hgt | _]; [lia |].
      unfold set_fan_duty_internal.
      destruct (Z.gtb_spec p 100) as [Hgt | _]; [lia |].
      rewrite ec_write_byte_value by ec_addr_ok.
      unfold EC_FAN_VALUE_MAX, EC_FAN_VALUE_MIN.
      rewrite Z.sub_0_r, !Z.add_0_r, (u32_id (p * 255)), (s32_id (p * 255))
        by lia.
      assert (Hdv : u8 (p * 255 / 100) = p * 255 / 100)
        by (unfold u8; apply Z.mod_small; lia).
      rewrite !Hdv. simpl. rewrite Hback. reflexivity. }
    subst m1. rewrite Hstore. cbn [fst snd ec ec_writes].
    assert (Hreg : reg (mkEc 47 18 (EC_FAN_DUTY_ADDR / 256)
                          (EC_FAN_DUTY_ADDR mod 256)
                          (<[EC_FAN_DUTY_ADDR := p * 255 / 100]> (ec_mem (ec m)))
                          ((EC_FAN_DUTY_ADDR, p * 255 / 100) :: ec_writes (ec m)))
                     EC_FAN_DUTY_ADDR = p * 255 / 100).
    { unfold reg. cbn [ec_mem]. rewrite lookup_insert_eq. cbn [default].
      unfold u8. apply Z.mod_small. lia. }
    split; [reflexivity |]. split; [reflexivity |]. split; [exact Hreg |].
    split; [apply percent_back; exact Hp |].
    split.
    + intros Hoff m2 Hidle.
      match type of Hidle with
      | idles HZ ?x m2 =>
          destruct (idles_curve_off HZ x m2 Hoff Hidle) as (Hdata & Hduty & _)
      end.
      cbn [data ec] in Hdata, Hduty. rewrite Hreg in Hduty.
      unfold fan1_duty_show.
      rewrite (update_device_duty HZ m2)
        by (rewrite Hdata, Hduty; reflexivity).
      rewrite Hdata. cbn [fan_duty].
      unfold EC_FAN_VALUE_MAX, EC_FAN_VALUE_MIN.
      rewrite !Z.sub_0_r, (u32_id (p * 255 / 100 * 100)) by lia.
      reflexivity.
    + intros Hon Hwf.
      match goal with
      | |- context [fan_curve_function HZ ?x] => set (x1 := x)
      end.
      pose proof (curve_tick_machine HZ x1 Hwf Hon) as Htick.
      cbv zeta in Htick. rewrite Htick.
      assert (Htemp : reg (ec x1) EC_CPU_TEMP_ADDR = reg (ec m) EC_CPU_TEMP_ADDR).
      { unfold reg, x1. cbn [ec ec_mem].
        rewrite lookup_insert_ne by (vm_compute; discriminate). reflexivity. }
      assert (Hpw : forall t, fan_curve_pwm t (data x1) = fan_curve_pwm t (data m))
        by reflexivity.
      rewrite Htemp, Hpw.
      pose proof (fan_curve_pwm_percent (reg (ec m) EC_CPU_TEMP_ADDR) (data m)
                    Hwf (reg_byte _ _)) as Hp'.
      unfold reg at 1. cbn [ec ec_mem]. rewrite lookup_insert_eq. cbn [default].
      unfold u8. apply Z.mod_small.
      split; [apply Z.div_pos; lia | apply Z.div_lt_upper_bound; lia].
Qed.

Lemma fan1_duty_store_show_witness :
  let kstrtoul := Stub.parse_decimal (2 ^ 64 - 1) in
  let m := mkMachine probe_data (mkEc 0 0 0 0 ∅ []) None 0 in
  fst (fan1_duty_store kstrtoul "1" 2 m) = 2 /\
  fst (fan1_duty_show 250
         (fan_curve_function 250
            (with_jiffies 9000 (snd (fan1_duty_store kstrtoul "1" 2 m)))))
    = (2, ("0" ++ Legos.newline)%string).
Proof.
  intros kstrtoul m.
  destruct (fan1_duty_store_show 250 kstrtoul "1" 2 m ltac:(lia))
    as (_ & _ & H).
  destruct (H 1 eq_refl ltac:(lia)) as (H1 & _ & _ & _ & H2 & _).
  split; [exact H1 |].
  apply (H2 eq_refl). apply idle_tick, idle_time, idle_start.
Defined.

(** X6.  The fan mode attribute.  Only 0, 1 and 2 are accepted: any other
    parsed number is refused with [-EINVAL] and a text the parser refuses
    with the parser's code, leaving the machine as it was.  After a store
    of 0, 1 or 2 the control register holds 0, 1 or (for curve mode) 1,
    entering curve mode arms the timer and leaving it stops the timer, and
    a later read of the attribute, at any time, reports the mode that was
    stored: curve mode reads as 2 although the register says 1. *)
Theorem fan1_mode_store_show
  (HZ : Z) (kstrtoul : string -> Z * Z) (buf : string) (count : Z) (m : machine) :
  0 <= count < 2 ^ 63 ->
  (forall e v, kstrtoul buf = (e, v) -> e <> 0 ->
     fan1_mode_store HZ kstrtoul buf count m = (e, m)) /\
  (forall v, kstrtoul buf = (0, v) -> 2 < u64 v ->
     fan1_mode_store HZ kstrtoul buf count m = (- EINVAL, m)) /\
  (forall mode, kstrtoul buf = (0, mode) -> 0 <= mode <= 2 ->
     let m1 := snd (fan1_mode_store HZ kstrtoul buf count m) in
     fst (fan1_mode_store HZ kstrtoul buf count m) = count /\
     reg (ec m1) EC_FAN_CTRL_ADDR = (if mode =? 2 then 1 else mode) /\
     curve_enabled (data m1) = (mode =? 2) /\
     (mode <> 2 -> curve_enabled (data m) = true -> fan_curve_timer m1 = None) /\
     (mode = 2 -> fan_curve_timer m1 = Some (jiffies m + HZ)) /\
     forall later,
       fst (fan1_mode_show HZ (with_jiffies later m1)) = sprintf_u mode).
Proof.
  intros Hcount.
  assert (Hback : ssize_t (size_t count) = count)
    by (apply ssize_t_size_t; lia).
  split; [| split].
  - intros e v Hparse He. unfold fan1_mode_store. rewrite Hparse.
    destruct (Z.eqb_spec e 0); [contradiction | reflexivity].
  - intros v Hparse Hbig. unfold fan1_mode_store. rewrite Hparse. simpl negb.
    cbv iota.
    assert (H0 : 0 <= u64 v) by (unfold u64; apply Z.mod_pos_bound; lia).
    destruct (Z.eqb_spec (u64 v) EC_FAN_MODE_AUTO) as [E | _];
      [unfold EC_FAN_MODE_AUTO in E; lia |].
    destruct (Z.eqb_spec (u64 v) EC_FAN_MODE_MANUAL) as [E | _];
      [unfold EC_FAN_MODE_MANUAL in E; lia |].
    destruct (Z.eqb_spec (u64 v) EC_FAN_MODE_CURVE) as [E | _];
      [unfold EC_FAN_MODE_CURVE in E; lia | reflexivity].
  - intros mode Hparse Hmode m1.
    assert (Hshow : forall x : machine,
              fan_mode (data x) = reg (ec x) EC_FAN_CTRL_ADDR ->
              fst (fan1_mode_show HZ x)
              = if curve_enabled (data x) then sprintf_u EC_FAN_MODE_CURVE
                else sprintf_u (fan_mode (data x))).
    { intros x Hag. unfold fan1_mode_show.
      rewrite update_device_curve_enabled.
      destruct (curve_enabled (data x)); [reflexivity |].
      cbn [fst]. now rewrite update_device_mode. }
    assert (Hcases : mode = 0 \/ mode = 1 \/ mode = 2) by lia.
    subst m1. unfold fan1_mode_store. rewrite Hparse. simpl negb. cbv iota.
    destruct Hcases as [-> | [-> | ->]];
      change (u64 0) with 0; change (u64 1) with 1; change (u64 2) with 2;
      cbn [Z.eqb Pos.eqb negb andb EC_FAN_MODE_AUTO EC_FAN_MODE_MANUAL
           EC_FAN_MODE_CURVE];
      unfold set_fan_mode;
      change (u8 0) with 0; change (u8 1) with 1; change (u8 2) with 2;
      cbn [Z.eqb Pos.eqb EC_FAN_MODE_CURVE];
      try (destruct (curve_enabled (data m)) eqn:Hce);
      rewrite ec_write_byte_value by ec_addr_ok;
      cbn [Z.eqb negb fst snd]; rewrite Hback;
      (split; [reflexivity |]);
      (split; [unfold reg; cbn; rewrite lookup_insert_eq; reflexivity |]);
      (split; [cbn; first [reflexivity | assumption] |]);
      (split; [cbn; intros; first [reflexivity | congruence | lia] |]);
      (split; [cbn; intros; first [reflexivity | congruence | lia] |]);
      intros later; rewrite Hshow
        by (cbn; unfold reg; cbn; rewrite lookup_insert_eq; reflexivity);
      cbn [data with_jiffies curve_enabled fan_mode with_fan_mode
           with_curve_enabled del_timer mod_timer];
      try rewrite Hce; reflexivity.
Qed.

Lemma fan1_mode_store_show_witness :
  let kstrtoul := Stub.parse_decimal (2 ^ 64 - 1) in
  let m := mkMachine probe_data (mkEc 0 0 0 0 ∅ []) None 0 in
  reg (ec (snd (fan1_mode_store 250 kstrtoul "2" 2 m))) EC_FAN_CTRL_ADDR = 1 /\
  fst (fan1_mode_show 250
         (with_jiffies 9000 (snd (fan1_mode_store 250 kstrtoul "2" 2 m))))
    = (2, ("2" ++ Legos.newline)%string).
Proof.
  intros kstrtoul m.
  destruct (fan1_mode_store_show 250 kstrtoul "2" 2 m ltac:(lia))
    as (_ & _ & H).
  destruct (H 2 eq_refl ltac:(lia)) as (_ & H1 & _ & _ & _ & H2).
  split; [exact H1 | exact (H2 9000)].
Defined.

Lemma idx_insert_eq l i x :
  (i < length l)%nat -> idx (<[i := x]> l) i = x.
Proof. intros H. unfold idx. now rewrite list_lookup_insert_eq. Qed.

Lemma idx_insert_ne l i j x :
  i <> j -> idx (<[i := x]> l) j = idx l j.
Proof. intros H. unfold idx. now rewrite list_lookup_insert_ne. Qed.

(** X7.  The curve point attributes of a nine-point table, for points 1 to
    9.  A text the parser refuses makes either store return the parser's
    code and leave the table as it was.  A temperature store of a parsed
    number succeeds whatever the number is and keeps its low 32 bits, so
    2^32 + 5 is stored as 5.  A duty store refuses anything above 100 with
    [-EINVAL] and changes nothing.  After an accepted store the point reads
    back as the stored number, every other point of both tables reads as
    before. *)
Theorem curve_point_store_show
  (kstrtoul : string -> Z * Z) (index other : nat) (buf : string) (count : Z)
  (d : zotac_fan_data) :
  length (curve_temp d) = FAN_CURVE_POINTS ->
  length (curve_pwm d) = FAN_CURVE_POINTS ->
  (1 <= index <= 9)%nat ->
  0 <= count < 2 ^ 63 ->
  (forall e v, kstrtoul buf = (e, v) -> e <> 0 ->
     pwm1_auto_point_temp_store kstrtoul index buf count d = (e, d) /\
     pwm1_auto_point_pwm_store kstrtoul index buf count d = (e, d)) /\
  (forall v, kstrtoul buf = (0, v) -> 0 <= v < 2 ^ 64 ->
     (let d1 := snd (pwm1_auto_point_temp_store kstrtoul index buf count d) in
      fst (pwm1_auto_point_temp_store kstrtoul index buf count d) = count /\
      pwm1_auto_point_temp_show index d1 = sprintf_u (v mod 2 ^ 32) /\
      (other <> index -> (1 <= other)%nat ->
       pwm1_auto_point_temp_show other d1 = pwm1_auto_point_temp_show other d) /\
      curve_pwm d1 = curve_pwm d) /\
     (100 < v ->
      pwm1_auto_point_pwm_store kstrtoul index buf count d = (- EINVAL, d)) /\
     (v <= 100 ->
      let d1 := snd (pwm1_auto_point_pwm_store kstrtoul index buf count d) in
      fst (pwm1_auto_point_pwm_store kstrtoul index buf count d) = count /\
      pwm1_auto_point_pwm_show index d1 = sprintf_u v /\
      (other <> index -> (1 <= other)%nat ->
       pwm1_auto_point_pwm_show other d1 = pwm1_auto_point_pwm_show other d) /\
      curve_temp d1 = curve_temp d)).
Proof.
  intros HlT HlP Hi Hcount. unfold FAN_CURVE_POINTS in *.
  assert (Hback : ssize_t (size_t count) = count)
    by (apply ssize_t_size_t; lia).
  split.
  { intros e v Hparse He.
    unfold pwm1_auto_point_temp_store, pwm1_auto_point_pwm_store.
    rewrite Hparse.
    destruct (Z.eqb_spec e 0); [contradiction | split; reflexivity]. }
  intros v Hparse Hv.
  assert (Hu64 : u64 v = v) by (unfold u64; apply Z.mod_small; lia).
  split; [| split].
  - cbv zeta. unfold pwm1_auto_point_temp_store, pwm1_auto_point_temp_show.
    rewrite Hparse. cbn [Z.eqb negb]. cbv zeta.
    cbn [fst snd curve_temp curve_pwm with_curve_temp].
    rewrite Hu64, Hback. split; [reflexivity |]. split.
    + rewrite idx_insert_eq by lia. reflexivity.
    + split; [| reflexivity]. intros Hne Ho.
      rewrite idx_insert_ne by lia. reflexivity.
  - intros Hbig. unfold pwm1_auto_point_pwm_store.
    rewrite Hparse. cbn [Z.eqb negb]. cbv zeta. rewrite Hu64.
    destruct (Z.gtb_spec v 100); [reflexivity | lia].
  - intros Hok. cbv zeta.
    unfold pwm1_auto_point_pwm_store, pwm1_auto_point_pwm_show.
    rewrite Hparse. cbn [Z.eqb negb]. cbv zeta. rewrite Hu64.
    destruct (Z.gtb_spec v 100) as [Hgt | _]; [lia |].
    cbn [fst snd curve_temp curve_pwm with_curve_pwm].
    rewrite Hback. split; [reflexivity |]. split.
    + rewrite idx_insert_eq by lia. now rewrite u32_id by lia.
    + split; [| reflexivity]. intros Hne Ho.
      rewrite idx_insert_ne by lia. reflexivity.
Qed.

Lemma curve_point_store_show_witness :
  let kstrtoul := Stub.parse_decimal (2 ^ 64 - 1) in
  pwm1_auto_point_temp_show 3
    (snd (pwm1_auto_point_temp_store kstrtoul 3 "4294967301" 11 probe_data))
  = (2, ("5" ++ Legos.newline)%string) /\
  pwm1_auto_point_pwm_store kstrtoul 3 "4x" 3 probe_data
  = (- EINVAL, probe_data).
Proof.
  intros kstrtoul.
  destruct (curve_point_store_show kstrtoul 3 4 "4294967301" 11 probe_data
              eq_refl eq_refl ltac:(lia) ltac:(lia)) as (_ & H).
  destruct (H (2 ^ 32 + 5) eq_refl ltac:(lia)) as ((_ & H1 & _) & _).
  destruct (curve_point_store_show kstrtoul 3 4 "4x" 3 probe_data
              eq_refl eq_refl ltac:(lia) ltac:(lia)) as (H2 & _).
  destruct (H2 (- EINVAL) 0 eq_refl ltac:(discriminate)) as (_ & H3).
  split; [exact H1 | exact H3].
Defined.

(** X22.  The sensor files.  On a stale or invalid cache the fan speed
    file renders the two speed registers joined upper byte first, and the
    temperature file renders the temperature register times 1000 (at most
    255000).  With curve mode off both files keep rendering that sample for
    the following second, whatever the EC reports by then, and leave the
    machine untouched.  With curve mode on the timer callback stores the
    temperature it reads without stamping the sample: after a callback
    inside that second the temperature file renders the register's current
    value, while the speed file still renders the sample. *)
Theorem sensor_shows_render_sample (HZ : Z) (m : machine) :
  0 < HZ < 2 ^ 61 ->
  0 <= jiffies m < 2 ^ 61 ->
  0 <= last_updated (data m) < 2 ^ 61 ->
  valid (data m) = false \/ last_updated (data m) + HZ < jiffies m ->
  let rpm := reg (ec m) EC_FAN_SPEED_UPPER_ADDR * 256
             + reg (ec m) EC_FAN_SPEED_LOWER_ADDR in
  let millis := reg (ec m) EC_CPU_TEMP_ADDR * 1000 in
  let m1 := snd (fan1_input_show HZ m) in
  fst (fan1_input_show HZ m) = sprintf_u rpm /\
  fst (temp1_input_show HZ m) = sprintf_u millis /\
  0 <= millis <= 255000 /\
  snd (temp1_input_show HZ m) = m1 /\
  (curve_enabled (data m) = false ->
   forall m2, idles HZ m1 m2 ->
     jiffies m <= jiffies m2 <= jiffies m + HZ ->
     fan1_input_show HZ m2 = (sprintf_u rpm, m2) /\
     temp1_input_show HZ m2 = (sprintf_u millis, m2)) /\
  (curve_enabled (data m) = true -> curve_wf (data m) ->
   forall later c,
     jiffies m <= later <= jiffies m + HZ ->
     let m2 := fan_curve_function HZ
                 (mkMachine (data m1) c (fan_curve_timer m1) later) in
     fst (fan1_input_show HZ m2) = sprintf_u rpm /\
     fst (temp1_input_show HZ m2)
       = sprintf_u (reg c EC_CPU_TEMP_ADDR * 1000)).
Proof.
  intros HHZ Hj Hl Hstale rpm millis m1.
  assert (Hcond : time_after (u64 (jiffies m)) (u64 (last_updated (data m) + HZ))
                    || negb (valid (data m)) = true).
  { destruct Hstale as [Hinv | Hold].
    - rewrite Hinv. apply orb_true_r.
    - unfold u64. rewrite !Z.mod_small by lia.
      rewrite time_after_lt by lia.
      destruct (Z.ltb_spec (last_updated (data m) + HZ) (jiffies m));
        [reflexivity | lia]. }
  pose proof (reg_byte (ec m) EC_CPU_TEMP_ADDR) as Ht.
  assert (Hju : u64 (jiffies m) = jiffies m)
    by (unfold u64; apply Z.mod_small; lia).
  assert (Hm1 : m1 = zotac_fan_update_device HZ m) by reflexivity.
  rewrite (update_device_refresh HZ m Hcond), Hju in Hm1.
  fold rpm in Hm1.
  (* a machine holding a valid sample taken at [jiffies m] serves it *)
  assert (Hfresh : forall x : machine,
            valid (data x) = true -> last_updated (data x) = jiffies m ->
            jiffies m <= jiffies x <= jiffies m + HZ ->
            zotac_fan_update_device HZ x = x).
  { intros x Hv Hlu Hwin. unfold zotac_fan_update_device.
    rewrite Hv, Hlu. cbn [negb]. rewrite orb_false_r.
    unfold u64. rewrite !Z.mod_small by lia.
    rewrite time_after_lt by lia.
    destruct (Z.ltb_spec (jiffies m + HZ) (jiffies x)); [lia | reflexivity]. }
  assert (Hfirst : fst (fan1_input_show HZ m) = sprintf_u rpm /\
                   fst (temp1_input_show HZ m) = sprintf_u millis /\
                   snd (temp1_input_show HZ m) = m1).
  { unfold fan1_input_show, temp1_input_show. cbn [fst snd].
    change (zotac_fan_update_device HZ m) with m1. rewrite Hm1.
    cbn [data fan_rpm temp]. fold millis.
    rewrite (u32_id millis) by (unfold millis; lia).
    repeat split; reflexivity. }
  destruct Hfirst as (Hf1 & Hf2 & Hf3).
  split; [exact Hf1 |]. split; [exact Hf2 |].
  split; [unfold millis; lia |]. split; [exact Hf3 |].
  split.
  - intros Hoff m2 Hidle Hwin.
    assert (Hoff1 : curve_enabled (data m1) = false)
      by (rewrite Hm1; exact Hoff).
    destruct (idles_curve_off HZ m1 m2 Hoff1 Hidle) as (Hdata & _).
    rewrite Hm1 in Hdata. cbn [data] in Hdata.
    unfold fan1_input_show, temp1_input_show.
    rewrite (Hfresh m2) by (rewrite ?Hdata; first [reflexivity | exact Hwin]).
    rewrite Hdata. cbn [fan_rpm temp]. fold millis.
    rewrite (u32_id millis) by (unfold millis; lia).
    split; reflexivity.
  - intros Hon Hwf later c Hwin m2.
    assert (Hm2 : m2 = fan_curve_function HZ
                         (mkMachine (data m1) c (fan_curve_timer m1) later))
      by reflexivity.
    rewrite curve_tick_machine in Hm2
      by (rewrite Hm1; first [exact Hwf | exact Hon]).
    cbn [data ec jiffies] in Hm2. rewrite Hm1 in Hm2. cbn [data] in Hm2.
    pose proof (reg_byte c EC_CPU_TEMP_ADDR) as Htc.
    unfold fan1_input_show, temp1_input_show.
    rewrite (Hfresh m2) by (rewrite Hm2; first [reflexivity | exact Hwin]).
    rewrite Hm2. cbn [fst data fan_rpm temp with_temp].
    rewrite (u32_id (reg c EC_CPU_TEMP_ADDR * 1000)) by lia.
    split; reflexivity.
Qed.

Lemma sensor_shows_render_sample_witness :
  let m := mkMachine (with_curve_enabled true probe_data)
             (mkEc 0 0 0 0 {[EC_CPU_TEMP_ADDR := 47]} []) None 5000 in
  fst (temp1_input_show 250 m) = (6, ("47000" ++ Legos.newline)%string) /\
  fst (temp1_input_show 250
         (fan_curve_function 250
            (mkMachine (data (snd (fan1_input_show 250 m)))
                       (mkEc 0 0 0 0 {[EC_CPU_TEMP_ADDR := 60]} []) None 5100)))
    = (6, ("60000" ++ Legos.newline)%string).
Proof.
  intros m.
  destruct (sensor_shows_render_sample 250 m) as (_ & H & _ & _ & _ & Hc);
    [lia | simpl; lia | simpl; lia | left; reflexivity |].
  split; [exact H |].
  destruct (Hc eq_refl ZotacCurve.probe_data_wf 5100
              (mkEc 0 0 0 0 {[EC_CPU_TEMP_ADDR := 60]} []) ltac:(simpl; lia))
    as (_ & H2).
  exact H2.
Defined.

End ZotacExtra.
(** * Legion Go S: discovery files, the engine's edges, round trips *)

Module LegosExtra.
Import Legos Attr LegosAttr LegosFacts.

Ltac split_index index :=
  repeat match goal with
         | |- context [index =? ?k] =>
             destruct (Z.eqb_spec index k); [subst index |]
         | H : context [index =? ?k] |- _ =>
             destruct (Z.eqb_spec index k); [subst index |]
         end.

(** A label at position [i] of a table without repeated labels is matched
    to [i]. *)
Lemma match_string_from_hit start tbl (i : nat) l :
  NoDup tbl -> tbl !! i = Some l ->
  match_string_from start tbl l = start + Z.of_nat i.
Proof.
  revert start i. induction tbl as [| x tbl IH]; intros start i Hnd Hl.
  - discriminate.
  - apply NoDup_cons in Hnd as [Hx Hnd]. destruct i as [| i]; simpl in *.
    + injection Hl as ->. rewrite String.eqb_refl. lia.
    + destruct (String.eqb_spec x l) as [-> | _].
      * exfalso. apply Hx. eapply list_elem_of_lookup_2; eauto.
      * rewrite (IH (start + 1) i Hnd Hl). lia.
Qed.

Lemma store_enum_hit tbl (i : nat) l :
  NoDup tbl -> (length tbl <= 256)%nat -> tbl !! i = Some l ->
  store_enum tbl l = inr (Z.of_nat i).
Proof.
  intros Hnd Hlen Hl. unfold store_enum, sysfs_match_string.
  rewrite (match_string_from_hit 0 tbl i l Hnd Hl).
  apply lookup_lt_Some in Hl.
  destruct (Z.ltb_spec (0 + Z.of_nat i) 0); [lia |].
  f_equal. unfold u8. apply Z.mod_small. lia.
Qed.

Lemma store_enum_accepts tbl buf :
  In buf tbl <-> exists val, store_enum tbl buf = inr val.
Proof.
  split.
  - intros Hin. unfold store_enum, sysfs_match_string.
    assert (H : forall start, 0 <= start ->
                 0 <= match_string_from start tbl buf).
    { induction tbl as [| x tbl IH]; intros start Hs; [destruct Hin |].
      simpl. destruct (String.eqb_spec x buf) as [_ | Hne]; [exact Hs |].
      destruct Hin as [-> | Hin]; [contradiction |].
      apply IH; [exact Hin | lia]. }
    specialize (H 0 ltac:(lia)).
    destruct (Z.ltb_spec (match_string_from 0 tbl buf) 0); [lia | eauto].
  - intros [val Hv]. destruct (in_dec string_dec buf tbl) as [Hin | Hn];
      [exact Hin |].
    rewrite (store_enum_miss tbl buf Hn) in Hv. discriminate.
Qed.

Lemma label_tables_nodup :
  Forall (fun tbl => NoDup tbl /\ (length tbl <= 256)%nat)
    [GAMEPAD_MODE_TEXT; FEATURE_ENABLE_STATUS_TEXT; IMU_ENABLED_TEXT;
     OS_TYPE_TEXT; POLL_RATE_TEXT; DPAD_MODE_TEXT; TOUCHPAD_MODE_TEXT;
     RGB_MODE_TEXT; RGB_EFFECT_TEXT].
Proof.
  repeat constructor; simpl; try lia;
    rewrite ?list_elem_of_In; simpl; intuition discriminate.
Qed.

(** X8.  The gamepad discovery files list what the store accepts.  For an
    enumeration index the options file renders the labels of its table
    separated by blanks and closed by a line feed; a text is accepted by the
    store's parser exactly when it is one of those labels, and the label at
    position [i] becomes wire value [i].  The sleep time file reads "0-255"
    and every parsed byte is accepted; the wheel step file reads "1-127" and
    a parsed byte is accepted exactly when it is in 1..127.  An index that
    names no property lists nothing. *)
Theorem gamepad_options_match_store (E : hid_env) (index : Z) :
  (forall tbl, gamepad_labels index = Some tbl ->
     gamepad_property_options index
       = (Z.of_nat (String.length (listing tbl)), listing tbl) /\
     (forall buf, In buf tbl <->
                  exists val, gamepad_property_parse E buf index = inr val) /\
     (forall (i : nat) l, tbl !! i = Some l ->
        gamepad_property_parse E l index = inr (Z.of_nat i))) /\
  (index = CFG_AUTO_SLP_TIME ->
     gamepad_property_options index = sysfs_emit "0-255" /\
     forall buf v, kstrtou8 E buf = (0, v) ->
       gamepad_property_parse E buf index = inr (u8 v)) /\
  (index = CFG_MS_WHEEL_STEP ->
     gamepad_property_options index = sysfs_emit "1-127" /\
     forall buf v, kstrtou8 E buf = (0, v) ->
       (gamepad_property_parse E buf index = inr (u8 v) <-> 1 <= u8 v <= 127)) /\
  (gamepad_domain index = None ->
     gamepad_property_options index = (0, EmptyString)).
Proof.
  pose proof label_tables_nodup as Hnd.
  repeat match type of Hnd with
         | Forall _ (_ :: _) => apply Forall_cons in Hnd as [? Hnd]
         end.
  split; [| split; [| split]].
  - intros tbl Htbl. unfold gamepad_labels in Htbl.
    split_index index; simpl in Htbl; try discriminate;
      injection Htbl as <-;
      (split; [reflexivity |]);
      unfold gamepad_property_parse; cbn [Z.eqb orb Pos.eqb];
      (split; [intros buf; apply store_enum_accepts
              | intros i l Hl; apply store_enum_hit; tauto]).
  - intros ->. split; [reflexivity |]. intros buf v Hparse.
    unfold gamepad_property_parse. cbn [Z.eqb orb Pos.eqb]. rewrite Hparse.
    cbn [Z.eqb negb]. pose proof (u8_range v).
    destruct (Z.ltb_spec (u8 v) 0); [lia |].
    destruct (Z.gtb_spec (u8 v) 255); [lia | reflexivity].
  - intros ->. split; [reflexivity |]. intros buf v Hparse.
    unfold gamepad_property_parse. cbn [Z.eqb orb Pos.eqb]. rewrite Hparse.
    cbn [Z.eqb negb].
    destruct (Z.ltb_spec (u8 v) 1); [simpl; split; [discriminate | lia] |].
    destruct (Z.gtb_spec (u8 v) 127); simpl; split;
      try discriminate; try lia; reflexivity.
  - intros Hdom. unfold gamepad_domain in Hdom. unfold gamepad_property_options.
    split_index index; try discriminate.
    repeat match goal with
           | |- context [?a =? ?b] =>
               destruct (Z.eqb_spec a b); [contradiction |]
           end.
    reflexivity.
Qed.

Lemma gamepad_options_match_store_witness :
  gamepad_property_options CFG_POLL_RATE
    = (17, ("125 250 500 1000" ++ newline)%string) /\
  gamepad_property_parse Stub.echo "500" CFG_POLL_RATE = inr 2.
Proof.
  destruct (gamepad_options_match_store Stub.echo CFG_POLL_RATE) as (H & _).
  destruct (H POLL_RATE_TEXT eq_refl) as (H1 & _ & H3).
  split; [exact H1 | exact (H3 2%nat "500"%string eq_refl)].
Defined.

(** X9.  The touchpad discovery files list what the touchpad store accepts:
    for both mode indexes the options file renders "relative absolute"
    closed by a line feed, a text is accepted exactly when it is one of the
    two labels, "relative" becomes wire value 0 and "absolute" 1; any other
    index lists nothing and accepts nothing. *)
Theorem touchpad_options_match_store (index : Z) (buf : string) :
  (index = CFG_WINDOWS_MODE \/ index = CFG_LINUX_MODE ->
     touchpad_property_options index
       = (Z.of_nat (String.length (listing TOUCHPAD_MODE_TEXT)),
          listing TOUCHPAD_MODE_TEXT) /\
     (In buf TOUCHPAD_MODE_TEXT <->
      exists val, touchpad_property_parse buf index = inr val) /\
     (forall (i : nat) l, TOUCHPAD_MODE_TEXT !! i = Some l ->
        touchpad_property_parse l index = inr (Z.of_nat i))) /\
  (touchpad_domain index = None ->
     touchpad_property_options index = (0, EmptyString) /\
     touchpad_property_parse buf index = inl (- EINVAL)).
Proof.
  pose proof label_tables_nodup as Hnd.
  repeat match type of Hnd with
         | Forall _ (_ :: _) => apply Forall_cons in Hnd as [? Hnd]
         end.
  split.
  - intros Hidx.
    assert (Hb : (index =? CFG_WINDOWS_MODE) || (index =? CFG_LINUX_MODE) = true)
      by (destruct Hidx as [-> | ->]; reflexivity).
    unfold touchpad_property_options, touchpad_property_parse. rewrite Hb.
    split; [reflexivity |].
    split; [apply store_enum_accepts | intros i l Hl; apply store_enum_hit; tauto].
  - unfold touchpad_domain, touchpad_property_options, touchpad_property_parse.
    destruct ((index =? CFG_WINDOWS_MODE) || (index =? CFG_LINUX_MODE));
      [discriminate | split; reflexivity].
Qed.

Lemma touchpad_options_match_store_witness :
  touchpad_property_options CFG_LINUX_MODE
    = (18, ("relative absolute" ++ newline)%string) /\
  touchpad_property_parse "absolute" CFG_LINUX_MODE = inr 1.
Proof.
  destruct (touchpad_options_match_store CFG_LINUX_MODE "absolute") as (H & _).
  destruct (H (or_intror eq_refl)) as (H1 & _ & H3).
  split; [exact H1 | exact (H3 1%nat "absolute"%string eq_refl)].
Defined.

(** The copy loop written out: [n] bytes of [val] from position [i] land
    behind the header, the rest of the buffer is as it was. *)
Lemma copy_payload_spec n i val buf :
  (i + 2 + n <= length buf)%nat ->
  copy_payload n i val buf
  = take (i + 2) buf ++ (byte_at val <$> seq i n) ++ drop (i + 2 + n) buf.
Proof.
  revert i buf. induction n as [| n IH]; intros i buf Hlen.
  - simpl. rewrite Nat.add_0_r. now rewrite take_drop.
  - cbn [copy_payload]. rewrite IH by (rewrite length_insert; lia).
    cbn [seq fmap list_fmap].
    replace (S i + 2)%nat with (S (i + 2)) by lia.
    destruct (lookup_lt_is_Some_2 buf (i + 2)%nat ltac:(lia)) as [x Hx].
    rewrite (take_S_r (<[(i + 2)%nat := byte_at val i]> buf) (i + 2)
               (byte_at val i))
      by (rewrite list_lookup_insert_eq by lia; reflexivity).
    rewrite take_insert_ge by lia.
    rewrite drop_insert_lt by lia.
    replace (S (i + 2) + n)%nat with (i + 2 + S n)%nat by lia.
    rewrite <- app_assoc. reflexivity.
Qed.

Lemma byte_at_take val (n : nat) :
  (n <= length val)%nat -> byte_at val <$> seq 0 n = u8 <$> take n val.
Proof.
  revert n. induction val as [| x val IH]; intros n Hn.
  - simpl in Hn. assert (n = 0%nat) by lia. subst. reflexivity.
  - destruct n as [| n]; [reflexivity |].
    cbn [seq fmap list_fmap take]. f_equal.
    rewrite <- (IH n) by (simpl in Hn; lia).
    rewrite <- seq_shift, <- list_fmap_compose. reflexivity.
Qed.

(** X10.  The frame [mcu_property_out] builds for a payload of up to 63
    bytes is always exactly 65 bytes: the command, the sub-index, the
    payload bytes in order and zeros to the end; every element is a byte,
    and the response handler's length check accepts a frame of that size. *)
Theorem make_outbuf_frame (command index : Z) (val : list Z) (size : Z) :
  0 <= size <= 63 ->
  size <= Z.of_nat (length val) ->
  make_outbuf command index val size
    = u8 command :: u8 index
      :: (u8 <$> take (Z.to_nat size) val)
         ++ replicate (63 - Z.to_nat size) 0 /\
  Z.of_nat (length (make_outbuf command index val size)) = GO_S_PACKET_SIZE /\
  Forall (fun b => 0 <= b < 256) (make_outbuf command index val size) /\
  byte_at (make_outbuf command index val size) 0 = u8 command /\
  byte_at (make_outbuf command index val size) 1 = u8 index.
Proof.
  intros Hsize Hval.
  assert (Heq : make_outbuf command index val size
                = u8 command :: u8 index
                  :: (u8 <$> take (Z.to_nat size) val)
                     ++ replicate (63 - Z.to_nat size) 0).
  { unfold make_outbuf. rewrite copy_payload_spec
      by (cbn [length]; rewrite length_replicate; lia).
    rewrite byte_at_take by lia.
    cbn [take drop Nat.add]. rewrite drop_replicate. reflexivity. }
  split; [exact Heq |]. rewrite Heq.
  assert (Hu : forall z, u8 (u8 z) = u8 z)
    by (intros z; unfold u8; apply Z.mod_mod; lia).
  split; [| split; [| split]].
  - cbn [length]. rewrite length_app, length_fmap, length_take, length_replicate.
    unfold GO_S_PACKET_SIZE. lia.
  - repeat apply Forall_cons_2; try apply u8_range.
    apply Forall_app_2.
    + apply Forall_fmap, Forall_true. intros x. apply u8_range.
    + apply Forall_replicate. lia.
  - unfold byte_at, idx. cbn. apply Hu.
  - unfold byte_at, idx. cbn. apply Hu.
Qed.

Lemma make_outbuf_frame_witness :
  make_outbuf SET_LIGHT_CFG USR_LIGHT_PROFILE_1 [1; 2; 3; 4; 5; 6] 6
  = SET_LIGHT_CFG :: USR_LIGHT_PROFILE_1 :: [1; 2; 3; 4; 5; 6] ++ replicate 57 0.
Proof.
  destruct (make_outbuf_frame SET_LIGHT_CFG USR_LIGHT_PROFILE_1
              [1; 2; 3; 4; 5; 6] 6 ltac:(lia) ltac:(simpl; lia)) as (H & _).
  exact H.
Defined.


(** Driver data with the status fields cleared, as every issue starts. *)
Lemma mcu_property_out_cfg (E : hid_env) command index val size (w : world E) :
  reachable w ->
  hw_ret (answer E command index val size w) = GO_S_PACKET_SIZE ->
  cfg (snd (mcu_property_out E command index val size w))
  = set_send_cmd_complete 0 (after_delivery E command index val size w).
Proof.
  intros Hr Hret.
  rewrite (mcu_property_out_sent E command index val size w Hr Hret).
  cbv zeta. unfold wait_for_completion_interruptible_timeout.
  destruct (0 <? send_cmd_complete (after_delivery E command index val size w))%N;
    [reflexivity |].
  destruct (signal_pending (answer E command index val size w)); reflexivity.
Qed.

Ltac no_such_code H :=
  exfalso; repeat (destruct H as [H | H]; [vm_compute in H; discriminate H |]);
  vm_compute in H; discriminate H.

Ltac outcome :=
  split;
  [ first [ now left | now (right; left) | now (right; right; left)
          | now (right; right; right; left)
          | now (right; right; right; right; left)
          | now (right; right; right; right; right) ]
  | split; intros Hcode;
    first [ split; reflexivity | no_such_code Hcode ] ].

(** X11.  Whatever the transport does, [mcu_property_out] returns one of
    0, [-EBUSY], the interrupt code, [-ENODEV], [-ENOMEM] and [-EINVAL],
    never a positive value.  When it returns one of the first three the
    frame went out whole, exactly one frame was added to the wire and the
    completion is left unfired for the next call; when it returns
    [-ENODEV] or [-ENOMEM] nothing was transmitted. *)
Theorem mcu_property_out_outcomes
  (E : hid_env) (command index : Z) (val : list Z) (size : Z) (w : world E) :
  let ret := fst (mcu_property_out E command index val size w) in
  let w' := snd (mcu_property_out E command index val size w) in
  (ret = 0 \/ ret = - EBUSY \/ ret = - ERESTARTSYS \/
   ret = - ENODEV \/ ret = - ENOMEM \/ ret = - EINVAL) /\
  (ret = 0 \/ ret = - EBUSY \/ ret = - ERESTARTSYS ->
   wire w' = entry command index val size :: wire w /\
   send_cmd_complete (cfg w') = 0%N) /\
  (ret = - ENODEV \/ ret = - ENOMEM -> wire w' = wire w /\ hdev w' = hdev w).
Proof.
  cbv zeta. unfold mcu_property_out, legos_cfg_send_cmd, entry.
  destruct (get_endpoint_address E (hdev w) =? LEGION_GO_S_CFG_INTF_IN E);
    cbn [negb fst snd]; [| outcome].
  destruct (kmemdup_ok E (hdev w)); cbn [negb fst snd wire hdev]; [| outcome].
  destruct (hid_hw_output_report E (hdev w) (make_outbuf command index val size))
    as [h r].
  destruct (hw_ret r =? GO_S_PACKET_SIZE); cbn [negb Z.eqb fst snd wire hdev];
    [| outcome].
  unfold wait_for_completion_interruptible_timeout.
  destruct (0 <? send_cmd_complete (deliver (inbound r)
              (set_last_cmd_val 0 (set_last_cmd_ret 0 (cfg w)))))%N;
    [| destruct (signal_pending r)]; simpl; outcome.
Qed.

Lemma mcu_property_out_outcomes_witness :
  fst (mcu_property_out Stub.silent GET_TP_PARAM CFG_LINUX_MODE [] 0
         (Stub.boot Stub.silent [])) = - EBUSY /\
  send_cmd_complete
    (cfg (snd (mcu_property_out Stub.silent GET_TP_PARAM CFG_LINUX_MODE [] 0
                 (Stub.boot Stub.silent [])))) = 0%N.
Proof.
  destruct (mcu_property_out_outcomes Stub.silent GET_TP_PARAM CFG_LINUX_MODE
              [] 0 (Stub.boot Stub.silent [])) as (_ & H & _).
  split; [reflexivity |]. apply H. right; left; reflexivity.
Defined.

(** X12.  The three ways [mcu_property_out] fails before it waits.  A wrong
    endpoint gives [-ENODEV] and leaves everything as it was, including the
    result code and value of the previous command.  A failed allocation
    gives [-ENOMEM]: nothing is transmitted, the result fields are already
    cleared.  A frame the transport does not accept whole gives [-EINVAL]
    at once: the frame was handed over, but no response is awaited or
    decoded and the completion is not touched. *)
Theorem mcu_property_out_early_failures
  (E : hid_env) (command index : Z) (val : list Z) (size : Z) (w : world E) :
  (get_endpoint_address E (hdev w) <> LEGION_GO_S_CFG_INTF_IN E ->
   mcu_property_out E command index val size w = (- ENODEV, w)) /\
  (get_endpoint_address E (hdev w) = LEGION_GO_S_CFG_INTF_IN E ->
   kmemdup_ok E (hdev w) = false ->
   mcu_property_out E command index val size w
   = (- ENOMEM,
      mkWorld (set_last_cmd_val 0 (set_last_cmd_ret 0 (cfg w))) (hdev w) (wire w))) /\
  (reachable w ->
   hw_ret (answer E command index val size w) <> GO_S_PACKET_SIZE ->
   fst (mcu_property_out E command index val size w) = - EINVAL /\
   cfg (snd (mcu_property_out E command index val size w))
     = set_last_cmd_val 0 (set_last_cmd_ret 0 (cfg w)) /\
   wire (snd (mcu_property_out E command index val size w))
     = entry command index val size :: wire w).
Proof.
  unfold mcu_property_out, legos_cfg_send_cmd, answer, entry, reachable.
  split; [| split].
  - intros Hne.
    destruct (Z.eqb_spec (get_endpoint_address E (hdev w))
                (LEGION_GO_S_CFG_INTF_IN E)); [contradiction | reflexivity].
  - intros Hep Hmem. rewrite Hep, Z.eqb_refl, Hmem. reflexivity.
  - intros [Hep Hmem] Hret. rewrite Hep, Z.eqb_refl, Hmem. cbn [negb].
    destruct (hid_hw_output_report E (hdev w) (make_outbuf command index val size))
      as [h r].
    cbn [snd] in Hret.
    destruct (Z.eqb_spec (hw_ret r) GO_S_PACKET_SIZE); [contradiction |].
    repeat split; reflexivity.
Qed.

Lemma mcu_property_out_early_failures_witness :
  mcu_property_out elsewhere SET_GAMEPAD_CFG CFG_GAMEPAD_MODE [1] 1
    (Stub.boot elsewhere [])
  = (- ENODEV, Stub.boot elsewhere []).
Proof.
  destruct (mcu_property_out_early_failures elsewhere SET_GAMEPAD_CFG
              CFG_GAMEPAD_MODE [1] 1 (Stub.boot elsewhere [])) as (H & _).
  apply H. vm_compute. discriminate.
Defined.

(** X13.  A response that arrives after its issuer has given up fires the
    completion all the same, and the next call consumes it: against a device
    that stays silent the next command returns 0 as if it had been answered,
    with result code and value 0, so a gamepad mode read renders the first
    label. *)
Theorem late_response_completes_next_call
  (E : hid_env) (late : list Z) (index : Z) (w : world E) :
  let w1 := set_cfg E (snd (legos_cfg_raw_event late GO_S_PACKET_SIZE (cfg w))) w in
  reachable w ->
  hw_ret (answer E GET_GAMEPAD_CFG index [] 0 w1) = GO_S_PACKET_SIZE ->
  inbound (answer E GET_GAMEPAD_CFG index [] 0 w1) = [] ->
  (0 < send_cmd_complete (cfg w1))%N /\
  fst (mcu_property_out E GET_GAMEPAD_CFG index [] 0 w1) = 0 /\
  last_cmd_ret (cfg (snd (mcu_property_out E GET_GAMEPAD_CFG index [] 0 w1))) = 0 /\
  last_cmd_val (cfg (snd (mcu_property_out E GET_GAMEPAD_CFG index [] 0 w1))) = 0 /\
  send_cmd_complete (cfg (snd (mcu_property_out E GET_GAMEPAD_CFG index [] 0 w1)))
    = 0%N /\
  (index = CFG_GAMEPAD_MODE ->
   fst (gamepad_property_show E index w1) = sysfs_emit "xinput").
Proof.
  intros w1 Hr Hret Hin.
  assert (Hr1 : reachable w1) by exact Hr.
  destruct (raw_event_completes late (cfg w)) as [Hdone _].
  assert (Hpos : (0 < send_cmd_complete (cfg w1))%N)
    by (subst w1; cbn [cfg set_cfg]; rewrite Hdone; lia).
  assert (Hafter : after_delivery E GET_GAMEPAD_CFG index [] 0 w1
                   = set_last_cmd_val 0 (set_last_cmd_ret 0 (cfg w1)))
    by (unfold after_delivery; rewrite Hin; reflexivity).
  assert (Hpos' : (0 < send_cmd_complete
                        (after_delivery E GET_GAMEPAD_CFG index [] 0 w1))%N)
    by (rewrite Hafter; exact Hpos).
  destruct (mcu_property_out_fired E GET_GAMEPAD_CFG index [] 0 w1 Hr1 Hret Hpos')
    as [H0 _].
  pose proof (mcu_property_out_cfg E GET_GAMEPAD_CFG index [] 0 w1 Hr1 Hret)
    as Hcfg.
  rewrite Hafter in Hcfg.
  split; [exact Hpos |]. split; [exact H0 |].
  rewrite Hcfg. repeat split; try reflexivity.
  intros ->. unfold gamepad_property_show.
  destruct (mcu_property_out E GET_GAMEPAD_CFG CFG_GAMEPAD_MODE [] 0 w1)
    as [ret w2] eqn:Hout.
  cbn [fst snd] in H0, Hcfg. subst ret. rewrite Hcfg. reflexivity.
Qed.

Lemma late_response_completes_next_call_witness :
  fst (gamepad_property_show Stub.silent CFG_GAMEPAD_MODE
         (set_cfg Stub.silent
            (snd (legos_cfg_raw_event
                    (GET_GAMEPAD_CFG :: CFG_GAMEPAD_MODE :: 1 :: replicate 62 0)
                    GO_S_PACKET_SIZE Stub.cfg0))
            (Stub.boot Stub.silent [])))
  = (7, ("xinput" ++ newline)%string).
Proof.
  destruct (late_response_completes_next_call Stub.silent
              (GET_GAMEPAD_CFG :: CFG_GAMEPAD_MODE :: 1 :: replicate 62 0)
              CFG_GAMEPAD_MODE (Stub.boot Stub.silent []))
    as (_ & _ & _ & _ & _ & H);
    [split; reflexivity | reflexivity | reflexivity |].
  exact (H eq_refl).
Defined.


Ltac decode_cases :=
  repeat match goal with
         | |- context [if ?b then _ else _] => destruct b eqn:?
         end.

Ltac absurd_command :=
  repeat match goal with
         | H : (_ || _) = true |- _ => apply orb_true_iff in H; destruct H
         | H : (_ =? _) = true |- _ => apply Z.eqb_eq in H
         end;
  try contradiction; try congruence.

(** X14.  What one well-sized response frame can change.  The stored status
    is always a byte (so the handler returns a value in -255..0).  The MCU
    id is touched only by a GET_MCU_ID answer, the version only by a
    GET_VERSION answer, the lighting fields only by a GET_LIGHT_CFG answer
    (a mode answer changes the mode alone, a selector answer the selector
    alone, a profile record answer neither of them), and the result value
    only by a gamepad, touchpad or test answer. *)
Theorem raw_event_touches_only_its_fields (data : list Z) (c : legos_cfg) :
  let c' := snd (legos_cfg_raw_event data GO_S_PACKET_SIZE c) in
  let cmd := byte_at data 0 in
  let sub_cmd := byte_at data 1 in
  (0 <= last_cmd_ret c' <= 255 /\
   - 255 <= fst (legos_cfg_raw_event data GO_S_PACKET_SIZE c) <= 0) /\
  (cmd <> GET_MCU_ID -> mcu_id c' = mcu_id c) /\
  (cmd <> GET_VERSION -> mcu_ver c' = mcu_ver c) /\
  (cmd <> GET_LIGHT_CFG ->
   rgb_mode c' = rgb_mode c /\ rgb_profile c' = rgb_profile c /\
   rgb_effect c' = rgb_effect c /\ rgb_speed c' = rgb_speed c /\
   subled_intensity c' = subled_intensity c /\ brightness c' = brightness c) /\
  (cmd = GET_LIGHT_CFG -> sub_cmd = LIGHT_MODE_SEL ->
   rgb_mode c' = byte_at data 2 /\ rgb_profile c' = rgb_profile c /\
   rgb_effect c' = rgb_effect c /\ rgb_speed c' = rgb_speed c /\
   subled_intensity c' = subled_intensity c /\ brightness c' = brightness c) /\
  (cmd = GET_LIGHT_CFG -> sub_cmd = LIGHT_PROFILE_SEL ->
   rgb_profile c' = byte_at data 2 /\ rgb_mode c' = rgb_mode c /\
   rgb_effect c' = rgb_effect c /\ rgb_speed c' = rgb_speed c /\
   subled_intensity c' = subled_intensity c /\ brightness c' = brightness c) /\
  (cmd = GET_LIGHT_CFG -> USR_LIGHT_PROFILE_1 <= sub_cmd <= USR_LIGHT_PROFILE_3 ->
   rgb_mode c' = rgb_mode c /\ rgb_profile c' = rgb_profile c /\
   rgb_effect c' = byte_at data 2 /\ brightness c' = byte_at data 6 /\
   rgb_speed c' = byte_at data 7) /\
  (cmd <> GET_GAMEPAD_CFG -> cmd <> GET_TP_PARAM -> cmd <> GET_PL_TEST ->
   last_cmd_val c' = last_cmd_val c).
Proof.
  cbv zeta. unfold legos_cfg_raw_event. rewrite Z.eqb_refl. cbn [negb].
  cbv iota zeta.
  pose proof (u8_range (idx data 2)) as Hb. fold (byte_at data 2) in Hb.
  split; [| split; [| split; [| split; [| split; [| split; [| split]]]]]].
  - cbn [fst snd]. unfold complete.
    decode_cases; cbn; unfold EINVAL; lia.
  - intros Hne. decode_cases; absurd_command; reflexivity.
  - intros Hne. decode_cases; absurd_command; reflexivity.
  - intros Hne. decode_cases; absurd_command; repeat split; reflexivity.
  - intros Hcmd Hsub. rewrite Hcmd, Hsub. cbn. repeat split; reflexivity.
  - intros Hcmd Hsub. rewrite Hcmd, Hsub. cbn. repeat split; reflexivity.
  - intros Hcmd Hsub. rewrite Hcmd. cbn [Z.eqb Pos.eqb orb GET_LIGHT_CFG
      GET_VERSION GET_MCU_ID GET_GAMEPAD_CFG GET_TP_PARAM GET_PL_TEST].
    unfold USR_LIGHT_PROFILE_1, USR_LIGHT_PROFILE_3 in Hsub.
    assert (Hs : byte_at data 1 = 3 \/ byte_at data 1 = 4 \/ byte_at data 1 = 5)
      by lia.
    destruct Hs as [-> | [-> | ->]]; cbn; repeat split; reflexivity.
  - intros H1 H2 H3. decode_cases; absurd_command; reflexivity.
Qed.


Ltac uncons f Hlen :=
  destruct f as [| ? f]; [cbn [length] in Hlen; lia |];
  cbn [length] in Hlen.

(** The answer as the handler stores it. *)
Lemma identity_answer_delivered (E : hid_env) command (w : world E) f :
  inbound (answer E command NONE [] 0 w) = [f] ->
  Z.of_nat (length f) = GO_S_PACKET_SIZE ->
  after_delivery E command NONE [] 0 w
  = snd (legos_cfg_raw_event f GO_S_PACKET_SIZE
           (set_last_cmd_val 0 (set_last_cmd_ret 0 (cfg w)))).
Proof.
  intros Hin Hlen. unfold after_delivery, deliver. rewrite Hin.
  cbn [fold_left]. now rewrite Hlen.
Qed.

(** X15.  Fetching the MCU id.  With nothing cached, a device that answers
    the GET_MCU_ID command makes [mcu_id_get] return 0 and leaves the twelve
    bytes that follow the command byte of the answer in the cache; if any
    of them is non-zero, every later [mcu_id_get] returns [-ENOMEM] without
    transmitting, so the id is fetched at most once. *)
Theorem mcu_id_get_fetches_once (E : hid_env) (w : world E) (f : list Z) :
  reachable w ->
  length (mcu_id (cfg w)) = 12%nat ->
  Forall (fun b => b = 0) (mcu_id (cfg w)) ->
  hw_ret (answer E GET_MCU_ID NONE [] 0 w) = GO_S_PACKET_SIZE ->
  inbound (answer E GET_MCU_ID NONE [] 0 w) = [f] ->
  Z.of_nat (length f) = GO_S_PACKET_SIZE ->
  byte_at f 0 = GET_MCU_ID ->
  fst (mcu_id_get E w) = 0 /\
  mcu_id (cfg (snd (mcu_id_get E w))) = u8 <$> take 12 (drop 1 f) /\
  (Exists (fun b => b <> 0) (u8 <$> take 12 (drop 1 f)) ->
   mcu_id_get E (snd (mcu_id_get E w)) = (- ENOMEM, snd (mcu_id_get E w))).
Proof.
  intros Hr Hlen Hzero Hret Hin Hflen Hcmd.
  pose proof (identity_answer_delivered E GET_MCU_ID w f Hin Hflen) as Hafter.
  destruct (raw_event_completes f
              (set_last_cmd_val 0 (set_last_cmd_ret 0 (cfg w)))) as [Hdone _].
  assert (Hpos : (0 < send_cmd_complete
                     (after_delivery E GET_MCU_ID NONE [] 0 w))%N)
    by (rewrite Hafter, Hdone; lia).
  destruct (mcu_property_out_fired E GET_MCU_ID NONE [] 0 w Hr Hret Hpos)
    as [H0 Hst].
  pose proof (mcu_property_out_cfg E GET_MCU_ID NONE [] 0 w Hr Hret) as Hcfg.
  assert (Hdec : legos_cfg_raw_event f GO_S_PACKET_SIZE
                   (set_last_cmd_val 0 (set_last_cmd_ret 0 (cfg w)))
                 = (0, complete (set_last_cmd_ret 0
                      (set_mcu_id (memcpy_at 1 (u8 <$> drop 2 f) 11
                                     (<[0%nat := byte_at f 1]> (mcu_id (cfg w))))
                         (set_last_cmd_val 0 (set_last_cmd_ret 0 (cfg w))))))).
  { unfold legos_cfg_raw_event. rewrite Z.eqb_refl. cbn [negb]. cbv iota zeta.
    rewrite Hcmd. reflexivity. }
  assert (Hid : memcpy_at 1 (u8 <$> drop 2 f) 11
                  (<[0%nat := byte_at f 1]> (mcu_id (cfg w)))
                = u8 <$> take 12 (drop 1 f)).
  { clear - Hlen Hflen. unfold GO_S_PACKET_SIZE in Hflen.
    destruct (mcu_id (cfg w)) as [| a0 id]; [discriminate |].
    do 11 (destruct id as [| ? id]; [discriminate |]).
    destruct id; [| discriminate].
    do 13 (uncons f Hflen). reflexivity. }
  assert (Hget : mcu_id_get E w
                 = (- last_cmd_ret (cfg (snd (mcu_property_out E GET_MCU_ID NONE [] 0 w))),
                    snd (mcu_property_out E GET_MCU_ID NONE [] 0 w))).
  { unfold mcu_id_get. apply memcmp_zero_false in Hzero. rewrite Hzero.
    destruct (mcu_property_out E GET_MCU_ID NONE [] 0 w) as [ret w1].
    cbn [fst snd] in *. subst ret. reflexivity. }
  rewrite Hget. cbn [fst snd]. rewrite Hcfg, Hafter, Hdec. cbn [snd].
  split; [reflexivity |]. split; [exact Hid |].
  intros Hnz. unfold mcu_id_get at 1. rewrite Hcfg, Hafter, Hdec. cbn [snd].
  assert (Hm : memcmp_zero (u8 <$> take 12 (drop 1 f)) = true)
    by (apply memcmp_zero_true; exact Hnz).
  unfold complete, set_send_cmd_complete, set_last_cmd_ret, set_mcu_id.
  cbn [mcu_id]. rewrite Hid, Hm. reflexivity.
Qed.


Lemma mcu_id_get_fetches_once_witness :
  mcu_id (cfg (snd (mcu_id_get reporting
                      (Stub.boot reporting [1; 2; 3; 4; 5; 6; 7; 8; 9; 10; 11; 12]))))
  = [1; 2; 3; 4; 5; 6; 7; 8; 9; 10; 11; 12].
Proof.
  destruct (mcu_id_get_fetches_once reporting
              (Stub.boot reporting [1; 2; 3; 4; 5; 6; 7; 8; 9; 10; 11; 12])
              (GET_MCU_ID :: [1; 2; 3; 4; 5; 6; 7; 8; 9; 10; 11; 12]
                 ++ replicate 52 0))
    as (_ & H & _);
    [split; reflexivity | reflexivity | repeat constructor | reflexivity
    | reflexivity | reflexivity | reflexivity |].
  exact H.
Defined.

(** X16.  Fetching the MCU version.  With nothing cached, a device that
    answers the GET_VERSION command makes [mcu_version_get] return 0 and
    caches the four bytes that follow the command byte in reverse order
    (the answer carries the least significant part first); once any of them
    is non-zero every later [mcu_version_get] returns [-ENOMEM] without
    transmitting. *)
Theorem mcu_version_get_fetches_once (E : hid_env) (w : world E) (f : list Z) :
  reachable w ->
  length (mcu_ver (cfg w)) = 4%nat ->
  Forall (fun b => b = 0) (mcu_ver (cfg w)) ->
  hw_ret (answer E GET_VERSION NONE [] 0 w) = GO_S_PACKET_SIZE ->
  inbound (answer E GET_VERSION NONE [] 0 w) = [f] ->
  Z.of_nat (length f) = GO_S_PACKET_SIZE ->
  byte_at f 0 = GET_VERSION ->
  fst (mcu_version_get E w) = 0 /\
  mcu_ver (cfg (snd (mcu_version_get E w)))
    = reverse (u8 <$> take 4 (drop 1 f)) /\
  (Exists (fun b => b <> 0) (u8 <$> take 4 (drop 1 f)) ->
   mcu_version_get E (snd (mcu_version_get E w))
   = (- ENOMEM, snd (mcu_version_get E w))).
Proof.
  intros Hr Hlen Hzero Hret Hin Hflen Hcmd.
  pose proof (identity_answer_delivered E GET_VERSION w f Hin Hflen) as Hafter.
  destruct (raw_event_completes f
              (set_last_cmd_val 0 (set_last_cmd_ret 0 (cfg w)))) as [Hdone _].
  assert (Hpos : (0 < send_cmd_complete
                     (after_delivery E GET_VERSION NONE [] 0 w))%N)
    by (rewrite Hafter, Hdone; lia).
  destruct (mcu_property_out_fired E GET_VERSION NONE [] 0 w Hr Hret Hpos)
    as [H0 Hst].
  pose proof (mcu_property_out_cfg E GET_VERSION NONE [] 0 w Hr Hret) as Hcfg.
  assert (Hdec : legos_cfg_raw_event f GO_S_PACKET_SIZE
                   (set_last_cmd_val 0 (set_last_cmd_ret 0 (cfg w)))
                 = (0, complete (set_last_cmd_ret 0
                      (set_mcu_ver
                         (<[3%nat := byte_at f 1]>
                           (<[2%nat := byte_at f 2]>
                             (<[1%nat := byte_at f 3]>
                               (<[0%nat := byte_at f 4]> (mcu_ver (cfg w))))))
                         (set_last_cmd_val 0 (set_last_cmd_ret 0 (cfg w))))))).
  { unfold legos_cfg_raw_event. rewrite Z.eqb_refl. cbn [negb]. cbv iota zeta.
    rewrite Hcmd. reflexivity. }
  assert (Hver : <[3%nat := byte_at f 1]>
                   (<[2%nat := byte_at f 2]>
                     (<[1%nat := byte_at f 3]>
                       (<[0%nat := byte_at f 4]> (mcu_ver (cfg w)))))
                 = reverse (u8 <$> take 4 (drop 1 f))).
  { clear - Hlen Hflen. unfold GO_S_PACKET_SIZE in Hflen.
    destruct (mcu_ver (cfg w)) as [| a0 ver]; [discriminate |].
    do 3 (destruct ver as [| ? ver]; [discriminate |]).
    destruct ver; [| discriminate].
    do 5 (uncons f Hflen). reflexivity. }
  assert (Hget : mcu_version_get E w
                 = (- last_cmd_ret (cfg (snd (mcu_property_out E GET_VERSION NONE [] 0 w))),
                    snd (mcu_property_out E GET_VERSION NONE [] 0 w))).
  { unfold mcu_version_get. apply memcmp_zero_false in Hzero. rewrite Hzero.
    destruct (mcu_property_out E GET_VERSION NONE [] 0 w) as [ret w1].
    cbn [fst snd] in *. subst ret. reflexivity. }
  rewrite Hget. cbn [fst snd]. rewrite Hcfg, Hafter, Hdec. cbn [snd].
  split; [reflexivity |]. split; [exact Hver |].
  intros Hnz. unfold mcu_version_get at 1. rewrite Hcfg, Hafter, Hdec. cbn [snd].
  assert (Hm : memcmp_zero (reverse (u8 <$> take 4 (drop 1 f))) = true).
  { apply memcmp_zero_true. apply Exists_exists in Hnz as (b & Hb & Hnb).
    apply Exists_exists. exists b. split; [| exact Hnb].
    now apply elem_of_reverse. }
  unfold complete, set_send_cmd_complete, set_last_cmd_ret, set_mcu_ver.
  cbn [mcu_ver]. rewrite Hver, Hm. reflexivity.
Qed.

Lemma mcu_version_get_fetches_once_witness :
  mcu_ver (cfg (snd (mcu_version_get reporting (Stub.boot reporting [4; 3; 2; 1]))))
  = [1; 2; 3; 4].
Proof.
  destruct (mcu_version_get_fetches_once reporting
              (Stub.boot reporting [4; 3; 2; 1])
              (GET_VERSION :: [4; 3; 2; 1] ++ replicate 60 0))
    as (_ & H & _);
    [split; reflexivity | reflexivity | repeat constructor | reflexivity
    | reflexivity | reflexivity | reflexivity |].
  exact H.
Defined.

(** X17.  What a set returns once the device has answered.  When the
    confirmation of a gamepad SET carries status byte 0 the store returns
    the caller's byte count; when it carries a non-zero status [s] the store
    returns [-s], the device's code handed through unchanged. *)
Theorem gamepad_store_returns_device_status
  (E : hid_env) (buf : string) (count index val : Z) (w : world E) (f : list Z) :
  let size := if val =? 0 then 0 else 1 in
  0 <= count < 2 ^ 63 ->
  reachable w ->
  gamepad_property_parse E buf index = inr val ->
  hw_ret (answer E SET_GAMEPAD_CFG index [val] size w) = GO_S_PACKET_SIZE ->
  inbound (answer E SET_GAMEPAD_CFG index [val] size w) = [f] ->
  Z.of_nat (length f) = GO_S_PACKET_SIZE ->
  byte_at f 0 = SET_GAMEPAD_CFG ->
  fst (gamepad_property_store E buf count index w)
  = if byte_at f 2 =? 0 then count else - byte_at f 2.
Proof.
  intros size Hcount Hr Hparse Hret Hin Hflen Hcmd.
  assert (Hafter : after_delivery E SET_GAMEPAD_CFG index [val] size w
                   = snd (legos_cfg_raw_event f GO_S_PACKET_SIZE
                            (set_last_cmd_val 0 (set_last_cmd_ret 0 (cfg w))))).
  { unfold after_delivery, deliver. rewrite Hin. cbn [fold_left].
    now rewrite Hflen. }
  destruct (raw_event_completes f
              (set_last_cmd_val 0 (set_last_cmd_ret 0 (cfg w)))) as [Hdone _].
  assert (Hpos : (0 < send_cmd_complete
                     (after_delivery E SET_GAMEPAD_CFG index [val] size w))%N)
    by (rewrite Hafter, Hdone; lia).
  destruct (mcu_property_out_fired E SET_GAMEPAD_CFG index [val] size w
              Hr Hret Hpos) as [H0 Hst].
  assert (Hstatus : last_cmd_ret
                      (after_delivery E SET_GAMEPAD_CFG index [val] size w)
                    = byte_at f 2).
  { rewrite Hafter. unfold legos_cfg_raw_event. rewrite Z.eqb_refl.
    cbn [negb]. cbv iota zeta. rewrite Hcmd. reflexivity. }
  unfold gamepad_property_store. rewrite Hparse. fold size.
  destruct (mcu_property_out E SET_GAMEPAD_CFG index [val] size w) as [ret w1].
  cbn [fst snd] in *. subst ret. cbn [Z.ltb Z.compare].
  rewrite Hst, Hstatus.
  destruct (Z.eqb_spec (byte_at f 2) 0); cbn [negb];
    [apply ssize_t_size_t; lia | reflexivity].
Qed.

Lemma gamepad_store_returns_device_status_witness :
  fst (gamepad_property_store (Stub.refusing 5) "dinput" 7 CFG_GAMEPAD_MODE
         (Stub.boot (Stub.refusing 5) [])) = - 5.
Proof.
  apply (gamepad_store_returns_device_status (Stub.refusing 5) "dinput" 7
           CFG_GAMEPAD_MODE 1 (Stub.boot (Stub.refusing 5) [])
           (SET_GAMEPAD_CFG :: CFG_GAMEPAD_MODE :: 5 :: replicate 62 0));
    [lia | split; reflexivity | reflexivity | reflexivity | reflexivity
    | reflexivity | reflexivity].
Defined.

(** X18.  The RGB profile record is written in custom mode only.  In any
    other mode [rgb_attr_store] returns [-EINVAL] and leaves everything as
    it is.  The callers have stored their new value in the driver data
    before that check: storing a listed effect label, or a speed in 0..100,
    still returns [-EINVAL] and puts nothing on the wire, yet the cached
    effect is now the label's position in the listing, the cached speed the
    new speed; the LED hook keeps the new brightness in the same way. *)
Theorem rgb_profile_write_gated (E : hid_env) (w : world E) :
  rgb_mode (cfg w) <> RGB_MODE_CUSTOM ->
  rgb_attr_store E w = (- EINVAL, w) /\
  rgb_effect_index_show
    = (Z.of_nat (String.length (listing RGB_EFFECT_TEXT)),
       listing RGB_EFFECT_TEXT) /\
  (forall (i : nat) l count, RGB_EFFECT_TEXT !! i = Some l ->
     rgb_effect_store E l count w
     = (- EINVAL, set_cfg E (set_rgb_effect (Z.of_nat i) (cfg w)) w)) /\
  (forall buf count v, kstrtoint E buf = (0, v) -> 0 <= s32 v <= 100 ->
     rgb_speed_store E buf count w
     = (- EINVAL, set_cfg E (set_rgb_speed (s32 v) (cfg w)) w)) /\
  (forall value,
     legos_rgb_color_set E value w
       = set_cfg E (set_brightness value (cfg w)) w /\
     legos_rgb_color_get E (legos_rgb_color_set E value w) = value).
Proof.
  intros Hmode.
  assert (Hgate : forall c, rgb_mode c = rgb_mode (cfg w) ->
            rgb_attr_store E (set_cfg E c w) = (- EINVAL, set_cfg E c w)).
  { intros c Hc. unfold rgb_attr_store. cbn [cfg set_cfg]. rewrite Hc.
    destruct (Z.eqb_spec (rgb_mode (cfg w)) RGB_MODE_CUSTOM);
      [contradiction | reflexivity]. }
  split; [| split; [reflexivity | split; [| split]]].
  - destruct w as [c h wr]. exact (Hgate c eq_refl).
  - intros i l count Hl.
    pose proof label_tables_nodup as Hnd.
    repeat match type of Hnd with
           | Forall _ (_ :: _) => apply Forall_cons in Hnd as [? Hnd]
           end.
    assert (Hm : sysfs_match_string RGB_EFFECT_TEXT l = Z.of_nat i).
    { unfold sysfs_match_string.
      rewrite (match_string_from_hit 0 RGB_EFFECT_TEXT i l); [lia | tauto | exact Hl]. }
    apply lookup_lt_Some in Hl. cbn [length RGB_EFFECT_TEXT] in Hl.
    unfold rgb_effect_store. rewrite Hm.
    destruct (Z.ltb_spec (Z.of_nat i) 0); [lia |].
    assert (Hu : u8 (Z.of_nat i) = Z.of_nat i) by (apply Z.mod_small; lia).
    rewrite Hu, Hgate by reflexivity. reflexivity.
  - intros buf count v Hparse Hrange. unfold rgb_speed_store.
    rewrite Hparse. cbn [Z.eqb negb].
    destruct (Z.gtb_spec (s32 v) 100); [lia |].
    destruct (Z.ltb_spec (s32 v) 0); [lia |]. cbn [orb].
    assert (Hu : u8 (s32 v) = s32 v) by (apply Z.mod_small; lia).
    rewrite Hu, Hgate by reflexivity. reflexivity.
  - intros value. unfold legos_rgb_color_set, legos_rgb_color_get.
    rewrite Hgate by reflexivity. split; reflexivity.
Qed.

Lemma rgb_profile_write_gated_witness :
  rgb_effect_store Stub.echo "rainbow" 8 (Stub.boot Stub.echo [])
  = (- EINVAL,
     set_cfg Stub.echo (set_rgb_effect 3 Stub.cfg0) (Stub.boot Stub.echo [])).
Proof.
  destruct (rgb_profile_write_gated Stub.echo (Stub.boot Stub.echo []))
    as (_ & _ & H & _); [vm_compute; discriminate |].
  exact (H 3%nat "rainbow"%string 8 eq_refl).
Defined.

(** One call of [mcu_property_out] either transmits its frame or fails with
    a negative code without transmitting. *)
Lemma mcu_property_out_sent_or_failed
  (E : hid_env) command index val size (w : world E) :
  (wire (snd (mcu_property_out E command index val size w)) = wire w /\
   fst (mcu_property_out E command index val size w) < 0) \/
  wire (snd (mcu_property_out E command index val size w))
    = entry command index val size :: wire w.
Proof.
  unfold mcu_property_out, legos_cfg_send_cmd, entry.
  destruct (get_endpoint_address E (hdev w) =? LEGION_GO_S_CFG_INTF_IN E);
    simpl; [| left; split; [reflexivity | reflexivity]].
  destruct (kmemdup_ok E (hdev w)); simpl;
    [| left; split; [reflexivity | reflexivity]].
  destruct (hid_hw_output_report E (hdev w) (make_outbuf command index val size))
    as [h r].
  destruct (hw_ret r =? GO_S_PACKET_SIZE); simpl; [| now right].
  destruct (wait_for_completion_interruptible_timeout _ _) as [ret c2].
  now right.
Qed.

Lemma rgb_cfg_call_sent_or_failed
  (E : hid_env) cmd index val size (w : world E) :
  (wire (snd (rgb_cfg_call E cmd index val size w)) = wire w /\
   fst (rgb_cfg_call E cmd index val size w) < 0) \/
  (wire (snd (rgb_cfg_call E cmd index val size w))
     = entry cmd index val size :: wire w /\
   LIGHT_MODE_SEL <= index <= USR_LIGHT_PROFILE_3).
Proof.
  unfold rgb_cfg_call.
  destruct (negb (cmd =? GET_LIGHT_CFG) && negb (cmd =? SET_LIGHT_CFG));
    [left; split; reflexivity |].
  destruct (Z.ltb_spec index LIGHT_MODE_SEL);
    [left; split; reflexivity |].
  destruct (Z.gtb_spec index USR_LIGHT_PROFILE_3);
    [left; split; reflexivity |]. cbn [orb].
  destruct (mcu_property_out_sent_or_failed E cmd index val size w)
    as [[Hw Hneg] | Hw];
    destruct (mcu_property_out E cmd index val size w) as [ret w1];
    cbn [fst snd] in *.
  - destruct (Z.eqb_spec ret 0); [lia |]. left. split; assumption.
  - right. split; [| lia].
    destruct (negb (ret =? 0)); [exact Hw |].
    destruct (negb (last_cmd_ret (cfg w1) =? 0)); exact Hw.
Qed.

Lemma identity_get_sent_or_failed (E : hid_env) (w : world E) :
  ((wire (snd (mcu_id_get E w)) = wire w /\ fst (mcu_id_get E w) <> 0) \/
   wire (snd (mcu_id_get E w)) = entry GET_MCU_ID NONE [] 0 :: wire w) /\
  ((wire (snd (mcu_version_get E w)) = wire w /\
    fst (mcu_version_get E w) <> 0) \/
   wire (snd (mcu_version_get E w)) = entry GET_VERSION NONE [] 0 :: wire w).
Proof.
  split.
  - unfold mcu_id_get.
    destruct (memcmp_zero (mcu_id (cfg w)));
      [left; split; [reflexivity | discriminate] |].
    destruct (mcu_property_out_sent_or_failed E GET_MCU_ID NONE [] 0 w)
      as [[Hw Hneg] | Hw];
      destruct (mcu_property_out E GET_MCU_ID NONE [] 0 w) as [ret w1];
      cbn [fst snd] in *.
    + destruct (Z.ltb_spec ret 0); [| lia]. left. split; [exact Hw | cbn; lia].
    + right. destruct (ret <? 0); exact Hw.
  - unfold mcu_version_get.
    destruct (memcmp_zero (mcu_ver (cfg w)));
      [left; split; [reflexivity | discriminate] |].
    destruct (mcu_property_out_sent_or_failed E GET_VERSION NONE [] 0 w)
      as [[Hw Hneg] | Hw];
      destruct (mcu_property_out E GET_VERSION NONE [] 0 w) as [ret w1];
      cbn [fst snd] in *.
    + destruct (Z.ltb_spec ret 0); [| lia]. left. split; [exact Hw | cbn; lia].
    + right. destruct (ret <? 0); exact Hw.
Qed.

Lemma rgb_attr_show_sent_or_not (E : hid_env) (w : world E) :
  wire (snd (rgb_attr_show E w)) = wire w \/
  (wire (snd (rgb_attr_show E w))
     = entry GET_LIGHT_CFG (rgb_profile (cfg w) + 2) [] 0 :: wire w /\
   1 <= rgb_profile (cfg w) + 2 <= 5).
Proof.
  unfold rgb_attr_show, rgb_profile_call.
  change (negb (GET_LIGHT_CFG =? SET_LIGHT_CFG)
          && negb (GET_LIGHT_CFG =? GET_LIGHT_CFG)) with false.
  cbv iota zeta.
  destruct (rgb_cfg_call_sent_or_failed E GET_LIGHT_CFG
              (rgb_profile (cfg w) + 2) [] 0 w) as [[Hw _] | [Hw Hr]];
    destruct (rgb_cfg_call E GET_LIGHT_CFG (rgb_profile (cfg w) + 2) [] 0 w)
      as [ret w1]; cbn [fst snd] in *;
    [left | right; split; [| exact Hr]];
    destruct (ret <? 0); try exact Hw;
    destruct (negb (last_cmd_ret (cfg w1) =? 0)); exact Hw.
Qed.

Ltac trace_done k i5 :=
  exists k, i5; split; [first [assumption | unfold LIGHT_MODE_SEL, USR_LIGHT_PROFILE_3 in *; lia] |];
  repeat match goal with
         | H : wire ?x = _ |- context [wire ?x] => rewrite H; clear H
         end;
  reflexivity.

(** X19.  What the deferred bring-up transmits.  [cfg_setup] puts on the
    wire a leading part of one fixed sequence of five requests and nothing
    else: the MCU id, the MCU version, the light mode selector, the light
    profile selector and one profile record whose index is in 1..5.  Every
    one of them is a GET without payload, so the bring-up never changes a
    device setting, and a request is only sent after all the ones before
    it. *)
Theorem cfg_setup_requests (E : hid_env) (w : world E) :
  exists (k : nat) (i5 : Z),
    1 <= i5 <= 5 /\
    wire (cfg_setup E w)
    = reverse (take k [entry GET_MCU_ID NONE [] 0;
                       entry GET_VERSION NONE [] 0;
                       entry GET_LIGHT_CFG LIGHT_MODE_SEL [] 0;
                       entry GET_LIGHT_CFG LIGHT_PROFILE_SEL [] 0;
                       entry GET_LIGHT_CFG i5 [] 0]) ++ wire w.
Proof.
  unfold cfg_setup.
  destruct (identity_get_sent_or_failed E w) as [[[Hw1 Hf1] | Hw1] _];
    destruct (mcu_id_get E w) as [r1 w1]; cbn [fst snd] in *.
  { destruct (Z.eqb_spec r1 0); [contradiction |]. cbn [negb].
    trace_done 0%nat 1. }
  destruct (Z.eqb_spec r1 0); cbn [negb]; [| trace_done 1%nat 1].
  destruct (identity_get_sent_or_failed E w1) as [_ [[Hw2 Hf2] | Hw2]];
    destruct (mcu_version_get E w1) as [r2 w2]; cbn [fst snd] in *.
  { destruct (Z.eqb_spec r2 0); [contradiction |]. cbn [negb].
    trace_done 1%nat 1. }
  destruct (Z.eqb_spec r2 0); cbn [negb]; [| trace_done 2%nat 1].
  destruct (rgb_cfg_call_sent_or_failed E GET_LIGHT_CFG LIGHT_MODE_SEL [] 0 w2)
    as [[Hw3 Hf3] | [Hw3 _]];
    destruct (rgb_cfg_call E GET_LIGHT_CFG LIGHT_MODE_SEL [] 0 w2)
      as [r3 w3]; cbn [fst snd] in *.
  { destruct (Z.ltb_spec r3 0); [| lia]. trace_done 2%nat 1. }
  destruct (Z.ltb_spec r3 0); [trace_done 3%nat 1 |].
  destruct (rgb_cfg_call_sent_or_failed E GET_LIGHT_CFG LIGHT_PROFILE_SEL [] 0 w3)
    as [[Hw4 Hf4] | [Hw4 _]];
    destruct (rgb_cfg_call E GET_LIGHT_CFG LIGHT_PROFILE_SEL [] 0 w3)
      as [r4 w4]; cbn [fst snd] in *.
  { destruct (Z.ltb_spec r4 0); [| lia]. trace_done 3%nat 1. }
  destruct (Z.ltb_spec r4 0); [trace_done 4%nat 1 |].
  destruct (rgb_attr_show_sent_or_not E w4) as [Hw5 | [Hw5 Hr5]].
  - trace_done 4%nat 1.
  - trace_done 5%nat (rgb_profile (cfg w4) + 2).
Qed.

(** What the numeric arms of [gamepad_property_parse] accept. *)
Lemma gamepad_options_parse_numeric (E : hid_env) (buf : string) (v : Z) :
  kstrtou8 E buf = (0, v) ->
  gamepad_property_parse E buf CFG_AUTO_SLP_TIME = inr (u8 v) /\
  (1 <= u8 v <= 127 ->
   gamepad_property_parse E buf CFG_MS_WHEEL_STEP = inr (u8 v)).
Proof.
  intros Hparse. pose proof (u8_range v). split.
  - unfold gamepad_property_parse. cbn [Z.eqb orb Pos.eqb]. rewrite Hparse.
    cbn [Z.eqb negb].
    destruct (Z.ltb_spec (u8 v) 0); [lia |].
    destruct (Z.gtb_spec (u8 v) 255); [lia | reflexivity].
  - intros Hr. unfold gamepad_property_parse. cbn [Z.eqb orb Pos.eqb].
    rewrite Hparse. cbn [Z.eqb negb].
    destruct (Z.ltb_spec (u8 v) 1); [lia |].
    destruct (Z.gtb_spec (u8 v) 127); [lia | reflexivity].
Qed.

(** Every byte is one of 256 numerals. *)
Lemma byte_cases (P : Z -> Prop) :
  (forall n : nat, (n < 256)%nat -> P (Z.of_nat n)) ->
  forall v, 0 <= v < 256 -> P v.
Proof.
  intros H v Hv. rewrite <- (Z2Nat.id v) by lia. apply H. lia.
Qed.

(** A numeric gamepad value sent to the echoing device and read back. *)
Lemma gamepad_numeric_echo (index val : Z) (w : world Stub.echo) :
  (index = CFG_AUTO_SLP_TIME /\ 0 <= val < 256) \/
  (index = CFG_MS_WHEEL_STEP /\ 1 <= val <= 127) ->
  let r := mcu_property_out Stub.echo SET_GAMEPAD_CFG index [val]
             (if val =? 0 then 0 else 1) w in
  fst r = 0 /\ last_cmd_ret (cfg (snd r)) = 0 /\
  fst (gamepad_property_show Stub.echo index (snd r)) = sysfs_emit (fmt_u val).
Proof.
  destruct w as [[done ret lval id ver prof eff spd mode inten bri] h wr].
  intros [[-> Hv] | [-> Hv]].
  - revert val Hv. apply (byte_cases (fun val => _)). intros n Hn.
    do 256 (destruct n as [| n];
            [destruct done; vm_compute; repeat split; reflexivity |]).
    lia.
  - assert (Hb : 0 <= val < 256) by lia. revert Hv. revert val Hb.
    apply (byte_cases (fun val => _ -> _)). intros n Hn Hv.
    destruct n as [| n]; [lia |].
    do 127 (destruct n as [| n];
            [destruct done; vm_compute; repeat split; reflexivity |]).
    lia.
Qed.

(** A profile selector sent to the echoing device and read back. *)
Lemma rgb_profile_echo (val : Z) (w : world Stub.echo) :
  1 <= val <= 3 ->
  let r := rgb_cfg_call Stub.echo SET_LIGHT_CFG LIGHT_PROFILE_SEL [val]
             (if val =? 0 then 0 else 1)
             (set_cfg Stub.echo (set_rgb_profile val (cfg w)) w) in
  fst r = 0 /\ last_cmd_ret (cfg (snd r)) = 0 /\
  fst (rgb_profile_show Stub.echo (snd r)) = sysfs_emit (fmt_u val).
Proof.
  destruct w as [[done ret lval id ver prof eff spd mode inten bri] h wr].
  intros Hv. assert (Hc : val = 1 \/ val = 2 \/ val = 3) by lia.
  destruct Hc as [-> | [-> | ->]];
    destruct done; vm_compute; repeat split; reflexivity.
Qed.

(** X20.  Numeric attributes round-trip through the device.  Against the
    echoing device, from any driver and device state: a sleep time that
    parses to a byte, a wheel step in 1..127 and a profile number in 1..3
    are stored with the caller's byte count as return value, and the show
    that follows renders the stored number in decimal followed by a line
    feed. *)
Theorem numeric_store_show_round_trip
  (buf : string) (count v : Z) (w : world Stub.echo) :
  0 <= count < 2 ^ 63 ->
  kstrtou8 Stub.echo buf = (0, v) ->
  (fst (gamepad_property_store Stub.echo buf count CFG_AUTO_SLP_TIME w) = count /\
   fst (gamepad_property_show Stub.echo CFG_AUTO_SLP_TIME
          (snd (gamepad_property_store Stub.echo buf count CFG_AUTO_SLP_TIME w)))
     = sysfs_emit (fmt_u (u8 v))) /\
  (1 <= u8 v <= 127 ->
   fst (gamepad_property_store Stub.echo buf count CFG_MS_WHEEL_STEP w) = count /\
   fst (gamepad_property_show Stub.echo CFG_MS_WHEEL_STEP
          (snd (gamepad_property_store Stub.echo buf count CFG_MS_WHEEL_STEP w)))
     = sysfs_emit (fmt_u (u8 v))) /\
  (1 <= u8 v <= 3 ->
   fst (rgb_profile_store Stub.echo buf count w) = count /\
   fst (rgb_profile_show Stub.echo (snd (rgb_profile_store Stub.echo buf count w)))
     = sysfs_emit (fmt_u (u8 v))).
Proof.
  intros Hcount Hparse.
  assert (Hback : ssize_t (size_t count) = count)
    by (apply ssize_t_size_t; lia).
  pose proof (u8_range v) as Hbyte.
  assert (Hg : forall index,
            (index = CFG_AUTO_SLP_TIME /\ 0 <= u8 v < 256) \/
            (index = CFG_MS_WHEEL_STEP /\ 1 <= u8 v <= 127) ->
            gamepad_property_parse Stub.echo buf index = inr (u8 v) ->
            fst (gamepad_property_store Stub.echo buf count index w) = count /\
            fst (gamepad_property_show Stub.echo index
                   (snd (gamepad_property_store Stub.echo buf count index w)))
              = sysfs_emit (fmt_u (u8 v))).
  { intros index Hidx Hp. unfold gamepad_property_store. rewrite Hp.
    destruct (gamepad_numeric_echo index (u8 v) w Hidx) as (Hz & Hst & Hshow).
    destruct (mcu_property_out Stub.echo SET_GAMEPAD_CFG index [u8 v]
                (if u8 v =? 0 then 0 else 1) w) as [ret w1].
    cbn [fst snd] in *. subst ret. rewrite Hst. cbn [Z.ltb Z.compare Z.eqb negb].
    cbn [fst snd]. split; [exact Hback | exact Hshow]. }
  destruct (gamepad_options_parse_numeric Stub.echo buf v Hparse) as [Hsleep Hwheel].
  split; [| split].
  - apply Hg; [left; split; [reflexivity | lia] | exact Hsleep].
  - intros Hr. apply Hg; [right; split; [reflexivity | exact Hr] |].
    now apply Hwheel.
  - intros Hr. unfold rgb_profile_store. rewrite Hparse.
    cbn [Z.ltb Z.compare].
    destruct (Z.gtb_spec (u8 v) 3); [lia |].
    destruct (Z.ltb_spec (u8 v) 1); [lia |]. cbn [orb].
    cbv zeta. cbn [cfg set_cfg rgb_profile set_rgb_profile].
    destruct (rgb_profile_echo (u8 v) w Hr) as (Hz & Hst & Hshow).
    unfold set_cfg in Hz, Hst, Hshow. cbn [cfg] in Hz, Hst, Hshow.
    destruct (rgb_cfg_call Stub.echo SET_LIGHT_CFG LIGHT_PROFILE_SEL [u8 v]
                (if u8 v =? 0 then 0 else 1) _) as [ret w1].
    cbn [fst snd] in *. subst ret. rewrite Hst. cbn [Z.ltb Z.compare Z.eqb negb].
    cbn [fst snd]. split; [exact Hback | exact Hshow].
Qed.

Lemma numeric_store_show_round_trip_witness :
  fst (gamepad_property_store Stub.echo "90" 3 CFG_MS_WHEEL_STEP
         (Stub.boot Stub.echo [])) = 3 /\
  fst (gamepad_property_show Stub.echo CFG_MS_WHEEL_STEP
         (snd (gamepad_property_store Stub.echo "90" 3 CFG_MS_WHEEL_STEP
                 (Stub.boot Stub.echo []))))
    = (3, ("90" ++ newline)%string).
Proof.
  destruct (numeric_store_show_round_trip "90" 3 90 (Stub.boot Stub.echo []))
    as (_ & H & _); [lia | reflexivity |].
  apply H. vm_compute. split; discriminate.
Defined.

(** The echoing device hands a written profile record back: every field
    comes back as the byte that was sent. *)
Lemma rgb_record_echo (w : world Stub.echo) :
  rgb_mode (cfg w) = RGB_MODE_CUSTOM ->
  1 <= rgb_profile (cfg w) <= 3 ->
  length (subled_intensity (cfg w)) = 3%nat ->
  let w1 := snd (rgb_attr_store Stub.echo w) in
  let w2 := snd (rgb_attr_show Stub.echo w1) in
  fst (rgb_attr_store Stub.echo w) = 0 /\
  fst (rgb_attr_show Stub.echo w1) = 0 /\
  rgb_effect (cfg w2) = u8 (rgb_effect (cfg w)) /\
  subled_intensity (cfg w2) = u8 <$> subled_intensity (cfg w) /\
  brightness (cfg w2) = u8 (brightness (cfg w)) /\
  rgb_speed (cfg w2) = u8 (rgb_speed (cfg w)) /\
  rgb_mode (cfg w2) = RGB_MODE_CUSTOM /\
  rgb_profile (cfg w2) = rgb_profile (cfg w).
Proof.
  destruct w as [[done ret lval id ver prof eff spd mode inten bri] h wr].
  cbn [cfg rgb_mode rgb_profile subled_intensity rgb_effect brightness rgb_speed].
  intros -> Hprof Hlen.
  destruct inten as [| r [| g [| b [| ? ?]]]]; try discriminate. clear Hlen.
  cbn [fmap list_fmap].
  rewrite <- (ZotacMode.u8_u8 eff), <- (ZotacMode.u8_u8 (u8 eff)).
  rewrite <- (ZotacMode.u8_u8 r), <- (ZotacMode.u8_u8 (u8 r)).
  rewrite <- (ZotacMode.u8_u8 g), <- (ZotacMode.u8_u8 (u8 g)).
  rewrite <- (ZotacMode.u8_u8 b), <- (ZotacMode.u8_u8 (u8 b)).
  rewrite <- (ZotacMode.u8_u8 bri), <- (ZotacMode.u8_u8 (u8 bri)).
  rewrite <- (ZotacMode.u8_u8 spd), <- (ZotacMode.u8_u8 (u8 spd)).
  assert (Hp : prof = 1 \/ prof = 2 \/ prof = 3) by lia.
  destruct Hp as [-> | [-> | ->]]; destruct done;
    repeat (split; [reflexivity |]); reflexivity.
Qed.

(** X21.  The RGB profile record round-trips through the device.  In custom
    mode with profile 1..3 selected, against the echoing device: writing
    the record succeeds, the read that follows succeeds and leaves in the
    driver data the effect, the three colour intensities, the brightness
    and the speed that were written, each reduced to a byte, with mode and
    profile selector untouched.  In particular a speed in 0..100 is stored
    with the caller's byte count as return value and the show that follows
    renders it. *)
Theorem rgb_record_round_trip (w : world Stub.echo) :
  rgb_mode (cfg w) = RGB_MODE_CUSTOM ->
  1 <= rgb_profile (cfg w) <= 3 ->
  length (subled_intensity (cfg w)) = 3%nat ->
  (let w1 := snd (rgb_attr_store Stub.echo w) in
   let w2 := snd (rgb_attr_show Stub.echo w1) in
   fst (rgb_attr_store Stub.echo w) = 0 /\
   fst (rgb_attr_show Stub.echo w1) = 0 /\
   rgb_effect (cfg w2) = u8 (rgb_effect (cfg w)) /\
   subled_intensity (cfg w2) = u8 <$> subled_intensity (cfg w) /\
   brightness (cfg w2) = u8 (brightness (cfg w)) /\
   rgb_speed (cfg w2) = u8 (rgb_speed (cfg w)) /\
   rgb_mode (cfg w2) = rgb_mode (cfg w) /\
   rgb_profile (cfg w2) = rgb_profile (cfg w)) /\
  (forall buf count v,
     0 <= count < 2 ^ 63 ->
     kstrtoint Stub.echo buf = (0, v) -> 0 <= s32 v <= 100 ->
     fst (rgb_speed_store Stub.echo buf count w) = count /\
     fst (rgb_speed_show Stub.echo (snd (rgb_speed_store Stub.echo buf count w)))
       = sysfs_emit (fmt_u (s32 v))).
Proof.
  intros Hmode Hprof Hlen. split.
  - cbv zeta. rewrite Hmode. exact (rgb_record_echo w Hmode Hprof Hlen).
  - intros buf count v Hcount Hparse Hrange.
    assert (Hu : u8 (s32 v) = s32 v) by (apply Z.mod_small; lia).
    unfold rgb_speed_store. rewrite Hparse. cbn [Z.eqb negb].
    destruct (Z.gtb_spec (s32 v) 100); [lia |].
    destruct (Z.ltb_spec (s32 v) 0); [lia |]. cbn [orb]. cbv zeta.
    rewrite Hu.
    destruct (rgb_record_echo
                (set_cfg Stub.echo (set_rgb_speed (s32 v) (cfg w)) w)
                Hmode Hprof Hlen) as (Hz & Hz' & _ & _ & _ & Hspd & _).
    cbn [cfg set_cfg rgb_speed set_rgb_speed] in Hspd.
    destruct (rgb_attr_store Stub.echo
                (set_cfg Stub.echo (set_rgb_speed (s32 v) (cfg w)) w))
      as [ret w1].
    cbn [fst snd] in *. subst ret. cbn [Z.eqb negb fst snd].
    split; [apply ssize_t_size_t; lia |].
    unfold rgb_speed_show.
    destruct (rgb_attr_show Stub.echo w1) as [ret w2].
    cbn [fst snd] in *. subst ret. cbn [Z.eqb negb fst].
    rewrite Hspd, ZotacMode.u8_u8, Hu. reflexivity.
Qed.

Lemma rgb_record_round_trip_witness :
  subled_intensity
    (cfg (snd (rgb_attr_show Stub.echo
                 (snd (rgb_attr_store Stub.echo
                         (set_cfg Stub.echo
                            (set_subled_intensity [300; 2; 3]
                               (set_rgb_mode 1 (set_rgb_profile 2 Stub.cfg0)))
                            (Stub.boot Stub.echo [])))))))
  = [44; 2; 3].
Proof.
  destruct (rgb_record_round_trip
              (set_cfg Stub.echo
                 (set_subled_intensity [300; 2; 3]
                    (set_rgb_mode 1 (set_rgb_profile 2 Stub.cfg0)))
                 (Stub.boot Stub.echo [])))
    as ((_ & _ & _ & H & _) & _);
    [reflexivity | vm_compute; split; discriminate | reflexivity |].
  exact H.
Defined.

End LegosExtra.
